(** * chown.go: the race-safe ownership-change engine

    A shallow embedding of [walk], [readDirNames], [ChownFiles],
    [ChangeOwner], [RestrictedChown] and [DescribeChange] of
    src/coreutils/chown/chown.go, and of [main] with the four lookup
    functions it calls.

    The operating system is an oracle: every call of the [os], [syscall],
    [os/user] and [fmt] packages is answered by a field of [OS] from the
    current world and yields the next world, so the file system may change
    between any two calls (the race the program defends against).  Each call
    is appended, with its arguments and its answer, to a trace.  Go panics are
    an outcome of their own; recursion of [walk] is bounded by fuel. *)

From Stdlib Require Import ZArith List String Ascii Bool Lia.
From Stdlib Require Import Sorting.Permutation Sorting.Sorted.
From Stdlib Require Import Structures.OrdersEx Classes.RelationClasses.
From Stdlib Require Import DecimalString DecimalN.
Import ListNotations.
Local Open Scope string_scope.
Local Open Scope list_scope.
Local Open Scope Z_scope.

(** ** Data *)

(** [syscall.Errno], by number (linux/amd64). *)
Definition Errno := Z.
Definition EPERM : Errno := 1.
Definition ENOENT : Errno := 2.
Definition EIO : Errno := 5.
Definition EBADF : Errno := 9.
Definition EACCES : Errno := 13.
Definition ENOTDIR : Errno := 20.
Definition EISDIR : Errno := 21.
Definition EINVAL : Errno := 22.
Definition EOPNOTSUPP : Errno := 95.

(** [os.IsPermission] on an error that wraps an errno. *)
Definition IsPermission (e : Errno) : bool := (e =? EACCES) || (e =? EPERM).

(** Errors made by the program itself, next to those of the system. *)
Inductive error : Type :=
| SysErr (e : Errno)
| SkipDir
| CantFind.

(** The fields of [syscall.Stat_t] the program reads. *)
Record Stat_t : Type := mkStat_t {
  Dev : Z;
  Ino : Z;
  Mode : Z;   (* st_mode, a uint32 holding the kernel's mode bits *)
  Uid : Z;    (* uint32 *)
  Gid : Z     (* uint32 *)
}.

(** [syscall.Stat_t{}] *)
Definition zero_Stat_t : Stat_t := mkStat_t 0 0 0 0 0.

(** An [os.FileInfo] that is not nil: its [Mode()], an [os.FileMode], and
    the [Stat_t] behind it, which [os.SameFile] reads. *)
Record FileInfo : Type := mkFileInfo {
  fi_Mode : Z;
  fi_Sys : Stat_t
}.

(** Constants of the source; [int] and [uint] have 64 bits. *)
Definition ROOT_INODE : Z := 2.
Definition MAX_INT : Z := Z.shiftr (2 ^ 64 - 1) 1.

Definition ModeDir : Z := Z.shiftl 1 (32 - 1 - 0).
Definition ModeAppend : Z := Z.shiftl 1 (32 - 1 - 1).
Definition ModeExclusive : Z := Z.shiftl 1 (32 - 1 - 2).
Definition ModeTemporary : Z := Z.shiftl 1 (32 - 1 - 3).
Definition ModeSymlink : Z := Z.shiftl 1 (32 - 1 - 4).
Definition ModeDevice : Z := Z.shiftl 1 (32 - 1 - 5).
Definition ModeNamedPipe : Z := Z.shiftl 1 (32 - 1 - 6).
Definition ModeSocket : Z := Z.shiftl 1 (32 - 1 - 7).
Definition ModeSetuid : Z := Z.shiftl 1 (32 - 1 - 8).
Definition ModeSetgid : Z := Z.shiftl 1 (32 - 1 - 9).
Definition ModeCharDevice : Z := Z.shiftl 1 (32 - 1 - 10).
Definition ModeSticky : Z := Z.shiftl 1 (32 - 1 - 11).
Definition ModeType : Z :=
  Z.lor ModeDir (Z.lor ModeSymlink (Z.lor ModeNamedPipe (Z.lor ModeSocket ModeDevice))).
Definition ModePerm : Z := 511.

(** [RCStatus] and [CHStatus] are integer types; the constants come from
    [iota], and 0 (the zero value of a fresh variable) is none of them. *)
Definition RCStatus := Z.
Definition RC_OK : RCStatus := 2.
Definition RC_EXCLUDED : RCStatus := 3.
Definition RC_INODE_CHANGED : RCStatus := 4.
Definition RC_DO_ORDINARY_CHOWN : RCStatus := 5.
Definition RC_ERROR : RCStatus := 6.

Definition CHStatus := Z.
Definition CH_NOT_APPLIED : CHStatus := 1.
Definition CH_SUCCEEDED : CHStatus := 2.
Definition CH_FAILED : CHStatus := 3.
Definition CH_NO_CHANGE_REQUESTED : CHStatus := 4.

(** Open flags of package [syscall] (linux/amd64). *)
Definition O_RDONLY : Z := 0.
Definition O_WRONLY : Z := 1.
Definition O_NOCTTY : Z := 256.
Definition O_NONBLOCK : Z := 2048.
Definition O_DIRECTORY : Z := 65536.

(** The conversion [uint32(x)] of an [int]. *)
Definition uint32 (x : Z) : Z := x mod 2 ^ 32.

(** [FileMode.IsDir], [FileMode.IsRegular] (on the [ModeType] the source
    copies), and the symlink test of [walk]. *)
Definition IsDir (m : Z) : bool := negb (Z.land m ModeDir =? 0).
Definition IsRegular (m : Z) : bool := Z.land m ModeType =? 0.
Definition IsSymlink (m : Z) : bool := Z.land m ModeSymlink =? ModeSymlink.

(** [os.SameFile]: false unless both arguments are file infos of this
    package (nil is not), then equality of device and inode. *)
Definition SameFile (fi1 fi2 : option FileInfo) : bool :=
  match fi1, fi2 with
  | Some fs1, Some fs2 =>
      (Dev (fi_Sys fs1) =? Dev (fi_Sys fs2)) && (Ino (fi_Sys fs1) =? Ino (fi_Sys fs2))
  | _, _ => false
  end.

(** The flags and option variables the engine reads.  [mute] is computed
    from [silent] and [quiet] when the package is initialised, before the
    command line is parsed; it is kept as a field, and the results hold for
    both of its values. *)
Record Flags : Type := mkFlags {
  changes : bool;
  deref : bool;
  pr : bool;
  recursive : bool;
  verbose : bool;
  travDir : bool;
  travAll : bool;
  mute : bool;
  optUid : Z;
  optGid : Z
}.

(** ** The operating system *)

(** An argument of [fmt.fmt_Printf]. *)
Inductive arg : Type :=
| AStr (s : string)
| AInt (z : Z)
| AErr (e : Errno)
| ANil.

(** One call of the outside world with its answer.  A Go result pair
    (value, err) of package [os] is a sum; [syscall.Openat] keeps both
    components, since the program tests them separately. *)
Inductive event : Type :=
| E_Open (name : string) (r : Z + Errno)
| E_Stat (name : string) (r : FileInfo + Errno)
| E_Lstat (name : string) (r : FileInfo + Errno)
| E_Chown (name : string) (uid gid : Z) (r : option Errno)
| E_Lchown (name : string) (uid gid : Z) (r : option Errno)
| E_Readlink (name : string) (r : string + Errno)
| E_Readdirnames (fd : Z) (r : list string + Errno)
| E_FileClose (fd : Z) (r : option Errno)
| E_sysStat (name : string) (r : Stat_t + Errno)
| E_Openat (dirfd : Z) (name : string) (flags : Z) (r : Z * option Errno)
| E_Fstat (fd : Z) (r : Stat_t + Errno)
| E_Fchown (fd uid gid : Z) (r : option Errno)
| E_sysClose (fd : Z) (r : option Errno)
| E_LookupId (uid : Z) (r : string + Errno)
| E_LookupGroupId (gid : Z) (r : string + Errno)
| E_Printf (format : string) (args : list arg).

(** The oracle.  An [*os.File] is its descriptor. *)
Record OS (W : Type) : Type := mkOS {
  os_Open : string -> W -> (Z + Errno) * W;
  os_Stat : string -> W -> (FileInfo + Errno) * W;
  os_Lstat : string -> W -> (FileInfo + Errno) * W;
  os_Chown : string -> Z -> Z -> W -> option Errno * W;
  os_Lchown : string -> Z -> Z -> W -> option Errno * W;
  os_Readlink : string -> W -> (string + Errno) * W;
  file_Readdirnames : Z -> W -> (list string + Errno) * W;
  file_Close : Z -> W -> option Errno * W;
  syscall_Stat : string -> W -> (Stat_t + Errno) * W;
  syscall_Openat : Z -> string -> Z -> W -> (Z * option Errno) * W;
  syscall_Fstat : Z -> W -> (Stat_t + Errno) * W;
  syscall_Fchown : Z -> Z -> Z -> W -> option Errno * W;
  syscall_Close : Z -> W -> option Errno * W;
  user_LookupId : Z -> W -> (string + Errno) * W;
  user_LookupGroupId : Z -> W -> (string + Errno) * W;
  filepath_Join : string -> string -> string
}.

Arguments os_Open {W}.
Arguments os_Stat {W}.
Arguments os_Lstat {W}.
Arguments os_Chown {W}.
Arguments os_Lchown {W}.
Arguments os_Readlink {W}.
Arguments file_Readdirnames {W}.
Arguments file_Close {W}.
Arguments syscall_Stat {W}.
Arguments syscall_Openat {W}.
Arguments syscall_Fstat {W}.
Arguments syscall_Fchown {W}.
Arguments syscall_Close {W}.
Arguments user_LookupId {W}.
Arguments user_LookupGroupId {W}.
Arguments filepath_Join {W}.

(** ** Program state and the monad of the embedding *)

Record State (W : Type) : Type := mkState {
  world : W;
  trace : list event;
  DO_NOT_FOLLOW : bool   (* the global of that name *)
}.

Arguments mkState {W}.
Arguments world {W}.
Arguments trace {W}.
Arguments DO_NOT_FOLLOW {W}.

Inductive panic_value : Type :=
| PanicString (s : string)
| PanicError (e : Errno)
| PanicNilDeref.

Inductive outcome (A : Type) : Type :=
| Ret (a : A)
| Panic (p : panic_value)
| OutOfFuel.

Arguments Ret {A}.
Arguments Panic {A}.
Arguments OutOfFuel {A}.

Definition M (W A : Type) : Type := State W -> outcome A * State W.

Definition ret {W A} (a : A) : M W A := fun s => (Ret a, s).

Definition bind {W A B} (m : M W A) (k : A -> M W B) : M W B :=
  fun s =>
    match m s with
    | (Ret a, s') => k a s'
    | (Panic p, s') => (Panic p, s')
    | (OutOfFuel, s') => (OutOfFuel, s')
    end.

Definition panic {W A} (p : panic_value) : M W A := fun s => (Panic p, s).

Definition out_of_fuel {W A} : M W A := fun s => (OutOfFuel, s).

Declare Scope chown_scope.
Delimit Scope chown_scope with chown.
Notation "x <- m ;; k" := (bind m (fun x => k))
  (at level 61, m at next level, right associativity) : chown_scope.
Notation "' pat <- m ;; k" := (bind m (fun x => match x with pat => k end))
  (at level 61, pat pattern, m at next level, right associativity) : chown_scope.
Notation "m ;;; k" := (bind m (fun _ => k))
  (at level 61, right associativity) : chown_scope.
Local Open Scope chown_scope.

(** One oracle call: answer, next world, one more event. *)
Definition call {W A} (f : W -> A * W) (ev : A -> event) : M W A :=
  fun s =>
    let (a, w') := f (world s) in
    (Ret a, mkState w' (trace s ++ [ev a]) (DO_NOT_FOLLOW s)).

Definition fmt_Printf {W} (format : string) (args : list arg) : M W unit :=
  fun s => (Ret tt, mkState (world s) (trace s ++ [E_Printf format args]) (DO_NOT_FOLLOW s)).

Definition set_DO_NOT_FOLLOW {W} (b : bool) : M W unit :=
  fun s => (Ret tt, mkState (world s) (trace s) b).

(** [for _, a := range l { st = body(a, st) }] *)
Fixpoint for_each {W A S} (body : A -> S -> M W S) (l : list A) (st : S) : M W S :=
  match l with
  | [] => ret st
  | a :: l' => st' <- body a st ;; for_each body l' st'
  end.

(** ** [sort.Strings] *)

(** [a < b] on Go strings: bytewise lexicographic. *)
Definition string_less (a b : string) : bool :=
  match String_as_OT.compare a b with
  | Lt => true
  | _ => false
  end.

Fixpoint insert_sorted (x : string) (l : list string) : list string :=
  match l with
  | [] => [x]
  | y :: l' => if string_less y x then y :: insert_sorted x l' else x :: l
  end.

(** The library's sort, as insertion sort on [string_less]: any sort of a
    total order returns the same list (see [sort_Strings_unique]). *)
Fixpoint sort_Strings (l : list string) : list string :=
  match l with
  | [] => []
  | x :: l' => insert_sorted x (sort_Strings l')
  end.

(** ** The program *)

Section Chown.

Context {W : Type}.
Variable os : OS W.
Variable cfg : Flags.

(** Format strings are kept as the source writes them (a backslash and an
    [n] for the newline); a [fmt_Printf] is recorded, not rendered. *)

Definition fmt_Print (s : string) : M W unit := fmt_Printf s [].

(** [uidToName] and [gidToName]; the decimal rendering of the id handed to
    [user.LookupId] is left to the oracle. *)
Definition uidToName (uid : Z) : M W (string * option error) :=
  u <- call (user_LookupId os uid) (E_LookupId uid) ;;
  match u with
  | inr _ => ret ("", Some CantFind)
  | inl name => ret (name, None)
  end.

Definition gidToName (gid : Z) : M W (string * option error) :=
  g <- call (user_LookupGroupId os gid) (E_LookupGroupId gid) ;;
  match g with
  | inr _ => ret ("", Some CantFind)
  | inl name => ret (name, None)
  end.

(** [fmt.Sprintf("'%s:%s'", a, b)]; a nil operand of [%s] renders as
    [nil_operand]. *)
Definition Sprintf_spec (a b : string) : string :=
  String.append "'" (String.append a (String.append ":" (String.append b "'"))).
Definition nil_operand : string := "%!s(<nil>)".

Definition nonempty (s : string) : bool := negb (String.eqb s "").

(** The assignment [oldspec = spec] that ends the second half of the
    [CH_FAILED] case is followed by no use of [oldspec] and is left out. *)
Definition DescribeChange (file : string) (changed : CHStatus)
    (olduser oldgroup user group : string) : M W unit :=
  let userbool := nonempty user in
  let groupbool := nonempty group in
  (if changed =? CH_NOT_APPLIED
   then fmt_Printf "neither symbolic link '%s' nor referent has been changed\n" [AStr file]
   else ret tt) ;;;
  let spec := Sprintf_spec user group in
  let oldspec :=
    if userbool then
      if groupbool then Sprintf_spec olduser oldgroup
      else Sprintf_spec olduser nil_operand
    else if groupbool then Sprintf_spec nil_operand oldgroup
    else "" in
  if changed =? CH_SUCCEEDED then
    if userbool then
      fmt_Printf "changed ownership of '%s' from %s to %s\n" [AStr file; AStr oldspec; AStr spec]
    else if groupbool then
      fmt_Printf "changed group of '%s' from %s to %s\n" [AStr file; AStr oldspec; AStr spec]
    else fmt_Printf "no change in ownership of %s\n" [AStr file]
  else if changed =? CH_FAILED then
    if nonempty oldspec then
      if userbool then
        fmt_Printf "failed to change ownership of '%s' from %s to %s\n" [AStr file; AStr oldspec; AStr spec]
      else if groupbool then
        fmt_Printf "failed to change group of '%s' from %s to %s\n" [AStr file; AStr oldspec; AStr spec]
      else fmt_Printf "failed to change ownership of %s" [AStr file]
    else
      if userbool then
        fmt_Printf "failed to change ownership of '%s' from %s to %s\n" [AStr file; AStr oldspec; AStr spec]
      else if groupbool then
        fmt_Printf "failed to change group of '%s' from %s to %s\n" [AStr file; AStr oldspec; AStr spec]
      else fmt_Printf "failed to change ownership of %s" [AStr file]
  else if changed =? CH_NO_CHANGE_REQUESTED then
    if userbool then
      fmt_Printf "ownership of '%s' retained as %s\n" [AStr file; AStr oldspec]
    else if groupbool then
      fmt_Printf "ownership of '%s' retained as %s\n" [AStr file; AStr oldspec]
    else fmt_Printf "ownership of '%s' retained\n" [AStr file]
  else panic (PanicString "let's go out with a bang!").

(** *** [RestrictedChown] *)

(** Lines 503-507: the common exit, [Close] then [return status]. *)
Definition close_and_return (fd : Z) (status : RCStatus) : M W RCStatus :=
  err <- call (syscall_Close os fd) (E_sysClose fd) ;;
  match err with
  | Some e => panic (PanicError e)
  | None => ret status
  end.

(** Line 489.  Go's [&&] binds tighter than [||]. *)
Definition filter_test (reqUid reqGid : Z) (fstat : Stat_t) : bool :=
  (reqUid =? -1)
  || ((uint32 reqUid =? Uid fstat) && (reqGid =? -1))
  || (uint32 reqGid =? Gid fstat).

(** Line 475, the condition under which the second [Openat] is made. *)
Definition retry_test (fd : Z) (errno : option Errno) (fileMode : Z) : bool :=
  negb ((0 <=? fd)
        || (match errno with Some _ => true | None => false end && IsRegular fileMode)).

Definition RestrictedChown (cwd_fd : Z) (file : string) (origStat : option FileInfo)
    (uid gid reqUid reqGid : Z) : M W RCStatus :=
  let status : RCStatus := 0 in
  let openFlags := Z.lor O_NONBLOCK O_NOCTTY in
  _ <- call (syscall_Stat os file) (E_sysStat file) ;;
  r <- call (os_Stat os file) (E_Stat file) ;;
  match r with
  | inr _ => panic PanicNilDeref            (* fileInfo.Mode() on a nil FileInfo *)
  | inl fileInfo =>
    let fileMode := fi_Mode fileInfo in
    if (reqUid =? -1) && (reqGid =? -1) then ret RC_DO_ORDINARY_CHOWN
    else
      let flags :=
        if negb (IsRegular fileMode) then
          if IsDir fileMode then Some (Z.lor openFlags O_DIRECTORY) else None
        else Some openFlags in
      match flags with
      | None => ret RC_DO_ORDINARY_CHOWN
      | Some openFlags =>
        '(fd, errno) <- call (syscall_Openat os cwd_fd file (Z.lor O_RDONLY openFlags))
                             (E_Openat cwd_fd file (Z.lor O_RDONLY openFlags)) ;;
        opened <-
          (if retry_test fd errno fileMode then
             '(fd, err) <- call (syscall_Openat os cwd_fd file (Z.lor O_WRONLY openFlags))
                                (E_Openat cwd_fd file (Z.lor O_WRONLY openFlags)) ;;
             if negb (0 <=? fd) then
               match err with
               | Some _ => ret (inr RC_DO_ORDINARY_CHOWN)
               | None => ret (inr RC_ERROR)
               end
             else ret (inl fd)
           else ret (inl fd)) ;;
        match opened with
        | inr early => ret early
        | inl fd =>
          rf <- call (syscall_Fstat os fd) (E_Fstat fd) ;;
          match rf with
          | inr _ => close_and_return fd RC_ERROR
          | inl fstat =>
            if negb (SameFile origStat (Some fileInfo)) then
              close_and_return fd RC_INODE_CHANGED
            else if filter_test reqUid reqGid fstat then
              err <- call (syscall_Fchown os fd uid gid) (E_Fchown fd uid gid) ;;
              match err with
              | None =>
                  err <- call (syscall_Close os fd) (E_sysClose fd) ;;
                  match err with
                  | None => ret RC_OK
                  | Some _ => ret RC_ERROR
                  end
              | Some e =>
                  (if IsPermission e
                   then fmt_Printf "chown: changing ownership of '%s' not permitted\n" [AInt fd]
                   else ret tt) ;;;
                  close_and_return fd RC_ERROR
              end
            else close_and_return fd status
          end
        end
      end
  end.

(** *** [ChangeOwner] *)

(** [fi.Fd()] of the result of [os.Open]; on a nil file it is [^uintptr(0)]. *)
Definition Fd (fi : Z + Errno) : Z :=
  match fi with
  | inl fd => fd
  | inr _ => 2 ^ 64 - 1
  end.

(** Line 331. *)
Definition is_root (stat_t : Stat_t) : bool :=
  negb (Z.land (Mode stat_t) ModeDir =? 0) && (Ino stat_t =? ROOT_INODE).

Definition not_permitted (fname : string) : M W unit :=
  if negb (mute cfg)
  then fmt_Printf "chown: changing ownership of '%s' not permitted\n" [AStr fname]
  else ret tt.

(** Lines 347-423, entered with [doChown] true: the change.  Returns the
    new [ok], [doChown] and [symlinkChanged]. *)
Definition change (fname : string) (origStat : option FileInfo) (fi : Z + Errno)
    (uid gid reqUid reqGid : Z) (ok : bool) : M W (bool * bool * bool) :=
  if negb (deref cfg) then
    err <- call (os_Lchown os fname uid gid) (E_Lchown fname uid gid) ;;
    match err with
    | Some _ => ret (true, true, false)
    | None => ret (ok, true, true)
    end
  else
    status <- (if Fd fi <=? MAX_INT
               then RestrictedChown (Fd fi) fname origStat uid gid reqUid reqGid
               else panic (PanicString "Go sucks, use C (just kidding)")) ;;
    if status =? RC_OK then ret (ok, true, true)
    else if status =? RC_DO_ORDINARY_CHOWN then
      if negb (deref cfg) then
        err <- call (os_Lchown os fname uid gid) (E_Lchown fname uid gid) ;;
        match err with
        | Some e => (if IsPermission e then not_permitted fname else ret tt) ;;;
                    ret (false, true, true)
        | None => ret (true, true, true)
        end
      else
        err <- call (os_Chown os fname uid gid) (E_Chown fname uid gid) ;;
        match err with
        | Some e => (if IsPermission e then not_permitted fname else ret tt) ;;;
                    ret (false, true, true)
        | None => ret (true, true, true)
        end
    else if status =? RC_ERROR then ret (false, true, true)
    else if status =? RC_INODE_CHANGED then
      fmt_Printf "inode changed during chown of '%s'\n" [AStr fname] ;;;
      ret (false, false, true)
    else if status =? RC_EXCLUDED then ret (false, false, true)
    else panic (PanicString "Now how did this happen?").

(** Line 426. *)
Definition changed_test (doChown ok symlinkChanged : bool) (uid gid : Z)
    (stat_t : Stat_t) : bool :=
  doChown && ok
  && ((symlinkChanged && negb (uid =? -1)) || (uint32 uid =? Uid stat_t))
  && (negb (gid =? -1) || (uint32 gid =? Gid stat_t)).

(** Lines 428-436. *)
Definition classify (ok symlinkChanged changed : bool) : CHStatus :=
  if negb ok then CH_FAILED
  else if negb symlinkChanged then CH_NOT_APPLIED
  else if negb changed then CH_NO_CHANGE_REQUESTED
  else CH_SUCCEEDED.

(** Lines 425-445: the report. *)
Definition report (fname : string) (stat_t : Stat_t) (uid gid : Z)
    (doChown ok symlinkChanged : bool) : M W unit :=
  if (negb (mute cfg) && verbose cfg) || changes cfg then
    let changed := changed_test doChown ok symlinkChanged uid gid stat_t in
    if changed || verbose cfg then
      let changeStatus := classify ok symlinkChanged changed in
      '(oldUsr, _) <- uidToName (Uid stat_t) ;;
      '(oldGroup, _) <- gidToName (Gid stat_t) ;;
      '(newUsr, _) <- uidToName (uint32 (optUid cfg)) ;;
      '(newGrp, _) <- gidToName (uint32 (optGid cfg)) ;;
      DescribeChange fname changeStatus oldUsr oldGroup newUsr newGrp
    else ret tt
  else ret tt.

(** Lines 331-339: true when the function returns false there. *)
Definition root_gate (stat_t : Stat_t) : M W bool :=
  if is_root stat_t then
    if recursive cfg && pr cfg then
      fmt_Print "cannot run chown on root directory (--preserve-root specified\n" ;;;
      set_DO_NOT_FOLLOW true ;;;
      ret true
    else
      fmt_Print "warning: running chown on root directory without protection\n" ;;;
      ret false
  else ret false.

Definition ChangeOwner (fname : string) (origStat : option FileInfo)
    (uid gid reqUid reqGid : Z) : M W bool :=
  let ok := true in
  fi <- call (os_Open os fname) (E_Open fname) ;;
  ok <- match fi with
        | inr err =>
            (if negb (mute cfg) then fmt_Printf "%v %s" [AErr err; AStr fname] else ret tt) ;;;
            ret false
        | inl _ => ret ok
        end ;;
  r <- call (syscall_Stat os fname) (E_sysStat fname) ;;
  let stat_t := match r with inl st => st | inr _ => zero_Stat_t end in
  ok <- match r with
        | inr err =>
            (if negb (mute cfg) then fmt_Printf "%v %s" [AErr err; AStr fname] else ret tt) ;;;
            ret false
        | inl _ => ret ok
        end ;;
  stop <- root_gate stat_t ;;
  if stop then ret false
  else
    let doChown := ok in
    '(ok, doChown, symlinkChanged) <-
      (if doChown then change fname origStat fi uid gid reqUid reqGid ok
       else ret (ok, doChown, true)) ;;
    report fname stat_t uid gid doChown ok symlinkChanged ;;;
    ret ok.

(** *** [readDirNames], [walk], [ChownFiles] *)

Definition readDirNames (dirname : string) : M W (list string + Errno) :=
  f <- call (os_Open os dirname) (E_Open dirname) ;;
  match f with
  | inr err => ret (inr err)
  | inl fd =>
    r <- call (file_Readdirnames os fd) (E_Readdirnames fd) ;;
    _ <- call (file_Close os fd) (E_FileClose fd) ;;
    match r with
    | inr err => ret (inr err)
    | inl names => ret (inl (sort_Strings names))
    end
  end.

(** Lines 230-239: what is done with a child once it has been observed,
    given the current value of [sym]. *)
Definition dispatch (walk : string -> option FileInfo -> M W bool)
    (uid gid reqUid reqGid : Z) (sym : bool) (filename : string)
    (fileInfo : FileInfo) : M W bool :=
  if sym && travAll cfg && IsDir (fi_Mode fileInfo) then
    l <- call (os_Readlink os filename) (E_Readlink filename) ;;
    let filename := match l with inl target => target | inr _ => "" end in
    walk filename (Some fileInfo)
  else if sym && IsRegular (fi_Mode fileInfo) then
    ChangeOwner filename (Some fileInfo) uid gid reqUid reqGid
  else if IsDir (fi_Mode fileInfo) then
    walk filename (Some fileInfo)
  else
    ChangeOwner filename (Some fileInfo) uid gid reqUid reqGid.

(** Lines 214-240: one turn of the loop over the names, on the loop-carried
    variables [ok] and [sym]. *)
Definition walk_child (walk : string -> option FileInfo -> M W bool)
    (path : string) (uid gid reqUid reqGid : Z) (name : string)
    (st : bool * bool) : M W (bool * bool) :=
  let '(ok, sym) := st in
  let filename := filepath_Join os path name in
  if negb (deref cfg) then
    r <- call (os_Lstat os filename) (E_Lstat filename) ;;
    match r with
    | inr _ => panic PanicNilDeref          (* fileInfo.Mode() on a nil FileInfo *)
    | inl fileInfo =>
      let sym := if IsSymlink (fi_Mode fileInfo) then true else sym in
      ok <- dispatch walk uid gid reqUid reqGid sym filename fileInfo ;;
      ret (ok, sym)
    end
  else
    r <- call (os_Stat os filename) (E_Stat filename) ;;
    match r with
    | inr _ => ret (false, sym)
    | inl fileInfo =>
      ok <- dispatch walk uid gid reqUid reqGid sym filename fileInfo ;;
      ret (ok, sym)
    end.

Fixpoint walk (fuel : nat) (path : string) (info : option FileInfo)
    (uid gid reqUid reqGid : Z) : M W bool :=
  match fuel with
  | O => out_of_fuel
  | S fuel' =>
    let sym := false in
    ok <- ChangeOwner path info uid gid reqUid reqGid ;;
    r <- readDirNames path ;;
    match r with
    | inr _ => ret false
    | inl names =>
      '(ok, _) <- for_each
                    (walk_child (fun p i => walk fuel' p i uid gid reqUid reqGid)
                                path uid gid reqUid reqGid)
                    names (ok, sym) ;;
      ret ok
    end
  end.

Definition ChownFiles (fuel : nat) (fname : string) (uid gid reqUid reqGid : Z) : M W bool :=
  let ok := false in
  if negb (deref cfg) then
    r <- call (os_Lstat os fname) (E_Lstat fname) ;;
    let fi := match r with inl fi => Some fi | inr _ => None end in
    match r with
    | inr _ => if negb (mute cfg)
               then fmt_Printf "cannot lstat() file or directory '%s'\n" [AStr fname]
               else ret tt
    | inl _ => ret tt
    end ;;;
    if recursive cfg then
      b <- walk fuel fname fi uid gid reqUid reqGid ;;
      ret (if b then true else ok)
    else
      b <- ChangeOwner fname fi uid gid reqUid reqGid ;;
      ret (if b then true else ok)
  else
    r <- call (os_Stat os fname) (E_Stat fname) ;;
    let fi := match r with inl fi => Some fi | inr _ => None end in
    match r with
    | inr _ => if negb (mute cfg)
               then fmt_Printf "cannot stat() file or directory '%s'\n" [AStr fname]
               else ret tt
    | inl _ => ret tt
    end ;;;
    if recursive cfg then
      b <- walk fuel fname fi uid gid reqUid reqGid ;;
      ret (if b then true else ok)
    else
      b <- ChangeOwner fname fi uid gid reqUid reqGid ;;
      ret (if b then true else ok).

End Chown.

(** ** Concrete worlds

    A world for running the program: a clock that counts the oracle calls
    made so far, and for every instant a table of answers, by path and by
    descriptor.  A table that does not depend on the clock is a file system
    nobody else touches. *)

Module Toy.

Record PathAns : Type := mkPathAns {
  p_Open : Z + Errno;
  p_Stat : FileInfo + Errno;
  p_Lstat : FileInfo + Errno;
  p_sysStat : Stat_t + Errno;
  p_Chown : option Errno;
  p_Lchown : option Errno;
  p_Readlink : string + Errno;
  p_Openat : Z -> Z * option Errno        (* by open flags *)
}.

Record FdAns : Type := mkFdAns {
  f_Readdirnames : list string + Errno;
  f_Fstat : Stat_t + Errno;
  f_Fchown : option Errno;
  f_Close : option Errno
}.

Record Table : Type := mkTable {
  paths : string -> PathAns;
  fds : Z -> FdAns;
  users : Z -> string + Errno;
  groups : Z -> string + Errno
}.

Definition tick {A} (f : nat -> A) : nat -> A * nat := fun t => (f t, S t).

(** [filepath.Join] on two clean operands. *)
Definition Join (dir name : string) : string :=
  if String.eqb dir "" then name
  else if String.eqb dir "/" then String.append "/" name
  else String.append dir (String.append "/" name).

Definition os (tbl : nat -> Table) : OS nat :=
  mkOS nat
    (fun name => tick (fun t => p_Open (paths (tbl t) name)))
    (fun name => tick (fun t => p_Stat (paths (tbl t) name)))
    (fun name => tick (fun t => p_Lstat (paths (tbl t) name)))
    (fun name _ _ => tick (fun t => p_Chown (paths (tbl t) name)))
    (fun name _ _ => tick (fun t => p_Lchown (paths (tbl t) name)))
    (fun name => tick (fun t => p_Readlink (paths (tbl t) name)))
    (fun fd => tick (fun t => f_Readdirnames (fds (tbl t) fd)))
    (fun fd => tick (fun t => f_Close (fds (tbl t) fd)))
    (fun name => tick (fun t => p_sysStat (paths (tbl t) name)))
    (fun _ name flags => tick (fun t => p_Openat (paths (tbl t) name) flags))
    (fun fd => tick (fun t => f_Fstat (fds (tbl t) fd)))
    (fun fd _ _ => tick (fun t => f_Fchown (fds (tbl t) fd)))
    (fun fd => tick (fun t => f_Close (fds (tbl t) fd)))
    (fun uid => tick (fun t => users (tbl t) uid))
    (fun gid => tick (fun t => groups (tbl t) gid))
    Join.

Definition init : State nat := mkState 0%nat [] false.

(** Answers for a path that does not exist and a descriptor that is not open. *)
Definition absent : PathAns :=
  mkPathAns (inr ENOENT) (inr ENOENT) (inr ENOENT) (inr ENOENT)
            (Some ENOENT) (Some ENOENT) (inr ENOENT) (fun _ => (-1, Some ENOENT)).

Definition closed : FdAns :=
  mkFdAns (inr EBADF) (inr EBADF) (Some EBADF) (Some EBADF).

(** Kernel mode bits. *)
Definition S_IFREG : Z := 32768.
Definition S_IFDIR : Z := 16384.
Definition S_IFLNK : Z := 40960.

(** A regular file with permission bits [perm], opened as descriptor [fd]
    by every open. *)
Definition regular (dev ino perm uid gid fd : Z) : PathAns :=
  let st := mkStat_t dev ino (Z.lor S_IFREG perm) uid gid in
  let fi := mkFileInfo perm st in
  mkPathAns (inl fd) (inl fi) (inl fi) (inl st) None None (inr EINVAL)
            (fun _ => (fd, None)).

(** A directory. *)
Definition directory (dev ino perm uid gid fd : Z) : PathAns :=
  let st := mkStat_t dev ino (Z.lor S_IFDIR perm) uid gid in
  let fi := mkFileInfo (Z.lor ModeDir perm) st in
  mkPathAns (inl fd) (inl fi) (inl fi) (inl st) None None (inr EINVAL)
            (fun flags => if Z.land flags O_WRONLY =? 0 then (fd, None) else (-1, Some EISDIR)).

(** An open descriptor on an object with status [st]; [names] is what a
    directory enumerates. *)
Definition opened (st : Stat_t) (names : list string + Errno) : FdAns :=
  mkFdAns names (inl st) None None.

Definition nobody : Z -> string + Errno := fun _ => inr ENOENT.

(** Flags: [--dereference] (the default) without [-R]. *)
Definition plain : Flags := mkFlags false true false false false false false false (-1) (-1).

End Toy.

(** ** Inputs *)

Module Ex.
Import Toy.

(** The spec's filter, §4.1: "If [filter.requiredOwner] is present and
    differs from [currentOwner], reject.  If [filter.requiredGroup] is
    present and differs from [currentGroup], reject." *)
Definition spec_matches (requiredOwner requiredGroup : option Z)
    (currentOwner currentGroup : Z) : bool :=
  match requiredOwner with Some o => o =? currentOwner | None => true end
  && match requiredGroup with Some g => g =? currentGroup | None => true end.

(** The program's encoding of an absent id: -1. *)
Definition required (req : Z) : option Z :=
  if req =? -1 then None else Some (uint32 req).

(** *** A path redirected between the stat and the open

    "f" is inode 10 while it is observed; from instant 2 on, the name leads
    to inode 99, and that is what the open binds descriptor 7 to. *)
Definition f_10 : Stat_t := mkStat_t 1 10 (Z.lor S_IFREG 420) 500 500.
Definition f_99 : Stat_t := mkStat_t 1 99 (Z.lor S_IFREG 420) 500 500.

Definition swap_before : Table :=
  mkTable (fun p => if String.eqb p "f" then regular 1 10 420 500 500 7 else absent)
          (fun _ => closed) nobody nobody.
Definition swap_after : Table :=
  mkTable (fun p => if String.eqb p "f" then regular 1 99 420 500 500 7 else absent)
          (fun fd => if fd =? 7 then opened f_99 (inr ENOTDIR) else closed) nobody nobody.
Definition swap (t : nat) : Table := if Nat.ltb t 2 then swap_before else swap_after.
Definition observed : option FileInfo := Some (mkFileInfo 420 f_10).

(** *** One regular file "f", owner 500, group 7, opened as descriptor 7 *)
Definition f_500_7 : Stat_t := mkStat_t 1 10 (Z.lor S_IFREG 420) 500 7.
Definition one_file (fchown close : option Errno) : nat -> Table := fun _ =>
  mkTable (fun p => if String.eqb p "f" then regular 1 10 420 500 7 7 else absent)
          (fun fd => if fd =? 7
                     then mkFdAns (inr ENOTDIR) (inl f_500_7) fchown close
                     else closed)
          nobody nobody.
Definition f_info : option FileInfo := Some (mkFileInfo 420 f_500_7).
(** The state in which [ChangeOwner] enters [RestrictedChown] for "f": after
    the open and the stat of the entry. *)
Definition after_open_and_stat : State nat :=
  mkState 2%nat [E_Open "f" (inl 7); E_sysStat "f" (inl f_500_7)] false.

(** *** The root directory with one file in it *)
Definition root_stat : Stat_t := mkStat_t 1 ROOT_INODE (Z.lor S_IFDIR 493) 0 0.
Definition root_tree : nat -> Table := fun _ =>
  mkTable (fun p => if String.eqb p "/" then directory 1 ROOT_INODE 493 0 0 3
                    else if String.eqb p "/etc" then regular 1 20 420 0 0 4
                    else absent)
          (fun fd => if fd =? 3 then opened root_stat (inl ["etc"]) else closed)
          nobody nobody.
(** [-R -L --preserve-root] *)
Definition preserve_root : Flags :=
  mkFlags false true true true false false true false (-1) (-1).

(** The same tree on a system whose [st_mode] carries bit 31 on the root. *)
Definition root_stat_31 : Stat_t := mkStat_t 1 ROOT_INODE (Z.lor ModeDir 493) 0 0.
Definition root_tree_31 : nat -> Table := fun _ =>
  mkTable (fun p => if String.eqb p "/"
                    then mkPathAns (inl 3) (inl (mkFileInfo (Z.lor ModeDir 493) root_stat_31))
                           (inl (mkFileInfo (Z.lor ModeDir 493) root_stat_31))
                           (inl root_stat_31) None None (inr EINVAL) (fun _ => (3, None))
                    else if String.eqb p "/etc" then regular 1 20 420 0 0 4
                    else absent)
          (fun fd => if fd =? 3 then opened root_stat_31 (inl ["etc"]) else closed)
          nobody nobody.

(** *** A directory "d" that enumerates "b" before "a"; "d/a" cannot be
    opened for reading *)
Definition d_stat : Stat_t := mkStat_t 1 10 (Z.lor S_IFDIR 493) 500 500.
Definition unreadable (dev ino perm uid gid : Z) : PathAns :=
  let st := mkStat_t dev ino (Z.lor S_IFREG perm) uid gid in
  let fi := mkFileInfo perm st in
  mkPathAns (inr EACCES) (inl fi) (inl fi) (inl st) None None (inr EINVAL)
            (fun flags => if Z.land flags O_WRONLY =? 0 then (-1, Some EACCES) else (8, None)).
Definition d_tree : nat -> Table := fun _ =>
  mkTable (fun p => if String.eqb p "d" then directory 1 10 493 500 500 3
                    else if String.eqb p "d/a" then unreadable 1 11 128 500 500
                    else if String.eqb p "d/b" then regular 1 12 420 500 500 5
                    else absent)
          (fun fd => if fd =? 3 then opened d_stat (inl ["b"; "a"]) else closed)
          nobody nobody.
(** [-R -L] *)
Definition recursive_L : Flags :=
  mkFlags false true false true false false true false (-1) (-1).

(** *** A write-only regular file "f" and a directory "d" without read
    permission *)
Definition locked : nat -> Table := fun _ =>
  mkTable (fun p => if String.eqb p "f" then unreadable 1 11 128 500 500
                    else if String.eqb p "d"
                    then mkPathAns (inr EACCES)
                           (inl (mkFileInfo (Z.lor ModeDir 192) (mkStat_t 1 10 (Z.lor S_IFDIR 192) 500 500)))
                           (inl (mkFileInfo (Z.lor ModeDir 192) (mkStat_t 1 10 (Z.lor S_IFDIR 192) 500 500)))
                           (inl (mkStat_t 1 10 (Z.lor S_IFDIR 192) 500 500))
                           None None (inr EINVAL)
                           (fun flags => if Z.land flags O_WRONLY =? 0
                                         then (-1, Some EACCES) else (-1, Some EISDIR))
                    else absent)
          (fun _ => closed) nobody nobody.
Definition f_locked : option FileInfo :=
  Some (mkFileInfo 128 (mkStat_t 1 11 (Z.lor S_IFREG 128) 500 500)).
Definition d_locked : option FileInfo :=
  Some (mkFileInfo (Z.lor ModeDir 192) (mkStat_t 1 10 (Z.lor S_IFDIR 192) 500 500)).

(** *** A file of somebody else: [lchown] is not permitted *)
Definition foreign : nat -> Table := fun _ =>
  mkTable (fun p => if String.eqb p "f"
                    then mkPathAns (inl 7) (inl (mkFileInfo 420 f_500_7))
                           (inl (mkFileInfo 420 f_500_7)) (inl f_500_7)
                           (Some EPERM) (Some EPERM) (inr EINVAL) (fun _ => (7, None))
                    else absent)
          (fun _ => closed) nobody nobody.
(** [-h] and [-h -v] *)
Definition no_deref : Flags :=
  mkFlags false false false false false false false false (-1) (-1).
Definition no_deref_verbose : Flags :=
  mkFlags false false false false true false false false (-1) (-1).
(** [-v] *)
Definition verbose_only : Flags :=
  mkFlags false true false false true false false false (-1) (-1).

(** *** A directory "d" holding a symbolic link "a" and a directory "b" *)
Definition link_stat : Stat_t := mkStat_t 1 21 (Z.lor S_IFLNK 511) 500 500.
Definition b_stat : Stat_t := mkStat_t 1 22 (Z.lor S_IFDIR 493) 500 500.
Definition symlink (st referent : Stat_t) (fd : Z) (target : string) : PathAns :=
  mkPathAns (inl fd) (inl (mkFileInfo (Z.lor ModeDir 493) referent))
            (inl (mkFileInfo (Z.lor ModeSymlink 511) st)) (inl referent)
            None None (inl target) (fun _ => (fd, None)).
Definition link_tree : nat -> Table := fun _ =>
  mkTable (fun p => if String.eqb p "d" then directory 1 10 493 500 500 3
                    else if String.eqb p "d/a" then symlink link_stat b_stat 4 "b"
                    else if String.eqb p "d/b" then directory 1 22 493 500 500 4
                    else absent)
          (fun fd => if fd =? 3 then opened d_stat (inl ["b"; "a"])
                     else if fd =? 4 then opened b_stat (inl [])
                     else closed)
          nobody nobody.
(** [-R -h -L] *)
Definition no_deref_L : Flags :=
  mkFlags false false false true false false true false (-1) (-1).

Definition d_info : option FileInfo := Some (mkFileInfo (Z.lor ModeDir 493) d_stat).

(** The states of a visit of "d": after the change of "d" itself, and after
    its enumeration. *)
Definition after_self (tbl : nat -> Table) (cfg : Flags) : State nat :=
  snd (ChangeOwner (os tbl) cfg "d" d_info 1000 (-1) (-1) (-1) init).
Definition after_readdir (tbl : nat -> Table) (cfg : Flags) : State nat :=
  snd (readDirNames (os tbl) "d" (after_self tbl cfg)).

(** The loop of [walk] over the children of "d" in [link_tree], and its
    state after the turn for "a". *)
Definition link_rec : string -> option FileInfo -> M nat bool :=
  fun p i => walk (os link_tree) no_deref_L 3 p i 1000 (-1) (-1) (-1).
Definition link_body : string -> bool * bool -> M nat (bool * bool) :=
  walk_child (os link_tree) no_deref_L link_rec "d" 1000 (-1) (-1) (-1).
Definition after_link : State nat :=
  snd (for_each link_body ["a"] (true, false) (after_readdir link_tree no_deref_L)).
Definition link_info : FileInfo := mkFileInfo (Z.lor ModeSymlink 511) link_stat.
Definition b_info : FileInfo := mkFileInfo (Z.lor ModeDir 493) b_stat.

(** The changes of ownership and the lines printed in a trace. *)
Definition is_change (e : event) : bool :=
  match e with
  | E_Chown _ _ _ _ | E_Lchown _ _ _ _ | E_Fchown _ _ _ _ => true
  | _ => false
  end.
Definition is_line (e : event) : bool :=
  match e with E_Printf _ _ => true | _ => false end.
Definition changes_and_lines (t : list event) : list event :=
  filter (fun e => is_change e || is_line e) t.

(** The lines printed in a trace. *)
Definition printed (t : list event) : list event :=
  filter (fun e => match e with E_Printf _ _ => true | _ => false end) t.

End Ex.

(** ** Notions the results are stated with *)

(** [a <= b] on Go strings. *)
Definition lexle (a b : string) : Prop := string_less b a = false.

(** A computation only ever appends to the trace, and [emits P] when all it
    appends satisfies [P]. *)
Definition emits {W} (P : event -> Prop) {A} (m : M W A) : Prop :=
  forall s, exists t, trace (snd (m s)) = trace s ++ t /\ Forall P t.

Definition extends {W A} (m : M W A) : Prop := emits (fun _ => True) m.

(** The events of a report: lookups of names and lines of text. *)
Definition is_report (e : event) : Prop :=
  match e with
  | E_LookupId _ _ | E_LookupGroupId _ _ | E_Printf _ _ => True
  | _ => False
  end.

(** The events of the handle-based path. *)
Definition is_handle (e : event) : Prop :=
  match e with
  | E_Openat _ _ _ _ | E_Fstat _ _ | E_Fchown _ _ _ _ | E_sysClose _ _ => True
  | _ => False
  end.

Definition is_handle_b (e : event) : bool :=
  match e with
  | E_Openat _ _ _ _ | E_Fstat _ _ | E_Fchown _ _ _ _ | E_sysClose _ _ => true
  | _ => false
  end.



(** A computation that always returns. *)
Definition returns {W A} (m : M W A) : Prop :=
  forall s, exists a s', m s = (Ret a, s').

(** ** Further notions *)

(** The calls that change an owner. *)
Definition changes_owner (e : event) : Prop :=
  match e with
  | E_Chown _ _ _ _ | E_Lchown _ _ _ _ | E_Fchown _ _ _ _ => True
  | _ => False
  end.

(** The calls [ChangeOwner] can make, [RestrictedChown] and the report
    included. *)
Definition is_entry_event (e : event) : Prop :=
  match e with
  | E_Open _ _ | E_sysStat _ _ | E_Stat _ _
  | E_Chown _ _ _ _ | E_Lchown _ _ _ _
  | E_Openat _ _ _ _ | E_Fstat _ _ | E_Fchown _ _ _ _ | E_sysClose _ _
  | E_LookupId _ _ | E_LookupGroupId _ _ | E_Printf _ _ => True
  | _ => False
  end.

(** The reading of a link. *)
Definition is_Readlink (e : event) : Prop :=
  match e with
  | E_Readlink _ _ => True
  | _ => False
  end.

(** The line [ChangeOwner] prints when a call has answered with an error,
    unless [mute] is set. *)
Definition error_line {A} (cfg : Flags) (fname : string) (r : A + Errno) : list event :=
  match r with
  | inr err => if negb (mute cfg) then [E_Printf "%v %s" [AErr err; AStr fname]] else []
  | inl _ => []
  end.

Definition succeeded {A} (r : A + Errno) : bool :=
  match r with
  | inl _ => true
  | inr _ => false
  end.

(** The status the program goes on with after [syscall.Stat]: the one
    filled in, or the zero value. *)
Definition stat_or_zero (r : Stat_t + Errno) : Stat_t :=
  match r with
  | inl st => st
  | inr _ => zero_Stat_t
  end.

(** [cfg] with other values for [-H] and [-L]. *)
Definition with_trav (cfg : Flags) (h l : bool) : Flags :=
  mkFlags (changes cfg) (deref cfg) (pr cfg) (recursive cfg) (verbose cfg)
          h l (mute cfg) (optUid cfg) (optGid cfg).

(** The calls of a run without dereference: no [Chown], no [os.Stat], and
    nothing of the handle-based path. *)
Definition is_no_deref_event (e : event) : Prop :=
  match e with
  | E_Chown _ _ _ _ | E_Stat _ _
  | E_Openat _ _ _ _ | E_Fstat _ _ | E_Fchown _ _ _ _ | E_sysClose _ _ => False
  | _ => True
  end.

(** ** [main] and the functions it calls

    The library functions [main] uses are modelled here: [strings.Split]
    with the separator [":"], [strconv.Atoi] and [strconv.FormatUint] in
    base 10. *)

(** [strings.Split(s, ":")]: the fields between the colons, one more than
    there are colons. *)
Fixpoint Split_colon (s : string) : list string :=
  match s with
  | EmptyString => [""]
  | String c r =>
      if Ascii.eqb c ":" then "" :: Split_colon r
      else match Split_colon r with
           | f :: fs => String c f :: fs
           | [] => [String c ""]
           end
  end.

Fixpoint has_colon (s : string) : bool :=
  match s with
  | EmptyString => false
  | String c r => Ascii.eqb c ":" || has_colon r
  end.

Inductive NumError : Type :=
| ErrSyntax
| ErrRange.

(** [strconv.Atoi]: an optional sign and at least one decimal digit; the
    value and no error, or 0 and a syntax error, or the nearest [int] and a
    range error. *)
Definition Atoi (s : string) : Z * option NumError :=
  match s with
  | EmptyString => (0, Some ErrSyntax)
  | String c r =>
      let neg := Ascii.eqb c "-" in
      let body := if neg || Ascii.eqb c "+" then r else s in
      match body with
      | EmptyString => (0, Some ErrSyntax)
      | _ =>
          match NilEmpty.uint_of_string body with
          | None => (0, Some ErrSyntax)
          | Some d =>
              let v := if neg then - Z.of_N (N.of_uint d) else Z.of_N (N.of_uint d) in
              if v <? - 2 ^ 63 then (- 2 ^ 63, Some ErrRange)
              else if 2 ^ 63 - 1 <? v then (2 ^ 63 - 1, Some ErrRange)
              else (v, None)
          end
      end
  end.

(** [strconv.FormatUint(n, 10)] *)
Definition FormatUint (n : Z) : string :=
  NilEmpty.string_of_uint (N.to_uint (Z.to_N n)).

(** The user database, by name: [user.Lookup] and [user.LookupGroup],
    answering with the [Uid] and the [Gid] field of what they find. *)
Record Users (W : Type) : Type := mkUsers {
  user_Lookup : string -> W -> (string + Errno) * W;
  user_LookupGroup : string -> W -> (string + Errno) * W
}.

Arguments user_Lookup {W}.
Arguments user_LookupGroup {W}.

(** A call for which the trace has no event: the world moves on, the trace
    stays. *)
Definition ask {W A} (f : W -> A * W) : M W A :=
  fun s =>
    let (a, w') := f (world s) in
    (Ret a, mkState w' (trace s) (DO_NOT_FOLLOW s)).

(** The flags [main] reads besides those of [Flags]. *)
Record Options : Type := mkOptions {
  version : bool;
  rfile : string;
  from : string;
  noderef : bool;
  debug : bool
}.

(** What is written to standard error before [os.Exit], and the code. *)
Definition exit_info : Type := list (string * list arg) * Z.

(** How [main] ends: [os.Exit] after some lines on standard error (every
    write to it in [main] is followed by an exit), or by returning. *)
Inductive ended : Type :=
| Exit (info : exit_info)
| Return.

(** The calls of [main] before [ChownFiles]. *)
Definition is_parse_event (e : event) : Prop :=
  match e with
  | E_sysStat _ _ | E_LookupId _ _ | E_LookupGroupId _ _ | E_Printf _ _ => True
  | _ => False
  end.

(** The final result of a computation, when it returns, satisfies [Q]. *)
Definition finishes {W A} (Q : A -> Prop) (m : M W A) : Prop :=
  forall s a s', m s = (Ret a, s') -> Q a.

Section Main.

Context {W : Type}.
Variable os : OS W.
Variable users : Users W.
Variable cfg : Flags.
Variable opts : Options.

(** The texts of the constants [HELP] and [VERSION]. *)
Variables HELP VERSION : string.

Definition nameToUid (name : string) : M W (Z * option error) :=
  u <- ask (user_Lookup users name) ;;
  match u with
  | inr _ => ret (-2, Some CantFind)
  | inl Uid_field => ret (fst (Atoi Uid_field), None)
  end.

Definition nameToGid (name : string) : M W (Z * option error) :=
  g <- ask (user_LookupGroup users name) ;;
  match g with
  | inr _ => ret (-2, Some CantFind)
  | inl Gid_field => ret (fst (Atoi Gid_field), None)
  end.

(** [l[i]] *)
Definition index (l : list string) (i : nat) : M W string :=
  match nth_error l i with
  | Some x => ret x
  | None => panic (PanicString "runtime error: index out of range")
  end.

(** Goes on with the value of a step, or ends with its exit. *)
Definition or_exit {A B} (m : M W (exit_info + A)) (k : A -> M W (exit_info + B))
    : M W (exit_info + B) :=
  x <- m ;;
  match x with
  | inl e => ret (inl e)
  | inr a => k a
  end.

(** Lines 642-656, 659-673, 682-696 and 699-713 are one chain, written four
    times: for a text, a lookup by id, a lookup by name, a message and the
    variable to set, whose value so far is [current]. *)
Definition id_chain (text : string) (toName : Z -> M W (string * option error))
    (fromName : string -> M W (Z * option error)) (message : string)
    (current : Z) : M W (exit_info + Z) :=
  match Atoi text with
  | (ok, None) =>
      '(_, err) <- toName (uint32 ok) ;;
      match err with
      | None => ret (inr ok)
      | Some _ => ret (inr current)
      end
  | (_, Some _) =>
      '(ok, err) <- fromName text ;;
      match err with
      | None => ret (inr ok)
      | Some _ =>
          if String.eqb text "" then ret (inr (-1))
          else ret (inl ([(message, [AStr text])], 1))
      end
  end.

(** Lines 627-637: the slice [a] and the texts [u] and [g]. *)
Definition main_operands (args : list string) : M W (list string * string * string) :=
  if nonempty (rfile opts) && String.eqb (from opts) "" then
    r <- call (syscall_Stat os (rfile opts)) (E_sysStat (rfile opts)) ;;
    match r with
    | inr _ => fmt_Printf "cannot stat rfile '%s'" [AStr (rfile opts)]
    | inl _ => ret tt
    end ;;;
    ret ([], FormatUint (Uid (stat_or_zero r)), FormatUint (Gid (stat_or_zero r)))
  else
    args0 <- index args 0 ;;
    ret (Split_colon args0, "", "").

(** Lines 639-674: [reqUid] and [reqGid], both -1 at the start. *)
Definition main_from : M W (exit_info + Z * Z) :=
  if nonempty (from opts) then
    let b := Split_colon (from opts) in
    b1 <- index b 1 ;;
    or_exit (id_chain b1 (uidToName os) nameToUid "invalid username/uid %s\n" (-1))
      (fun reqUid =>
    or_exit (id_chain b1 (gidToName os) nameToGid "invalid groupame/gid %s\n" (-1))
      (fun reqGid => ret (inr (reqUid, reqGid))))
  else ret (inr (-1, -1)).

(** Lines 676-713: [optUid] and [optGid], both -1 at the start. *)
Definition main_ids (a : list string) (u g : string) : M W (exit_info + Z * Z) :=
  ug <- (if String.eqb (rfile opts) "" then
           a0 <- index a 0 ;;
           a1 <- index a 1 ;;
           ret (a0, a1)
         else ret (u, g)) ;;
  let '(u, g) := ug in
  or_exit (id_chain u (uidToName os) nameToUid "invalid username/uid %s\n" (-1))
    (fun optUid =>
  or_exit (id_chain g (gidToName os) nameToGid "invalid groupame/gid %s\n" (-1))
    (fun optGid => ret (inr (optUid, optGid)))).

(** The flags as [ChownFiles] finds them: [deref] after line 715-717 and
    the two ids [main] has set. *)
Definition run_flags (optUid optGid : Z) : Flags :=
  mkFlags (changes cfg) (if noderef opts then false else deref cfg) (pr cfg)
          (recursive cfg) (verbose cfg) (travDir cfg) (travAll cfg) (mute cfg)
          optUid optGid.

(** Lines 715-730. *)
Definition main_run (fuel : nat) (inFile : string) (optUid optGid reqUid reqGid : Z)
    : M W ended :=
  let deref' := if noderef opts then false else deref cfg in
  if recursive cfg && deref' && negb (travDir cfg) && negb (travAll cfg) then
    ret (Exit ([("-R --dereference requires either -H or -L\n", [])], 1))
  else
    (if debug opts
     then fmt_Printf "%v %v %v %v %v\n"
            [AStr inFile; AInt optUid; AInt optGid; AInt reqUid; AInt reqGid]
     else ret tt) ;;;
    b <- ChownFiles os (run_flags optUid optGid) fuel inFile optUid optGid reqUid reqGid ;;
    if negb b then ret (Exit ([], 1)) else ret Return.

(** [main], from the line after [flag.Parse()]; [args] is [flag.Args()]. *)
Definition main (fuel : nat) (args : list string) : M W ended :=
  if version opts then ret (Exit ([("%s\n", [AStr VERSION])], 0))
  else
    let shopts := nonempty (rfile opts) in
    if (List.length args <? 2)%nat && negb shopts then
      ret (Exit ([("You forgot an argument! (Or two. Or more.)\nIn case you forgot how to use the program, here's how:\n\n", []);
                  ("%s\n", [AStr HELP])], 1))
    else
      inFile <- index args (if shopts then 0 else 1)%nat ;;
      '(a, u, g) <- main_operands args ;;
      r <- main_from ;;
      match r with
      | inl e => ret (Exit e)
      | inr (reqUid, reqGid) =>
          o <- main_ids a u g ;;
          match o with
          | inl e => ret (Exit e)
          | inr (optUid, optGid) => main_run fuel inFile optUid optGid reqUid reqGid
          end
      end.

End Main.

(** ** Further inputs *)

Module Inputs.
Import Toy.

(** *** A named pipe "p", owner 500, group 7 *)
Definition S_IFIFO : Z := 4096.
Definition p_stat : Stat_t := mkStat_t 1 30 (Z.lor S_IFIFO 420) 500 7.
Definition p_info : FileInfo := mkFileInfo (Z.lor ModeNamedPipe 420) p_stat.
Definition pipe : nat -> Table := fun _ =>
  mkTable (fun p => if String.eqb p "p"
                    then mkPathAns (inl 7) (inl p_info) (inl p_info) (inl p_stat)
                           None None (inr EINVAL) (fun _ => (7, None))
                    else absent)
          (fun _ => closed) nobody nobody.

(** *** A file "f" removed after [ChangeOwner] has opened and statted it:
    from instant 2 on, no path exists *)
Definition nothing : Table :=
  mkTable (fun _ => absent) (fun _ => closed) nobody nobody.
Definition removed (t : nat) : Table :=
  if Nat.ltb t 2 then Ex.one_file None None t else nothing.

(** *** A user database: root (0) and eric (1000), each with a group of
    the same name and number *)
Definition names (id : Z) : string + Errno :=
  if id =? 0 then inl "root" else if id =? 1000 then inl "eric" else inr ENOENT.
Definition ids (name : string) : string + Errno :=
  if String.eqb name "root" then inl "0"
  else if String.eqb name "eric" then inl "1000"
  else inr ENOENT.
Definition passwd : Users nat :=
  mkUsers nat (fun name => tick (fun _ => ids name)) (fun name => tick (fun _ => ids name)).

(** The file "f" of [Ex.one_file], on a system with these users. *)
Definition named_file : nat -> Table := fun _ =>
  mkTable (fun p => if String.eqb p "f" then regular 1 10 420 500 7 7 else absent)
          (fun fd => if fd =? 7 then opened Ex.f_500_7 (inr ENOTDIR) else closed)
          names names.

(** *** Command lines *)

(** No option of [main]'s own. *)
Definition no_options : Options := mkOptions false "" "" false false.
(** [--reference=ref] *)
Definition reference_ref : Options := mkOptions false "ref" "" false false.
(** [--from=eric:1000] *)
Definition from_eric_1000 : Options := mkOptions false "" "eric:1000" false false.
(** [-R] *)
Definition recursive_only : Flags :=
  mkFlags false true false true false false false false (-1) (-1).

(** The first line of each of the texts [HELP] and [VERSION]. *)
Definition HELP : string := "Usage: chown [OPTION]... [OWNER][:[GROUP]] FILE...".
Definition VERSION : string := "chown (Go coreutils) 1.0".

End Inputs.

(** * Results *)

(** ** [sort.Strings] sorts *)

Lemma string_less_lt (a b : string) : string_less a b = true <-> String_as_OT.lt a b.
Proof.
  unfold string_less, String_as_OT.lt.
  destruct (String_as_OT.compare a b); split; congruence.
Qed.

Lemma string_less_irrefl (a : string) : string_less a a = false.
Proof.
  destruct (string_less a a) eqn:E; [|reflexivity].
  apply string_less_lt in E.
  exfalso. exact (StrictOrder_Irreflexive a E).
Qed.



Lemma lexle_refl (a : string) : lexle a a.
Proof. apply string_less_irrefl. Qed.












(** ** The monad and the trace *)

Section Monad.

Context {W : Type}.

Lemma call_mk {A} (f : W -> A * W) (ev : A -> event) (w : W) (tr : list event)
    (d : bool) (a : A) (w' : W) :
  f w = (a, w') ->
  call f ev (mkState w tr d) = (Ret a, mkState w' (tr ++ [ev a]) d).
Proof. unfold call. simpl. now intros ->. Qed.

Lemma bind_Ret {A B} (m : M W A) (k : A -> M W B) (s s' : State W) (a : A) :
  m s = (Ret a, s') -> bind m k s = k a s'.
Proof. unfold bind. now intros ->. Qed.

Lemma bind_ret {A B} (a : A) (k : A -> M W B) (s : State W) :
  bind (ret a) k s = k a s.
Proof. reflexivity. Qed.

Lemma bind_bind {A B C} (m : M W A) (k : A -> M W B) (h : B -> M W C) (s : State W) :
  bind (bind m k) h s = bind m (fun a => bind (k a) h) s.
Proof. unfold bind. destruct (m s) as [[a|p|] s']; reflexivity. Qed.

Lemma bind_call_mk {A B} (f : W -> A * W) (ev : A -> event) (k : A -> M W B)
    (w : W) (tr : list event) (d : bool) (a : A) (w' : W) :
  f w = (a, w') ->
  bind (call f ev) k (mkState w tr d) = k a (mkState w' (tr ++ [ev a]) d).
Proof. intros H. unfold bind. now rewrite (call_mk _ _ _ _ _ _ _ H). Qed.

Lemma bind_Printf_mk {B} (format : string) (args : list arg) (k : unit -> M W B)
    (w : W) (tr : list event) (d : bool) :
  bind (fmt_Printf format args) k (mkState w tr d)
  = k tt (mkState w (tr ++ [E_Printf format args]) d).
Proof. reflexivity. Qed.

Lemma for_each_app {A S} (body : A -> S -> M W S) (l1 l2 : list A) (st : S) (s : State W) :
  for_each body (l1 ++ l2) st s
  = bind (for_each body l1 st) (fun st' => for_each body l2 st') s.
Proof.
  revert st s. induction l1 as [|a l1 IH]; intros st s; simpl.
  - reflexivity.
  - unfold bind.
    destruct (body a st s) as [[st'|p|] s']; [apply IH | reflexivity | reflexivity].
Qed.

Section Emits.

Variable P : event -> Prop.

Lemma emits_ret {A} (a : A) : emits P (@ret W A a).
Proof. intros s. exists []. simpl. now rewrite app_nil_r. Qed.

Lemma emits_panic {A} (p : panic_value) : emits P (@panic W A p).
Proof. intros s. exists []. simpl. now rewrite app_nil_r. Qed.

Lemma emits_out_of_fuel {A} : emits P (@out_of_fuel W A).
Proof. intros s. exists []. simpl. now rewrite app_nil_r. Qed.

Lemma emits_call {A} (f : W -> A * W) (ev : A -> event) :
  (forall a, P (ev a)) -> emits P (call f ev).
Proof.
  intros H s. unfold call. destruct (f (world s)) as [a w'].
  exists [ev a]. simpl. auto.
Qed.

Lemma emits_Printf (format : string) (args : list arg) :
  P (E_Printf format args) -> emits P (@fmt_Printf W format args).
Proof. intros H s. exists [E_Printf format args]. simpl. auto. Qed.

Lemma emits_set_DO_NOT_FOLLOW (b : bool) : emits P (@set_DO_NOT_FOLLOW W b).
Proof. intros s. exists []. simpl. now rewrite app_nil_r. Qed.

Lemma emits_bind {A B} (m : M W A) (k : A -> M W B) :
  emits P m -> (forall a, emits P (k a)) -> emits P (bind m k).
Proof.
  intros Hm Hk s. unfold bind.
  destruct (Hm s) as [t [Ht Pt]].
  destruct (m s) as [[a|p|] s']; simpl in Ht.
  - destruct (Hk a s') as [t' [Ht' Pt']]. exists (t ++ t'). split.
    + now rewrite Ht', Ht, app_assoc.
    + now apply Forall_app.
  - now exists t.
  - now exists t.
Qed.

Lemma emits_for_each {A S} (body : A -> S -> M W S) (l : list A) :
  (forall a st, emits P (body a st)) -> forall st, emits P (for_each body l st).
Proof.
  intros Hb. induction l as [|a l IH]; intros st; simpl.
  - apply emits_ret.
  - apply emits_bind; auto.
Qed.

End Emits.

Lemma extends_trace {A} (m : M W A) (s : State W) :
  extends m -> exists t, trace (snd (m s)) = trace s ++ t.
Proof. intros H. destruct (H s) as [t [Ht _]]. now exists t. Qed.

Lemma returns_ret {A} (a : A) : returns (@ret W A a).
Proof. intros s. now exists a, s. Qed.

Lemma returns_call {A} (f : W -> A * W) (ev : A -> event) : returns (call f ev).
Proof. intros s. unfold call. destruct (f (world s)) as [a w']. eauto. Qed.

Lemma returns_Printf (format : string) (args : list arg) : returns (@fmt_Printf W format args).
Proof. intros s. unfold fmt_Printf. eauto. Qed.

Lemma returns_bind {A B} (m : M W A) (k : A -> M W B) :
  returns m -> (forall a, returns (k a)) -> returns (bind m k).
Proof.
  intros Hm Hk s. destruct (Hm s) as [a [s' E]].
  rewrite (bind_Ret _ _ _ _ _ E). apply Hk.
Qed.

End Monad.

Ltac ext_side :=
  solve [ exact I
        | auto
        | match goal with H : forall e, is_report e -> _ |- _ => apply H; exact I end ].

(** Breaks a computation down to its calls, for [emits]. *)
Ltac ext :=
  repeat first
    [ apply emits_ret
    | apply emits_panic
    | apply emits_out_of_fuel
    | apply emits_set_DO_NOT_FOLLOW
    | apply emits_call; intros; ext_side
    | apply emits_Printf; ext_side
    | assumption
    | match goal with H : forall _, _ |- emits _ _ => apply H end
    | apply emits_bind; [|intros]
    | match goal with
      | |- emits _ (if ?b then _ else _) => destruct b
      | |- emits _ (match ?x with _ => _ end) => destruct x
      end ].

(** The same for [returns]. *)
Ltac retn :=
  repeat first
    [ apply returns_ret
    | apply returns_call
    | apply returns_Printf
    | apply returns_bind; [|intros]
    | match goal with
      | |- returns (if ?b then _ else _) => destruct b
      | |- returns (match ?x with _ => _ end) => destruct x
      end ].

(** Takes a run of the program apart, one answer of the oracle and one
    test at a time, innermost first. *)
Ltac cases :=
  repeat (match goal with
          | |- context [match ?x with _ => _ end] =>
              lazymatch x with
              | context [match _ with _ => _ end] => fail
              | _ => destruct x
              end
          end; cbn [world trace DO_NOT_FOLLOW fst snd]).

(** What a run has added to the trace, as a list. *)
Ltac added H :=
  cbn [trace] in H; rewrite <- ?app_assoc in H;
  first [ apply app_inv_head in H
        | match type of H with ?l = ?l ++ _ =>
            rewrite <- (app_nil_r l) in H at 1; apply app_inv_head in H end ];
  cbn [app] in H.

(** ** The traces of the program *)

Section Traces.

Context {W : Type}.
Variable os : OS W.
Variable cfg : Flags.

(** *** What the report emits: lookups and lines of text *)

Section Report.

Variable P : event -> Prop.
Hypothesis P_report : forall e, is_report e -> P e.

Lemma emits_uidToName (uid : Z) : emits P (uidToName os uid).
Proof. unfold uidToName. ext. Qed.

Lemma emits_gidToName (gid : Z) : emits P (gidToName os gid).
Proof. unfold gidToName. ext. Qed.

Lemma emits_DescribeChange file changed olduser oldgroup user group :
  emits P (@DescribeChange W file changed olduser oldgroup user group).
Proof.
  unfold DescribeChange. ext.
Qed.

Lemma emits_report fname stat_t uid gid doChown ok symlinkChanged :
  emits P (report os cfg fname stat_t uid gid doChown ok symlinkChanged).
Proof.
  pose proof emits_uidToName. pose proof emits_gidToName.
  pose proof emits_DescribeChange.
  unfold report. ext.
Qed.

End Report.

(** *** Every function of the program extends the trace *)

Lemma extends_close_and_return fd status : extends (close_and_return os fd status).
Proof. unfold extends, close_and_return. ext. Qed.

Lemma extends_RestrictedChown cwd_fd file origStat uid gid reqUid reqGid :
  extends (RestrictedChown os cwd_fd file origStat uid gid reqUid reqGid).
Proof.
  pose proof extends_close_and_return.
  unfold extends, RestrictedChown in *. ext.
Qed.

Lemma extends_change fname origStat fi uid gid reqUid reqGid ok :
  extends (change os cfg fname origStat fi uid gid reqUid reqGid ok).
Proof.
  pose proof extends_RestrictedChown.
  unfold extends, change, not_permitted in *. ext.
Qed.

Lemma extends_ChangeOwner fname origStat uid gid reqUid reqGid :
  extends (ChangeOwner os cfg fname origStat uid gid reqUid reqGid).
Proof.
  pose proof extends_change.
  pose proof (emits_report (fun _ => True) (fun _ _ => I)).
  unfold extends, ChangeOwner, root_gate, fmt_Print in *. ext.
Qed.

Lemma extends_readDirNames dirname : extends (readDirNames os dirname).
Proof. unfold extends, readDirNames. ext. Qed.

Lemma extends_dispatch walk uid gid reqUid reqGid sym filename fileInfo :
  (forall p i, extends (walk p i)) ->
  extends (dispatch os cfg walk uid gid reqUid reqGid sym filename fileInfo).
Proof.
  intros Hw. pose proof extends_ChangeOwner.
  unfold extends, dispatch in *. ext.
Qed.

Lemma extends_walk_child walk path uid gid reqUid reqGid name st :
  (forall p i, extends (walk p i)) ->
  extends (walk_child os cfg walk path uid gid reqUid reqGid name st).
Proof.
  intros Hw. pose proof (extends_dispatch walk uid gid reqUid reqGid) as Hd.
  unfold extends, walk_child in *. destruct st as [ok sym].
  ext; apply Hd; exact Hw.
Qed.

Lemma extends_walk fuel : forall path info uid gid reqUid reqGid,
  extends (walk os cfg fuel path info uid gid reqUid reqGid).
Proof.
  induction fuel as [|fuel IH]; intros; simpl.
  - apply emits_out_of_fuel.
  - apply emits_bind; [apply extends_ChangeOwner | intros ok].
    apply emits_bind; [apply extends_readDirNames | intros r].
    destruct r as [names|e]; [|apply emits_ret].
    apply emits_bind.
    + apply emits_for_each. intros. apply extends_walk_child.
      intros. apply IH.
    + intros [ok' sym']. apply emits_ret.
Qed.

End Traces.

(** ** The order of a recursive run *)

Section Order.

Context {W : Type}.
Variable os : OS W.
Variable cfg : Flags.

Lemma readDirNames_inl dirname s names s2 :
  readDirNames os dirname s = (Ret (inl names), s2) ->
  exists fd raw c,
    trace s2 = trace s ++ [E_Open dirname (inl fd); E_Readdirnames fd (inl raw); E_FileClose fd c]
    /\ names = sort_Strings raw.
Proof.
  unfold readDirNames, bind, call, ret.
  destruct (os_Open os dirname (world s)) as [[fd|e] w1]; simpl; [|discriminate].
  destruct (file_Readdirnames os fd w1) as [[raw|e] w2]; simpl;
    destruct (file_Close os fd w2) as [c w3]; simpl; [|discriminate].
  intros H. inversion H; subst; clear H. simpl.
  exists fd, raw, c. split; [|reflexivity].
  rewrite <- !app_assoc. reflexivity.
Qed.

Section Loop.

Variable rec : string -> option FileInfo -> M W bool.
Hypothesis rec_extends : forall p i, extends (rec p i).
Variables (path : string) (uid gid reqUid reqGid : Z).

Local Notation "'body'" := (walk_child os cfg rec path uid gid reqUid reqGid).



End Loop.


(** *** The flag [sym] *)

Section Sym.

Variable rec : string -> option FileInfo -> M W bool.
Variables (path : string) (uid gid reqUid reqGid : Z).

Local Notation "'body'" := (walk_child os cfg rec path uid gid reqUid reqGid).

(** A turn entered with [sym] set leaves it set. *)
Lemma walk_child_keeps_sym name ok s ok' sym' s' :
  body name (ok, true) s = (Ret (ok', sym'), s') -> sym' = true.
Proof.
  unfold walk_child, bind, call, ret, panic.
  destruct (deref cfg); simpl.
  - destruct (os_Stat os (filepath_Join os path name) (world s)) as [[fi|e] w1]; simpl.
    + destruct (dispatch os cfg rec uid gid reqUid reqGid true
                  (filepath_Join os path name) fi _) as [[b|p|] s1];
        intros H; inversion H; reflexivity.
    + intros H; inversion H; reflexivity.
  - destruct (os_Lstat os (filepath_Join os path name) (world s)) as [[fi|e] w1]; simpl.
    + destruct (IsSymlink (fi_Mode fi));
        destruct (dispatch os cfg rec uid gid reqUid reqGid true
                    (filepath_Join os path name) fi _) as [[b|p|] s1];
        intros H; inversion H; reflexivity.
    + discriminate.
Qed.

Lemma for_each_keeps_sym names : forall ok s ok' sym' s',
  for_each body names (ok, true) s = (Ret (ok', sym'), s') -> sym' = true.
Proof.
  induction names as [|name names IH]; intros ok s ok' sym' s' H.
  - inversion H; reflexivity.
  - change (bind (body name (ok, true)) (fun st' => for_each body names st') s
            = (Ret (ok', sym'), s')) in H.
    destruct (body name (ok, true) s) as [[[ok1 sym1]|p|] s1] eqn:E.
    + rewrite (bind_Ret _ _ _ _ _ E) in H.
      apply walk_child_keeps_sym in E. subst sym1. now apply IH in H.
    + unfold bind in H. rewrite E in H. discriminate.
    + unfold bind in H. rewrite E in H. discriminate.
Qed.

(** C10.  Without dereference, once a child has been seen to be a symbolic
    link, [sym] is true in every later turn of the same loop: the next child
    [d], whatever its own type, is dispatched with [sym] true, and under [-L]
    a child that is a directory goes through the branch that reads a link and
    descends into what was read. *)
Theorem sym_stays_set_after_first_symlink :
  deref cfg = false ->
  forall pre c mid st s st1 s1 fic w1 ok2 sym2 s2,
    for_each body pre st s = (Ret st1, s1) ->
    os_Lstat os (filepath_Join os path c) (world s1) = (inl fic, w1) ->
    IsSymlink (fi_Mode fic) = true ->
    for_each body (pre ++ c :: mid) st s = (Ret (ok2, sym2), s2) ->
    sym2 = true
    /\ forall d fid w3,
         os_Lstat os (filepath_Join os path d) (world s2) = (inl fid, w3) ->
         let filename := filepath_Join os path d in
         let s3 := mkState w3 (trace s2 ++ [E_Lstat filename (inl fid)]) (DO_NOT_FOLLOW s2) in
         body d (ok2, sym2) s2
         = bind (dispatch os cfg rec uid gid reqUid reqGid true filename fid)
                (fun ok => ret (ok, true)) s3
         /\ (travAll cfg = true -> IsDir (fi_Mode fid) = true ->
             forall l w4,
               os_Readlink os filename w3 = (l, w4) ->
               dispatch os cfg rec uid gid reqUid reqGid true filename fid s3
               = rec (match l with inl target => target | inr _ => "" end) (Some fid)
                     (mkState w4 (trace s3 ++ [E_Readlink filename l]) (DO_NOT_FOLLOW s3))).
Proof.
  intros Hderef pre c mid st s st1 s1 fic w1 ok2 sym2 s2 Hpre Hc Hlink Hrun.
  assert (Hsym : sym2 = true).
  { rewrite for_each_app, (bind_Ret _ _ _ _ _ Hpre) in Hrun.
    change (bind (body c st1) (fun st' => for_each body mid st') s1
            = (Ret (ok2, sym2), s2)) in Hrun.
    destruct (body c st1 s1) as [[[ok1 sym1]|p|] s1'] eqn:E;
      [ rewrite (bind_Ret _ _ _ _ _ E) in Hrun
      | unfold bind in Hrun; rewrite E in Hrun; discriminate
      | unfold bind in Hrun; rewrite E in Hrun; discriminate ].
    assert (sym1 = true) as ->.
    { revert E. unfold walk_child, bind, call, ret, panic.
      destruct st1 as [ok0 sym0]. rewrite Hderef. simpl. rewrite Hc. simpl.
      rewrite Hlink.
      destruct (dispatch os cfg rec uid gid reqUid reqGid true
                  (filepath_Join os path c) fic _) as [[b|p|] sx];
        intros H; inversion H; reflexivity. }
    apply (for_each_keeps_sym _ _ _ _ _ _ Hrun). }
  split; [exact Hsym|]. subst sym2.
  intros d fid w3 Hd filename s3. subst filename s3. split.
  - unfold walk_child. rewrite Hderef. simpl.
    unfold bind at 1, call. rewrite Hd.
    destruct (IsSymlink (fi_Mode fid)); reflexivity.
  - intros HL Hdir l w4 Hl.
    unfold dispatch. rewrite HL, Hdir. simpl.
    unfold bind, call. simpl. rewrite Hl. reflexivity.
Qed.

End Sym.

End Order.

(** ** One entry *)

Section Entry.

Context {W : Type}.
Variable os : OS W.
Variable cfg : Flags.

(** A report returns unless it has to describe [CH_NOT_APPLIED]. *)
Lemma returns_report fname stat_t uid gid doChown ok symlinkChanged :
  ok = false \/ symlinkChanged = true ->
  returns (report os cfg fname stat_t uid gid doChown ok symlinkChanged).
Proof.
  intros H. unfold report.
  destruct ((negb (mute cfg) && verbose cfg) || changes cfg); [|apply returns_ret].
  destruct (changed_test doChown ok symlinkChanged uid gid stat_t || verbose cfg);
    [|apply returns_ret].
  unfold uidToName, gidToName.
  assert (C : classify ok symlinkChanged
                (changed_test doChown ok symlinkChanged uid gid stat_t) = CH_FAILED
              \/ classify ok symlinkChanged
                   (changed_test doChown ok symlinkChanged uid gid stat_t)
                 = CH_NO_CHANGE_REQUESTED
              \/ classify ok symlinkChanged
                   (changed_test doChown ok symlinkChanged uid gid stat_t) = CH_SUCCEEDED).
  { unfold classify. destruct H as [-> | ->]; simpl; auto.
    destruct ok; simpl; auto.
    destruct (changed_test doChown true true uid gid stat_t); simpl; auto. }
  retn; unfold DescribeChange;
    destruct C as [-> | [-> | ->]]; simpl; retn.
Qed.

Lemma report_not_handle (e : event) : is_report e -> ~ is_handle e.
Proof. destruct e; simpl; tauto. Qed.

(** What [ChangeOwner] does after [change]: the report, which adds no event
    of the handle-based path and, short of [CH_NOT_APPLIED], returns. *)
Lemma report_then_ret fname stat_t uid gid doChown ok symlinkChanged s :
  exists t,
    trace (snd (bind (report os cfg fname stat_t uid gid doChown ok symlinkChanged)
                     (fun _ => ret ok) s)) = trace s ++ t
    /\ Forall (fun e => ~ is_handle e) t
    /\ (ok = false \/ symlinkChanged = true ->
        fst (bind (report os cfg fname stat_t uid gid doChown ok symlinkChanged)
                  (fun _ => ret ok) s) = Ret ok).
Proof.
  destruct (emits_report os cfg _ report_not_handle fname stat_t uid gid
              doChown ok symlinkChanged s) as [t [Ht Pt]].
  exists t. unfold bind.
  destruct (report os cfg fname stat_t uid gid doChown ok symlinkChanged s)
    as [[u|p|] s'] eqn:E; simpl in *; repeat split; auto;
    intros H; destruct (returns_report fname stat_t uid gid doChown ok
                          symlinkChanged H s) as [a [s'' E']];
    rewrite E in E'; discriminate.
Qed.

(** A run that is not stopped at the root passes the gate with at most a
    warning. *)
Lemma root_gate_open st w tr d :
  is_root st && (recursive cfg && pr cfg) = false ->
  exists t,
    @root_gate W cfg st (mkState w tr d) = (Ret false, mkState w (tr ++ t) d)
    /\ Forall is_report t.
Proof.
  unfold root_gate, fmt_Print. intros H.
  destruct (is_root st); simpl in H.
  - rewrite H. exists [E_Printf
      "warning: running chown on root directory without protection\n" []].
    split; [reflexivity|]. repeat constructor.
  - exists []. rewrite app_nil_r. split; [reflexivity | constructor].
Qed.

(** C5, for the entries that reach the change.  With an empty filter (both
    required ids -1), [RestrictedChown], when its [os.Stat] of the path
    succeeds, returns [RC_DO_ORDINARY_CHOWN] after its two stats of the path,
    without opening anything; and [ChangeOwner], once the entry has been
    opened and statted and the run is not stopped at the root, attempts the
    path-based change, [os.Chown] under dereference (given the [os.Stat] of
    [RestrictedChown] succeeds) and [os.Lchown] without it, whatever owner
    and group the stat has shown, and no call of the handle-based path is
    made. *)
Theorem empty_filter_takes_ordinary_chown :
  forall fname origStat uid gid,
    (forall cwd_fd s r0 w1 fileInfo w2,
        syscall_Stat os fname (world s) = (r0, w1) ->
        os_Stat os fname w1 = (inl fileInfo, w2) ->
        RestrictedChown os cwd_fd fname origStat uid gid (-1) (-1) s
        = (Ret RC_DO_ORDINARY_CHOWN,
           mkState w2 (trace s ++ [E_sysStat fname r0; E_Stat fname (inl fileInfo)])
                   (DO_NOT_FOLLOW s)))
    /\ (forall s fd w1 st w2 r0 w3 fileInfo w4 err w5,
        deref cfg = true ->
        os_Open os fname (world s) = (inl fd, w1) ->
        fd <= MAX_INT ->
        syscall_Stat os fname w1 = (inl st, w2) ->
        is_root st && (recursive cfg && pr cfg) = false ->
        syscall_Stat os fname w2 = (r0, w3) ->
        os_Stat os fname w3 = (inl fileInfo, w4) ->
        os_Chown os fname uid gid w4 = (err, w5) ->
        let run := ChangeOwner os cfg fname origStat uid gid (-1) (-1) s in
        exists t,
          trace (snd run) = trace s ++ t
          /\ In (E_Chown fname uid gid err) t
          /\ Forall (fun e => ~ is_handle e) t
          /\ fst run = Ret (match err with None => true | Some _ => false end))
    /\ (forall s fd w1 st w2 err w3,
        deref cfg = false ->
        os_Open os fname (world s) = (inl fd, w1) ->
        syscall_Stat os fname w1 = (inl st, w2) ->
        is_root st && (recursive cfg && pr cfg) = false ->
        os_Lchown os fname uid gid w2 = (err, w3) ->
        let run := ChangeOwner os cfg fname origStat uid gid (-1) (-1) s in
        exists t,
          trace (snd run) = trace s ++ t
          /\ In (E_Lchown fname uid gid err) t
          /\ Forall (fun e => ~ is_handle e) t).
Proof.
  intros fname origStat uid gid.
  assert (R : forall cwd_fd s r0 w1 fileInfo w2,
             syscall_Stat os fname (world s) = (r0, w1) ->
             os_Stat os fname w1 = (inl fileInfo, w2) ->
             RestrictedChown os cwd_fd fname origStat uid gid (-1) (-1) s
             = (Ret RC_DO_ORDINARY_CHOWN,
                mkState w2 (trace s ++ [E_sysStat fname r0; E_Stat fname (inl fileInfo)])
                        (DO_NOT_FOLLOW s))).
  { intros cwd_fd [w0 tr d] r0 w1 fileInfo w2 H0 H1. simpl in *.
    unfold RestrictedChown.
    rewrite (bind_call_mk _ _ _ _ _ _ _ _ H0).
    rewrite (bind_call_mk _ _ _ _ _ _ _ _ H1).
    simpl. unfold ret. now rewrite <- app_assoc. }
  split; [exact R|]. split.
  - intros [w0 tr d] fd w1 st w2 r0 w3 fileInfo w4 err w5
           Hderef Hopen Hfd Hstat Hroot Hstat' Hstat'' Hchown run.
    simpl in *.
    destruct (root_gate_open st w2 ((tr ++ [E_Open fname (inl fd)])
                                        ++ [E_sysStat fname (inl st)]) d Hroot)
      as [tg [Eg Pg]].
    apply Z.leb_le in Hfd.
    set (ok := match err with None => true | Some _ => false end).
    assert (E : exists tp,
               Forall is_report tp
               /\ run = bind (report os cfg fname st uid gid true ok true)
                             (fun _ => ret ok)
                             (mkState w5 (tr ++ [E_Open fname (inl fd);
                                                 E_sysStat fname (inl st)]
                                             ++ tg
                                             ++ [E_sysStat fname r0;
                                                 E_Stat fname (inl fileInfo);
                                                 E_Chown fname uid gid err]
                                             ++ tp) d)).
    { subst run. unfold ChangeOwner.
      rewrite (bind_call_mk _ _ _ _ _ _ _ _ Hopen).
      rewrite bind_ret.
      rewrite (bind_call_mk _ _ _ _ _ _ _ _ Hstat).
      rewrite bind_ret.
      rewrite (bind_Ret _ _ _ _ _ Eg). cbv iota.
      unfold change. rewrite Hderef. cbn [negb Fd]. rewrite Hfd. cbv iota.
      rewrite bind_bind.
      rewrite (bind_Ret _ _ _ _ _ (R fd (mkState w2 _ d) _ _ _ _ Hstat' Hstat'')).
      change (RC_DO_ORDINARY_CHOWN =? RC_OK) with false.
      change (RC_DO_ORDINARY_CHOWN =? RC_DO_ORDINARY_CHOWN) with true.
      cbv iota. cbn [world trace DO_NOT_FOLLOW].
      rewrite bind_bind.
      rewrite (bind_call_mk _ _ _ _ _ _ _ _ Hchown).
      subst ok. destruct err as [e|].
      - rewrite bind_bind. unfold not_permitted.
        destruct (IsPermission e); [destruct (negb (mute cfg))|]; cbv iota.
        + eexists [_]. split; cycle 1.
          * rewrite bind_Printf_mk, bind_ret.
            cbv iota. rewrite <- !app_assoc. reflexivity.
          * repeat constructor.
        + exists []. split; [constructor|].
          rewrite !bind_ret.
          cbv iota. rewrite <- !app_assoc. reflexivity.
        + exists []. split; [constructor|].
          rewrite !bind_ret.
          cbv iota. rewrite <- !app_assoc. reflexivity.
      - exists []. split; [constructor|].
        rewrite bind_ret.
        cbv iota. rewrite <- !app_assoc. reflexivity. }
    destruct E as [tp [Ptp ->]].
    match goal with |- context [bind _ _ ?s5] =>
      destruct (report_then_ret fname st uid gid true ok true s5) as [tr' [Ht [Pt Hr]]]
    end.
    eexists. rewrite Ht. cbn [trace]. rewrite <- !app_assoc.
    split; [reflexivity|]. split; [|split].
    + simpl. right. right. apply in_or_app. right. simpl. auto.
    + repeat first [ apply Forall_cons | apply Forall_app; split ];
        try (simpl; tauto); try assumption;
        try (eapply Forall_impl; [apply report_not_handle | assumption]).
    + apply Hr. now right.
  - intros [w0 tr d] fd w1 st w2 err w3 Hderef Hopen Hstat Hroot Hlchown run.
    simpl in *.
    destruct (root_gate_open st w2 ((tr ++ [E_Open fname (inl fd)])
                                        ++ [E_sysStat fname (inl st)]) d Hroot)
      as [tg [Eg Pg]].
    set (sc := match err with None => true | Some _ => false end).
    assert (E : run = bind (report os cfg fname st uid gid true true sc)
                           (fun _ => ret true)
                           (mkState w3 (tr ++ [E_Open fname (inl fd);
                                               E_sysStat fname (inl st)]
                                           ++ tg
                                           ++ [E_Lchown fname uid gid err]) d)).
    { subst run. unfold ChangeOwner.
      rewrite (bind_call_mk _ _ _ _ _ _ _ _ Hopen).
      rewrite bind_ret.
      rewrite (bind_call_mk _ _ _ _ _ _ _ _ Hstat).
      rewrite bind_ret.
      rewrite (bind_Ret _ _ _ _ _ Eg). cbv iota.
      unfold change. rewrite Hderef. cbn [negb]. cbv iota.
      rewrite bind_bind.
      rewrite (bind_call_mk _ _ _ _ _ _ _ _ Hlchown).
      subst sc. destruct err as [e|]; rewrite bind_ret; cbv iota;
        rewrite <- !app_assoc; reflexivity. }
    rewrite E.
    match goal with |- context [bind _ _ ?s5] =>
      destruct (report_then_ret fname st uid gid true true sc s5) as [tr' [Ht [Pt _]]]
    end.
    eexists. rewrite Ht. cbn [trace]. rewrite <- !app_assoc.
    split; [reflexivity|]. split.
    + simpl. right. right. apply in_or_app. right. simpl. auto.
    + repeat first [ apply Forall_cons | apply Forall_app; split ];
        try (simpl; tauto); try assumption;
        try (eapply Forall_impl; [apply report_not_handle | assumption]).
Qed.

(** C8, as the program has it.  When the handle-based change succeeds and
    the close that follows fails, [RestrictedChown] returns [RC_ERROR]; under
    dereference the switch of [ChangeOwner] makes of it a failed entry ([ok]
    false, [doChown] and [symlinkChanged] left true); [ChangeOwner], for an
    entry it has opened and statted and that does not meet the root test,
    then returns false, making no further call on a handle; and a report
    classifies the entry [CH_FAILED]. *)
Theorem close_failure_is_RC_ERROR :
  forall cwd_fd file origStat uid gid reqUid reqGid s r s' t fd e,
    RestrictedChown os cwd_fd file origStat uid gid reqUid reqGid s = (r, s') ->
    trace s' = trace s ++ t ->
    In (E_Fchown fd uid gid None) t ->
    In (E_sysClose fd (Some e)) t ->
    r = Ret RC_ERROR
    /\ (forall fi ok,
          deref cfg = true -> Fd fi = cwd_fd -> cwd_fd <= MAX_INT ->
          change os cfg file origStat fi uid gid reqUid reqGid ok s
          = (Ret (false, true, true), s'))
    /\ (forall s0 w1 st,
          deref cfg = true -> cwd_fd <= MAX_INT ->
          os_Open os file (world s0) = (inl cwd_fd, w1) ->
          syscall_Stat os file w1 = (inl st, world s) ->
          is_root st = false ->
          trace s = trace s0 ++ [E_Open file (inl cwd_fd); E_sysStat file (inl st)] ->
          DO_NOT_FOLLOW s = DO_NOT_FOLLOW s0 ->
          let run := ChangeOwner os cfg file origStat uid gid reqUid reqGid s0 in
          fst run = Ret false
          /\ exists t', trace (snd run) = trace s' ++ t'
                        /\ Forall (fun e => ~ is_handle e) t')
    /\ (forall symlinkChanged changed,
          classify false symlinkChanged changed = CH_FAILED).
Proof.
  intros cwd_fd file origStat uid gid reqUid reqGid s r s' t fd e Hrun Ht Hf Hc.
  assert (Hr : r = Ret RC_ERROR).
  { revert Hrun Ht Hf Hc. destruct s as [w0 tr d].
    unfold RestrictedChown, close_and_return, bind, call, fmt_Printf, ret, panic.
    cbn [world trace DO_NOT_FOLLOW].
    cases; intros Hrun Ht Hf Hc; inversion Hrun; subst; clear Hrun;
      try reflexivity; exfalso; added Ht; subst t; simpl in Hf, Hc;
      intuition congruence. }
  assert (Hchange : forall fi ok,
             deref cfg = true -> Fd fi = cwd_fd -> cwd_fd <= MAX_INT ->
             change os cfg file origStat fi uid gid reqUid reqGid ok s
             = (Ret (false, true, true), s')).
  { intros fi ok Hderef Hfi Hle. subst r.
    unfold change. rewrite Hderef, Hfi. cbn [negb].
    apply Z.leb_le in Hle. rewrite Hle. cbv iota.
    rewrite (bind_Ret _ _ _ _ _ Hrun). reflexivity. }
  split; [exact Hr|]. split; [exact Hchange|]. split; [|reflexivity].
  intros [w0 tr0 d0] w1 st Hderef Hle Hopen Hstat Hroot Htr Hd run. subst run.
  destruct s as [w tr d]. cbn [world trace DO_NOT_FOLLOW] in *. subst tr d.
  unfold ChangeOwner.
  rewrite (bind_call_mk _ _ _ _ _ _ _ _ Hopen), bind_ret.
  rewrite (bind_call_mk _ _ _ _ _ _ _ _ Hstat), bind_ret.
  unfold root_gate. rewrite Hroot, bind_ret. cbv iota.
  rewrite <- app_assoc. cbn [app].
  rewrite (bind_Ret _ _ _ _ _ (Hchange (inl cwd_fd) true Hderef eq_refl Hle)).
  cbv iota.
  destruct (report_then_ret file st uid gid true false true s') as [t' [Ht' [Pt Hret]]].
  split; [apply Hret; now left|].
  exists t'. split; [exact Ht' | exact Pt].
Qed.

End Entry.

(** ** The tests the program makes *)

(** The test of line 489 accepts whatever the filter of the specification
    accepts. *)
Lemma spec_matches_filter_test (reqUid reqGid : Z) (fstat : Stat_t) :
  Ex.spec_matches (Ex.required reqUid) (Ex.required reqGid) (Uid fstat) (Gid fstat) = true ->
  filter_test reqUid reqGid fstat = true.
Proof.
  unfold Ex.spec_matches, Ex.required, filter_test.
  destruct (reqUid =? -1); [reflexivity|].
  destruct (reqGid =? -1); simpl;
    destruct (uint32 reqUid =? Uid fstat); simpl; try discriminate; auto.
Qed.

(** The second open is made exactly when the first one gave no descriptor
    and either reported no error or the file is not a regular one. *)
Lemma retry_test_iff (fd : Z) (errno : option Errno) (fileMode : Z) :
  retry_test fd errno fileMode = true
  <-> fd < 0 /\ (errno = None \/ IsRegular fileMode = false).
Proof.
  unfold retry_test. rewrite negb_true_iff, orb_false_iff, andb_false_iff.
  rewrite Z.leb_gt. destruct errno; intuition discriminate.
Qed.

(** The root test reads bit 31 of [st_mode]: it is false on every mode
    below 2^31, such as the 16-bit modes of the kernel. *)
Lemma is_root_needs_bit_31 (stat_t : Stat_t) :
  0 <= Mode stat_t < 2 ^ 31 -> is_root stat_t = false.
Proof.
  intros H. unfold is_root.
  replace (Z.land (Mode stat_t) ModeDir) with 0; [reflexivity|].
  symmetry. apply Z.bits_inj'. intros n Hn.
  rewrite Z.land_spec, Z.bits_0.
  destruct (Z.eq_dec n 31) as [->|Hne].
  - replace (Z.testbit (Mode stat_t) 31) with false; [reflexivity|].
    symmetry. destruct (Z.eq_dec (Mode stat_t) 0) as [->|Hz]; [apply Z.bits_0|].
    apply Z.bits_above_log2; [lia|].
    apply Z.log2_lt_pow2; lia.
  - replace (Z.testbit ModeDir n) with false; [apply andb_false_r|].
    symmetry. change ModeDir with (2 ^ 31). apply Z.pow2_bits_false. lia.
Qed.

(** A turn of the loop of [walk] does not read the [ok] it is given. *)
Lemma walk_child_forgets_ok {W} (os : OS W) (cfg : Flags)
    (rec : string -> option FileInfo -> M W bool) (path : string)
    (uid gid reqUid reqGid : Z) (name : string) (ok ok' sym : bool) :
  walk_child os cfg rec path uid gid reqUid reqGid name (ok, sym)
  = walk_child os cfg rec path uid gid reqUid reqGid name (ok', sym).
Proof. reflexivity. Qed.

(** Without dereference, any failure of [Lchown] leaves [ok] true. *)
Lemma change_Lchown_failure {W} (os : OS W) (cfg : Flags) (fname : string)
    (origStat : option FileInfo) (fi : Z + Errno) (uid gid reqUid reqGid : Z)
    (w : W) (tr : list event) (d : bool) (e : Errno) (w' : W) :
  deref cfg = false ->
  os_Lchown os fname uid gid w = (Some e, w') ->
  change os cfg fname origStat fi uid gid reqUid reqGid true (mkState w tr d)
  = (Ret (true, true, false),
     mkState w' (tr ++ [E_Lchown fname uid gid (Some e)]) d).
Proof.
  intros Hd Hl. unfold change. rewrite Hd. cbn [negb].
  now rewrite (bind_call_mk _ _ _ _ _ _ _ _ Hl).
Qed.

(** The identity test of [RestrictedChown] compares the observed file with
    the path as statted on entry: a regular file whose path matched then is
    changed through the handle, whatever device and inode the handle has. *)
Lemma RestrictedChown_trusts_the_path {W} (os : OS W) (cwd_fd : Z) (file : string)
    (origStat : option FileInfo) (uid gid reqUid reqGid : Z)
    (w : W) (tr : list event) (d : bool)
    r0 w1 fileInfo w2 fd errno w3 fstat w4 err w5 :
  (reqUid =? -1) && (reqGid =? -1) = false ->
  IsRegular (fi_Mode fileInfo) = true ->
  syscall_Stat os file w = (r0, w1) ->
  os_Stat os file w1 = (inl fileInfo, w2) ->
  syscall_Openat os cwd_fd file (Z.lor O_RDONLY (Z.lor O_NONBLOCK O_NOCTTY)) w2
  = ((fd, errno), w3) ->
  0 <= fd ->
  syscall_Fstat os fd w3 = (inl fstat, w4) ->
  SameFile origStat (Some fileInfo) = true ->
  filter_test reqUid reqGid fstat = true ->
  syscall_Fchown os fd uid gid w4 = (err, w5) ->
  In (E_Fchown fd uid gid err)
     (trace (snd (RestrictedChown os cwd_fd file origStat uid gid reqUid reqGid
                    (mkState w tr d)))).
Proof.
  intros Hreq Hreg H0 H1 H2 Hfd H3 Hsame Hfilter H4.
  unfold RestrictedChown.
  rewrite (bind_call_mk _ _ _ _ _ _ _ _ H0).
  rewrite (bind_call_mk _ _ _ _ _ _ _ _ H1).
  rewrite Hreq, Hreg. cbn [negb].
  rewrite (bind_call_mk _ _ _ _ _ _ _ _ H2).
  unfold retry_test. apply Z.leb_le in Hfd. rewrite Hfd. cbn [orb negb].
  rewrite bind_ret.
  rewrite (bind_call_mk _ _ _ _ _ _ _ _ H3).
  rewrite Hsame, Hfilter. cbn [negb].
  rewrite (bind_call_mk _ _ _ _ _ _ _ _ H4).
  match goal with |- In _ (trace (snd (?m ?s5))) =>
    destruct (extends_trace m s5) as [t Ht]
  end.
  - pose proof (extends_close_and_return os).
    unfold extends in *. destruct err; ext.
  - rewrite Ht. cbn [trace]. apply in_or_app. left. apply in_or_app. right.
    simpl. auto.
Qed.

(** ** The program at the inputs of module [Ex] *)

(** C1.  "f" is redirected after [RestrictedChown] has statted the path and
    before it opens it.  The handle is inode 99, the file observed at scan
    time is inode 10; the program changes the owner through the handle and
    reports [RC_OK]. *)
Theorem RestrictedChown_changes_substituted_file :
  let run := RestrictedChown (Toy.os Ex.swap) 3 "f" Ex.observed 1000 (-1) 500 (-1)
               Toy.init in
  SameFile Ex.observed (Some (mkFileInfo 420 Ex.f_99)) = false
  /\ fst run = Ret RC_OK
  /\ trace (snd run)
     = [E_sysStat "f" (inl Ex.f_10);
        E_Stat "f" (inl (mkFileInfo 420 Ex.f_10));
        E_Openat 3 "f" (Z.lor O_RDONLY (Z.lor O_NONBLOCK O_NOCTTY)) (7, None);
        E_Fstat 7 (inl Ex.f_99);
        E_Fchown 7 1000 (-1) None;
        E_sysClose 7 None].
Proof. vm_compute. repeat split. Qed.

(** C2.  No owner is required, group 5 is, and the file has group 7: the
    filter of the specification rejects, the test of line 489 accepts and
    the owner is changed.  The same with owner 0 required of a file of owner
    500 whose group, 7, is the required one. *)
Theorem filter_disjunction_at_input :
  let run := RestrictedChown (Toy.os (Ex.one_file None None)) 3 "f" Ex.f_info
               1000 (-1) (-1) 5 Toy.init in
  Ex.spec_matches (Ex.required (-1)) (Ex.required 5) (Uid Ex.f_500_7) (Gid Ex.f_500_7)
  = false
  /\ filter_test (-1) 5 Ex.f_500_7 = true
  /\ fst run = Ret RC_OK
  /\ In (E_Fchown 7 1000 (-1) None) (trace (snd run))
  /\ Ex.spec_matches (Ex.required 0) (Ex.required 7) (Uid Ex.f_500_7) (Gid Ex.f_500_7)
     = false
  /\ filter_test 0 7 Ex.f_500_7 = true.
Proof. vm_compute. repeat split. auto 10. Qed.

(** C3.  [chown -R -L --preserve-root 1000 /] on a root directory that
    holds one file.  With the mode bits of the kernel the root test is
    false: "/" itself is changed, then "/etc", and the run returns true.
    Were bit 31 set in [st_mode], the message would be printed and
    [DO_NOT_FOLLOW] set, and the walk would go on all the same: "/etc" is
    changed after the message and the run returns true. *)
Theorem preserve_root_does_not_stop_the_walk :
  let run := ChownFiles (Toy.os Ex.root_tree) Ex.preserve_root 5 "/"
               1000 (-1) (-1) (-1) Toy.init in
  let run31 := ChownFiles (Toy.os Ex.root_tree_31) Ex.preserve_root 5 "/"
                 1000 (-1) (-1) (-1) Toy.init in
  is_root Ex.root_stat = false
  /\ fst run = Ret true
  /\ Ex.changes_and_lines (trace (snd run))
     = [E_Chown "/" 1000 (-1) None; E_Chown "/etc" 1000 (-1) None]
  /\ is_root Ex.root_stat_31 = true
  /\ fst run31 = Ret true
  /\ DO_NOT_FOLLOW (snd run31) = true
  /\ Ex.changes_and_lines (trace (snd run31))
     = [E_Printf "cannot run chown on root directory (--preserve-root specified\n" [];
        E_Chown "/etc" 1000 (-1) None].
Proof. vm_compute. repeat split. Qed.

(** C4.  [chown -R -L 1000 d]: "d/a" cannot be opened, [ChangeOwner] returns
    false for it and changes nothing; "d/b", visited after it, succeeds, and
    the run returns true. *)
Theorem walk_returns_the_last_result :
  let run := ChownFiles (Toy.os Ex.d_tree) Ex.recursive_L 5 "d"
               1000 (-1) (-1) (-1) Toy.init in
  fst (ChangeOwner (Toy.os Ex.d_tree) Ex.recursive_L "d/a"
         (Some (mkFileInfo 128 (mkStat_t 1 11 (Z.lor Toy.S_IFREG 128) 500 500)))
         1000 (-1) (-1) (-1) Toy.init) = Ret false
  /\ In (E_Open "d/a" (inr EACCES)) (trace (snd run))
  /\ Ex.changes_and_lines (trace (snd run))
     = [E_Chown "d" 1000 (-1) None;
        E_Printf "%v %s" [AErr EACCES; AStr "d/a"];
        E_Chown "d/b" 1000 (-1) None]
  /\ fst run = Ret true.
Proof. vm_compute. repeat split. auto 20. Qed.

(** C6.  A regular file that can be opened for writing only: the read-only
    open fails with [EACCES] and no second open is made; the program goes on
    with descriptor -1 and panics on its close.  A directory whose read-only
    open fails gets the second, write-only, open. *)
Theorem retry_is_made_for_directories_only :
  let run_f := RestrictedChown (Toy.os Ex.locked) 3 "f" Ex.f_locked
                 1000 (-1) 500 (-1) Toy.init in
  let run_d := RestrictedChown (Toy.os Ex.locked) 3 "d" Ex.d_locked
                 1000 (-1) 500 (-1) Toy.init in
  Toy.p_Openat (Toy.paths (Ex.locked 0%nat) "f") (Z.lor O_WRONLY (Z.lor O_NONBLOCK O_NOCTTY))
  = (8, None)
  /\ fst run_f = Panic (PanicError EBADF)
  /\ filter is_handle_b (trace (snd run_f))
     = [E_Openat 3 "f" (Z.lor O_RDONLY (Z.lor O_NONBLOCK O_NOCTTY)) (-1, Some EACCES);
        E_Fstat (-1) (inr EBADF);
        E_sysClose (-1) (Some EBADF)]
  /\ fst run_d = Ret RC_DO_ORDINARY_CHOWN
  /\ filter is_handle_b (trace (snd run_d))
     = [E_Openat 3 "d" (Z.lor O_RDONLY (Z.lor (Z.lor O_NONBLOCK O_NOCTTY) O_DIRECTORY))
          (-1, Some EACCES);
        E_Openat 3 "d" (Z.lor O_WRONLY (Z.lor (Z.lor O_NONBLOCK O_NOCTTY) O_DIRECTORY))
          (-1, Some EISDIR)].
Proof. vm_compute. repeat split. Qed.

(** C7.  [chown -h 1000 f] on a file of another user: [Lchown] fails with
    [EPERM]; [ChangeOwner] returns true and prints nothing.  With [-v] the
    entry is classified [CH_NOT_APPLIED], its line is printed, and
    [DescribeChange] panics in the default case of its switch. *)
Theorem Lchown_permission_failure_is_success :
  let run := ChangeOwner (Toy.os Ex.foreign) Ex.no_deref "f" Ex.f_info
               1000 (-1) (-1) (-1) Toy.init in
  let run_v := ChangeOwner (Toy.os Ex.foreign) Ex.no_deref_verbose "f" Ex.f_info
                 1000 (-1) (-1) (-1) Toy.init in
  IsPermission EPERM = true
  /\ fst run = Ret true
  /\ Ex.changes_and_lines (trace (snd run)) = [E_Lchown "f" 1000 (-1) (Some EPERM)]
  /\ classify true false false = CH_NOT_APPLIED
  /\ fst run_v = Panic (PanicString "let's go out with a bang!")
  /\ Ex.changes_and_lines (trace (snd run_v))
     = [E_Lchown "f" 1000 (-1) (Some EPERM);
        E_Printf "neither symbolic link '%s' nor referent has been changed\n" [AStr "f"]].
Proof. vm_compute. repeat split. Qed.

(** C5 as the specification states it does not hold of every entry.  All
    three runs have an empty filter.  "d/a" cannot be opened: [ChangeOwner]
    returns false after the open and the stat, [RestrictedChown] is not
    called and no change is attempted.  "f" is removed after the open and
    the stat of the entry: the [os.Stat] of [RestrictedChown] fails and the
    program panics on the nil [FileInfo], before the test of the filter and
    without a change.  At a root that meets the root test under
    [-R --preserve-root] the entry is refused and no change is attempted. *)
Lemma empty_filter_without_change :
  let unopened := ChangeOwner (Toy.os Ex.d_tree) Toy.plain "d/a" None
                    1000 (-1) (-1) (-1) Toy.init in
  let removed := ChangeOwner (Toy.os Inputs.removed) Toy.plain "f" Ex.f_info
                   1000 (-1) (-1) (-1) Toy.init in
  let root := ChangeOwner (Toy.os Ex.root_tree_31) Ex.preserve_root "/" None
                1000 (-1) (-1) (-1) Toy.init in
  fst unopened = Ret false
  /\ trace (snd unopened)
     = [E_Open "d/a" (inr EACCES);
        E_Printf "%v %s" [AErr EACCES; AStr "d/a"];
        E_sysStat "d/a" (inl (mkStat_t 1 11 (Z.lor Toy.S_IFREG 128) 500 500))]
  /\ fst (RestrictedChown (Toy.os Inputs.removed) 7 "f" Ex.f_info 1000 (-1) (-1) (-1)
            Ex.after_open_and_stat)
     = Panic PanicNilDeref
  /\ fst removed = Panic PanicNilDeref
  /\ trace (snd removed)
     = [E_Open "f" (inl 7); E_sysStat "f" (inl Ex.f_500_7);
        E_sysStat "f" (inr ENOENT); E_Stat "f" (inr ENOENT)]
  /\ fst root = Ret false
  /\ trace (snd root)
     = [E_Open "/" (inl 3); E_sysStat "/" (inl Ex.root_stat_31);
        E_Printf "cannot run chown on root directory (--preserve-root specified\n" []].
Proof. vm_compute. repeat split. Qed.

(** C8 as the specification states it does not hold.
    [chown -v --from=500 1000 f]: the
    change through the handle succeeds and the close fails with [EIO].
    The status is [RC_ERROR], the entry is a failure, and the line printed is
    the one of a failed change; status, result and line are those of the run
    in which the change itself fails with [EIO]. *)
Lemma close_failure_reported_as_failed_change :
  let closing := Toy.os (Ex.one_file None (Some EIO)) in
  let changing := Toy.os (Ex.one_file (Some EIO) None) in
  let run := ChangeOwner closing Ex.verbose_only "f" Ex.f_info 1000 (-1) 500 (-1) Toy.init in
  let run' := ChangeOwner changing Ex.verbose_only "f" Ex.f_info 1000 (-1) 500 (-1) Toy.init in
  In (E_Fchown 7 1000 (-1) None) (trace (snd run))
  /\ In (E_sysClose 7 (Some EIO)) (trace (snd run))
  /\ fst (RestrictedChown closing 7 "f" Ex.f_info 1000 (-1) 500 (-1) Toy.init) = Ret RC_ERROR
  /\ fst (RestrictedChown changing 7 "f" Ex.f_info 1000 (-1) 500 (-1) Toy.init) = Ret RC_ERROR
  /\ fst run = Ret false
  /\ fst run' = Ret false
  /\ Ex.printed (trace (snd run)) = [E_Printf "failed to change ownership of %s" [AStr "f"]]
  /\ Ex.printed (trace (snd run')) = Ex.printed (trace (snd run)).
Proof. vm_compute. repeat split; auto 20. Qed.

(** ** The general results at the inputs of module [Ex] *)

Lemma empty_filter_witness :
  RestrictedChown (Toy.os (Ex.one_file None None)) 3 "f" Ex.f_info 1000 (-1) (-1) (-1)
    Toy.init
  = (Ret RC_DO_ORDINARY_CHOWN,
     mkState 2%nat (trace Toy.init ++ [E_sysStat "f" (inl Ex.f_500_7);
                                       E_Stat "f" (inl (mkFileInfo 420 Ex.f_500_7))])
             false)
  /\ (exists t,
        trace (snd (ChangeOwner (Toy.os (Ex.one_file None None)) Toy.plain "f" Ex.f_info
                      1000 (-1) (-1) (-1) Toy.init)) = trace Toy.init ++ t
        /\ In (E_Chown "f" 1000 (-1) None) t
        /\ Forall (fun e => ~ is_handle e) t
        /\ fst (ChangeOwner (Toy.os (Ex.one_file None None)) Toy.plain "f" Ex.f_info
                  1000 (-1) (-1) (-1) Toy.init) = Ret true)
  /\ (exists t,
        trace (snd (ChangeOwner (Toy.os Ex.foreign) Ex.no_deref "f" Ex.f_info
                      1000 (-1) (-1) (-1) Toy.init)) = trace Toy.init ++ t
        /\ In (E_Lchown "f" 1000 (-1) (Some EPERM)) t
        /\ Forall (fun e => ~ is_handle e) t).
Proof.
  split; [|split].
  - apply (proj1 (empty_filter_takes_ordinary_chown (Toy.os (Ex.one_file None None))
                    Toy.plain "f" Ex.f_info 1000 (-1))
             3 Toy.init (inl Ex.f_500_7) 1%nat (mkFileInfo 420 Ex.f_500_7) 2%nat);
      reflexivity.
  - apply (proj1 (proj2 (empty_filter_takes_ordinary_chown
                           (Toy.os (Ex.one_file None None)) Toy.plain "f" Ex.f_info
                           1000 (-1)))
             Toy.init 7 1%nat Ex.f_500_7 2%nat (inl Ex.f_500_7) 3%nat
             (mkFileInfo 420 Ex.f_500_7) 4%nat None 5%nat);
      try reflexivity.
    vm_compute. discriminate.
  - apply (proj2 (proj2 (empty_filter_takes_ordinary_chown
                           (Toy.os Ex.foreign) Ex.no_deref "f" Ex.f_info 1000 (-1)))
             Toy.init 7 1%nat Ex.f_500_7 2%nat (Some EPERM) 3%nat);
      reflexivity.
Defined.

Lemma close_failure_witness :
  let os := Toy.os (Ex.one_file None (Some EIO)) in
  let cfg := Ex.verbose_only in
  let s0 := Toy.init in
  let s := Ex.after_open_and_stat in
  let run := RestrictedChown os 7 "f" Ex.f_info 1000 (-1) 500 (-1) s in
  let t := [E_sysStat "f" (inl Ex.f_500_7);
            E_Stat "f" (inl (mkFileInfo 420 Ex.f_500_7));
            E_Openat 7 "f" (Z.lor O_RDONLY (Z.lor O_NONBLOCK O_NOCTTY)) (7, None);
            E_Fstat 7 (inl Ex.f_500_7);
            E_Fchown 7 1000 (-1) None;
            E_sysClose 7 (Some EIO)] in
  let entry := ChangeOwner os cfg "f" Ex.f_info 1000 (-1) 500 (-1) s0 in
  run = (Ret RC_ERROR, snd run)
  /\ trace (snd run) = trace s ++ t
  /\ In (E_Fchown 7 1000 (-1) None) t
  /\ In (E_sysClose 7 (Some EIO)) t
  /\ Ret RC_ERROR = Ret RC_ERROR
  /\ (forall fi ok,
        deref cfg = true -> Fd fi = 7 -> 7 <= MAX_INT ->
        change os cfg "f" Ex.f_info fi 1000 (-1) 500 (-1) ok s
        = (Ret (false, true, true), snd run))
  /\ (fst entry = Ret false
      /\ exists t', trace (snd entry) = trace (snd run) ++ t'
                    /\ Forall (fun e => ~ is_handle e) t')
  /\ (forall symlinkChanged changed, classify false symlinkChanged changed = CH_FAILED).
Proof.
  intros os cfg s0 s run t entry.
  assert (H1 : run = (Ret RC_ERROR, snd run)) by (vm_compute; reflexivity).
  assert (H2 : trace (snd run) = trace s ++ t) by (vm_compute; reflexivity).
  assert (H3 : In (E_Fchown 7 1000 (-1) None) t) by (simpl; auto 10).
  assert (H4 : In (E_sysClose 7 (Some EIO)) t) by (simpl; auto 10).
  assert (H5 : deref cfg = true) by reflexivity.
  assert (H6 : 7 <= MAX_INT) by (vm_compute; discriminate).
  assert (H7 : os_Open os "f" (world s0) = (inl 7, 1%nat)) by reflexivity.
  assert (H8 : syscall_Stat os "f" 1%nat = (inl Ex.f_500_7, world s)) by reflexivity.
  assert (H9 : is_root Ex.f_500_7 = false) by reflexivity.
  assert (H10 : trace s = trace s0 ++ [E_Open "f" (inl 7); E_sysStat "f" (inl Ex.f_500_7)])
    by reflexivity.
  assert (H11 : DO_NOT_FOLLOW s = DO_NOT_FOLLOW s0) by reflexivity.
  split; [exact H1|]. split; [exact H2|]. split; [exact H3|]. split; [exact H4|].
  destruct (close_failure_is_RC_ERROR os cfg 7 "f" Ex.f_info 1000 (-1) 500 (-1)
              s (Ret RC_ERROR) (snd run) t 7 EIO H1 H2 H3 H4)
    as [Hr [Hchange [Hentry Hclass]]].
  split; [exact Hr|]. split; [exact Hchange|]. split; [|exact Hclass].
  exact (Hentry s0 1%nat Ex.f_500_7 H5 H6 H7 H8 H9 H10 H11).
Defined.


Lemma sym_witness :
  let os := Toy.os Ex.link_tree in
  let cfg := Ex.no_deref_L in
  let s := Ex.after_readdir Ex.link_tree cfg in
  let s2 := Ex.after_link in
  let s3 := mkState (S (world s2)) (trace s2 ++ [E_Lstat "d/b" (inl Ex.b_info)])
                    (DO_NOT_FOLLOW s2) in
  deref cfg = false
  /\ for_each Ex.link_body [] (true, false) s = (Ret (true, false), s)
  /\ os_Lstat os (filepath_Join os "d" "a") (world s) = (inl Ex.link_info, S (world s))
  /\ IsSymlink (fi_Mode Ex.link_info) = true
  /\ for_each Ex.link_body ([] ++ "a" :: []) (true, false) s = (Ret (true, true), s2)
  /\ IsSymlink (fi_Mode Ex.b_info) = false
  /\ Ex.link_body "b" (true, true) s2
     = bind (dispatch os cfg Ex.link_rec 1000 (-1) (-1) (-1) true "d/b" Ex.b_info)
            (fun ok => ret (ok, true)) s3
  /\ dispatch os cfg Ex.link_rec 1000 (-1) (-1) (-1) true "d/b" Ex.b_info s3
     = Ex.link_rec "" (Some Ex.b_info)
         (mkState (S (world s3)) (trace s3 ++ [E_Readlink "d/b" (inr EINVAL)])
                  (DO_NOT_FOLLOW s3)).
Proof.
  intros os cfg s s2 s3.
  assert (H0 : deref cfg = false) by reflexivity.
  assert (H1 : for_each Ex.link_body [] (true, false) s = (Ret (true, false), s))
    by reflexivity.
  assert (H2 : os_Lstat os (filepath_Join os "d" "a") (world s)
               = (inl Ex.link_info, S (world s))) by reflexivity.
  assert (H3 : IsSymlink (fi_Mode Ex.link_info) = true) by reflexivity.
  assert (H4 : for_each Ex.link_body ([] ++ "a" :: []) (true, false) s
               = (Ret (true, true), s2)) by (vm_compute; reflexivity).
  destruct (sym_stays_set_after_first_symlink os cfg Ex.link_rec "d" 1000 (-1) (-1) (-1)
              H0 [] "a" [] (true, false) s (true, false) s Ex.link_info (S (world s))
              true true s2 H1 H2 H3 H4) as [_ Hnext].
  destruct (Hnext "b" Ex.b_info (S (world s2)) eq_refl) as [Hb Hd].
  split; [exact H0|]. split; [exact H1|]. split; [exact H2|]. split; [exact H3|].
  split; [exact H4|]. split; [reflexivity|]. split; [exact Hb|].
  exact (Hd eq_refl eq_refl (inr EINVAL) (S (world s3)) eq_refl).
Defined.

(** * Further results *)

(** Like [cases], keeping the equation of every test. *)
Ltac cases_eq :=
  repeat (match goal with
          | |- context [match ?x with _ => _ end] =>
              lazymatch x with
              | context [match _ with _ => _ end] => fail
              | _ => destruct x eqn:?
              end
          end; cbn [world trace DO_NOT_FOLLOW fst snd]).

(** Membership in an explicit list. *)
Ltac find_in := cbn [In]; repeat first [ left; reflexivity | right ].

(** ** [RestrictedChown], for every answer of the system *)

Section Restricted.

Context {W : Type}.
Variable os : OS W.
Variable cfg : Flags.

(** X1.  The statuses of [RestrictedChown]: it returns [RC_OK],
    [RC_DO_ORDINARY_CHOWN], [RC_ERROR], [RC_INODE_CHANGED], or 0, the value
    its [status] variable starts with; it never returns [RC_EXCLUDED].  It
    returns 0 only after an [Fstat] whose owner and group fail the test of
    line 489, and [ChangeOwner]'s switch then panics in its default case. *)
Theorem RestrictedChown_statuses :
  forall cwd_fd file origStat uid gid reqUid reqGid s st s' t,
    RestrictedChown os cwd_fd file origStat uid gid reqUid reqGid s = (Ret st, s') ->
    trace s' = trace s ++ t ->
    (st = RC_OK \/ st = RC_DO_ORDINARY_CHOWN \/ st = RC_ERROR
     \/ st = RC_INODE_CHANGED \/ st = 0)
    /\ st <> RC_EXCLUDED
    /\ (st = 0 ->
        (exists fd fstat,
            In (E_Fstat fd (inl fstat)) t
            /\ filter_test reqUid reqGid fstat = false)
        /\ forall fi ok,
             deref cfg = true -> Fd fi = cwd_fd -> cwd_fd <= MAX_INT ->
             change os cfg file origStat fi uid gid reqUid reqGid ok s
             = (Panic (PanicString "Now how did this happen?"), s')).
Proof.
  intros cwd_fd file origStat uid gid reqUid reqGid s st s' t Hrun Ht.
  assert (Hst : (st = RC_OK \/ st = RC_DO_ORDINARY_CHOWN \/ st = RC_ERROR
                 \/ st = RC_INODE_CHANGED \/ st = 0)
                /\ (st = 0 -> exists fd fstat,
                       In (E_Fstat fd (inl fstat)) t
                       /\ filter_test reqUid reqGid fstat = false)).
  { revert Hrun Ht. destruct s as [w0 tr d].
    unfold RestrictedChown, close_and_return, bind, call, fmt_Printf, ret, panic.
    cbn [world trace DO_NOT_FOLLOW].
    cases_eq; intros Hrun Ht; inversion Hrun; subst; clear Hrun.
    all: split; [auto 6|].
    all: try discriminate.
    all: intros _; added Ht; subst t; do 2 eexists; (split; [find_in | eassumption]). }
  destruct Hst as [Hset Hzero].
  split; [exact Hset|]. split.
  - intros ->. destruct Hset as [H|[H|[H|[H|H]]]]; discriminate.
  - intros ->. split; [now apply Hzero|].
    intros fi ok Hderef Hfi Hle.
    unfold change. rewrite Hderef, Hfi. cbn [negb].
    apply Z.leb_le in Hle. rewrite Hle. cbv iota.
    rewrite (bind_Ret _ _ _ _ _ Hrun). reflexivity.
Qed.

(** X2.  [RestrictedChown] calls [Fchown] only with the owner and group it
    was given, on a descriptor it got from [Openat] of the file in this run,
    after an [Fstat] of that descriptor whose owner and group pass the test
    of line 489, with a filter that is not empty, and after the path stat
    made on entry has been found to be the observed file. *)
Theorem Fchown_only_after_the_tests :
  forall cwd_fd file origStat uid gid reqUid reqGid s r s' t fd u g c,
    RestrictedChown os cwd_fd file origStat uid gid reqUid reqGid s = (r, s') ->
    trace s' = trace s ++ t ->
    In (E_Fchown fd u g c) t ->
    u = uid /\ g = gid
    /\ (reqUid =? -1) && (reqGid =? -1) = false
    /\ (exists flags e, In (E_Openat cwd_fd file flags (fd, e)) t)
    /\ (exists fstat, In (E_Fstat fd (inl fstat)) t
                      /\ filter_test reqUid reqGid fstat = true)
    /\ (exists fileInfo, In (E_Stat file (inl fileInfo)) t
                         /\ SameFile origStat (Some fileInfo) = true).
Proof.
  intros cwd_fd file origStat uid gid reqUid reqGid s r s' t fd u g c.
  destruct s as [w0 tr d].
  unfold RestrictedChown, close_and_return, bind, call, fmt_Printf, ret, panic.
  cbn [world trace DO_NOT_FOLLOW].
  cases_eq; intros Hrun Ht Hin; inversion Hrun; subst; clear Hrun;
    added Ht; subst t; cbn [In] in Hin.
  all: repeat match goal with
              | H : _ \/ _ |- _ => destruct H as [H|H]
              | H : False |- _ => contradiction
              | H : _ = E_Fchown _ _ _ _ |- _ => inversion H; subst; clear H
              end.
  all: repeat match goal with
              | H : negb _ = false |- _ => apply negb_false_iff in H
              end.
  all: split; [reflexivity|]; split; [reflexivity|];
       split; [first [assumption | reflexivity]|];
       split; [do 2 eexists; find_in|];
       split; (eexists; split; [find_in | eassumption]).
Qed.

(** X3.  [RC_OK] means that the change was made and the handle closed: the
    status is [RC_OK] exactly when the run holds a successful [Fchown] and a
    successful [Close] of the same descriptor.  A status other than [RC_OK]
    and [RC_ERROR] means that no [Fchown] was called. *)
Theorem RC_OK_iff_changed_and_closed :
  forall cwd_fd file origStat uid gid reqUid reqGid s r s' t,
    RestrictedChown os cwd_fd file origStat uid gid reqUid reqGid s = (r, s') ->
    trace s' = trace s ++ t ->
    (r = Ret RC_OK
     <-> exists fd, In (E_Fchown fd uid gid None) t /\ In (E_sysClose fd None) t)
    /\ (forall st, r = Ret st -> st <> RC_OK -> st <> RC_ERROR ->
        Forall (fun e => ~ changes_owner e) t).
Proof.
  intros cwd_fd file origStat uid gid reqUid reqGid s r s' t.
  destruct s as [w0 tr d].
  unfold RestrictedChown, close_and_return, bind, call, fmt_Printf, ret, panic.
  cbn [world trace DO_NOT_FOLLOW].
  cases; intros Hrun Ht; inversion Hrun; subst; clear Hrun;
    added Ht; subst t; (split; [split|]).
  all: try discriminate.
  all: try (intros [fd' [Hf Hc]]; cbn [In] in Hf, Hc; exfalso;
            intuition congruence).
  all: try (intros _; eexists; split; find_in).
  all: try (intros st H; inversion H; subst; clear H; intros H1 H2;
            first [ now (exfalso; apply H1) | now (exfalso; apply H2)
                  | repeat constructor; intros H; exact H ]).
Qed.

(** X4.  A run of [RestrictedChown] that returns has closed the descriptor
    it went on with: every descriptor given to [Fstat] has been given to
    [Close]. *)
Theorem RestrictedChown_closes_its_descriptor :
  forall cwd_fd file origStat uid gid reqUid reqGid s st s' t fd r,
    RestrictedChown os cwd_fd file origStat uid gid reqUid reqGid s = (Ret st, s') ->
    trace s' = trace s ++ t ->
    In (E_Fstat fd r) t ->
    exists c, In (E_sysClose fd c) t.
Proof.
  intros cwd_fd file origStat uid gid reqUid reqGid s st s' t fd r.
  destruct s as [w0 tr d].
  unfold RestrictedChown, close_and_return, bind, call, fmt_Printf, ret, panic.
  cbn [world trace DO_NOT_FOLLOW].
  cases; intros Hrun Ht Hin; inversion Hrun; subst; clear Hrun;
    added Ht; subst t; cbn [In] in Hin.
  all: repeat match goal with
              | H : _ \/ _ |- _ => destruct H as [H|H]
              | H : False |- _ => contradiction
              | H : _ = E_Fstat _ _ |- _ => inversion H; subst; clear H
              end.
  all: eexists; find_in.
Qed.

End Restricted.

(** ** [ChangeOwner], for every answer of the system *)

Section Owner.

Context {W : Type}.
Variable os : OS W.
Variable cfg : Flags.

Lemma bind_set_mk {B} (b : bool) (k : unit -> M W B) (w : W) (tr : list event) (d : bool) :
  bind (set_DO_NOT_FOLLOW b) k (mkState w tr d) = k tt (mkState w tr b).
Proof. reflexivity. Qed.

(** X5.  A file that is neither regular nor a directory (a device, a FIFO,
    a socket) is not put to the filter: whatever owner and group are
    required, [RestrictedChown] answers [RC_DO_ORDINARY_CHOWN] after its two
    stats of the path, and the caller changes the owner by path. *)
Theorem special_files_bypass_the_filter :
  forall cwd_fd file origStat uid gid reqUid reqGid s r0 w1 fileInfo w2,
    syscall_Stat os file (world s) = (r0, w1) ->
    os_Stat os file w1 = (inl fileInfo, w2) ->
    IsRegular (fi_Mode fileInfo) = false ->
    IsDir (fi_Mode fileInfo) = false ->
    let s2 := mkState w2 (trace s ++ [E_sysStat file r0; E_Stat file (inl fileInfo)])
                      (DO_NOT_FOLLOW s) in
    RestrictedChown os cwd_fd file origStat uid gid reqUid reqGid s
    = (Ret RC_DO_ORDINARY_CHOWN, s2)
    /\ forall fi ok err w3,
         deref cfg = true -> Fd fi = cwd_fd -> cwd_fd <= MAX_INT ->
         os_Chown os file uid gid w2 = (err, w3) ->
         exists t,
           trace (snd (change os cfg file origStat fi uid gid reqUid reqGid ok s))
           = trace s2 ++ E_Chown file uid gid err :: t.
Proof.
  intros cwd_fd file origStat uid gid reqUid reqGid [w0 tr d] r0 w1 fileInfo w2
         H0 H1 Hreg Hdir s2. cbn [world trace DO_NOT_FOLLOW] in *.
  assert (R : RestrictedChown os cwd_fd file origStat uid gid reqUid reqGid
                (mkState w0 tr d) = (Ret RC_DO_ORDINARY_CHOWN, s2)).
  { unfold RestrictedChown.
    rewrite (bind_call_mk _ _ _ _ _ _ _ _ H0).
    rewrite (bind_call_mk _ _ _ _ _ _ _ _ H1).
    rewrite Hreg, Hdir. cbn [negb]. subst s2. rewrite <- app_assoc.
    destruct ((reqUid =? -1) && (reqGid =? -1)); reflexivity. }
  split; [exact R|].
  intros fi ok err w3 Hderef Hfi Hle Hchown.
  unfold change. rewrite Hderef, Hfi. cbn [negb].
  apply Z.leb_le in Hle. rewrite Hle. cbv iota.
  rewrite (bind_Ret _ _ _ _ _ R).
  change (RC_DO_ORDINARY_CHOWN =? RC_OK) with false.
  change (RC_DO_ORDINARY_CHOWN =? RC_DO_ORDINARY_CHOWN) with true.
  cbv iota. subst s2.
  rewrite (bind_call_mk _ _ _ _ _ _ _ _ Hchown).
  match goal with |- context [snd (?m ?s5)] =>
    destruct (extends_trace m s5) as [t Ht]
  end.
  { unfold extends, not_permitted. ext. }
  exists t. rewrite Ht. cbn [trace]. now rewrite <- app_assoc.
Qed.

(** The shape of a run of [ChangeOwner]: the open, the stat, a line for each
    of the two that failed; then either the refusal at the root, or the
    change (if both succeeded) and the report. *)
Lemma ChangeOwner_shape fname origStat uid gid reqUid reqGid w tr d fi w1 r w2 :
  os_Open os fname w = (fi, w1) ->
  syscall_Stat os fname w1 = (r, w2) ->
  let ok := succeeded fi && succeeded r in
  let stat_t := stat_or_zero r in
  let pre := tr ++ [E_Open fname fi] ++ error_line cfg fname fi
                ++ [E_sysStat fname r] ++ error_line cfg fname r in
  ChangeOwner os cfg fname origStat uid gid reqUid reqGid (mkState w tr d)
  = if is_root stat_t then
      if recursive cfg && pr cfg then
        (Ret false,
         mkState w2 (pre ++ [E_Printf
           "cannot run chown on root directory (--preserve-root specified\n" []]) true)
      else
        bind (if ok then change os cfg fname origStat fi uid gid reqUid reqGid ok
              else ret (ok, ok, true))
             (fun x => let '(ok, doChown, symlinkChanged) := x in
                       bind (report os cfg fname stat_t uid gid doChown ok symlinkChanged)
                            (fun _ => ret ok))
             (mkState w2 (pre ++ [E_Printf
                "warning: running chown on root directory without protection\n" []]) d)
    else
      bind (if ok then change os cfg fname origStat fi uid gid reqUid reqGid ok
            else ret (ok, ok, true))
           (fun x => let '(ok, doChown, symlinkChanged) := x in
                     bind (report os cfg fname stat_t uid gid doChown ok symlinkChanged)
                          (fun _ => ret ok))
           (mkState w2 pre d).
Proof.
  intros Hopen Hstat ok stat_t pre. subst ok stat_t pre.
  unfold ChangeOwner, root_gate, fmt_Print, error_line.
  rewrite (bind_call_mk _ _ _ _ _ _ _ _ Hopen).
  destruct fi as [fd|e]; destruct r as [st|e']; cbn [succeeded stat_or_zero andb];
    destruct (negb (mute cfg)); cbv iota;
    rewrite ?bind_bind, ?bind_Printf_mk, ?bind_ret;
    rewrite (bind_call_mk _ _ _ _ _ _ _ _ Hstat);
    rewrite ?bind_bind, ?bind_Printf_mk, ?bind_ret;
    match goal with |- context [is_root ?s] => destruct (is_root s) end;
    try destruct (recursive cfg && pr cfg); cbv iota;
    rewrite ?bind_bind, ?bind_Printf_mk, ?bind_set_mk, ?bind_ret;
    cbn [app]; rewrite <- ?app_assoc; cbn [app]; reflexivity.
Qed.

Lemma report_tail (P : event -> Prop) fname stat_t uid gid doChown ok symlinkChanged s :
  (forall e, is_report e -> P e) ->
  exists t,
    trace (snd (bind (report os cfg fname stat_t uid gid doChown ok symlinkChanged)
                     (fun _ => ret ok) s)) = trace s ++ t
    /\ Forall P t
    /\ (ok = false \/ symlinkChanged = true ->
        fst (bind (report os cfg fname stat_t uid gid doChown ok symlinkChanged)
                  (fun _ => ret ok) s) = Ret ok).
Proof.
  intros HP.
  destruct (emits_report os cfg P HP fname stat_t uid gid doChown ok symlinkChanged s)
    as [t [Ht Pt]].
  exists t. unfold bind.
  destruct (report os cfg fname stat_t uid gid doChown ok symlinkChanged s)
    as [[u|p|] s'] eqn:E; simpl in *; repeat split; auto;
    intros H; destruct (returns_report os cfg fname stat_t uid gid doChown ok
                          symlinkChanged H s) as [a [s'' E']];
    rewrite E in E'; discriminate.
Qed.

Lemma Forall_error_line {A} (P : event -> Prop) fname (r : A + Errno) :
  (forall e, is_report e -> P e) -> Forall P (error_line cfg fname r).
Proof.
  intros HP. unfold error_line. destruct r; [constructor|].
  destruct (negb (mute cfg)); repeat constructor. apply HP. exact I.
Qed.

(** X6.  An entry that cannot be opened for reading, or cannot be statted,
    is not changed: [ChangeOwner] returns false and makes no call that
    changes an owner, nor any call of the handle-based path. *)
Theorem ChangeOwner_needs_open_and_stat :
  forall fname origStat uid gid reqUid reqGid s fi w1 r w2,
    os_Open os fname (world s) = (fi, w1) ->
    syscall_Stat os fname w1 = (r, w2) ->
    succeeded fi && succeeded r = false ->
    let run := ChangeOwner os cfg fname origStat uid gid reqUid reqGid s in
    fst run = Ret false
    /\ exists t, trace (snd run) = trace s ++ t
                 /\ Forall (fun e => ~ changes_owner e /\ ~ is_handle e) t.
Proof.
  intros fname origStat uid gid reqUid reqGid [w tr d] fi w1 r w2 Hopen Hstat Hok run.
  cbn [world] in Hopen. subst run.
  set (P := fun e => ~ changes_owner e /\ ~ is_handle e).
  assert (HP : forall e, is_report e -> P e)
    by (intros e; destruct e; unfold P; simpl; tauto).
  assert (Hpre : Forall P ([E_Open fname fi] ++ error_line cfg fname fi
                           ++ [E_sysStat fname r] ++ error_line cfg fname r)).
  { apply Forall_app; split; [repeat constructor; simpl; tauto|].
    apply Forall_app; split; [now apply Forall_error_line|].
    apply Forall_app; split; [repeat constructor; simpl; tauto|].
    now apply Forall_error_line. }
  rewrite (ChangeOwner_shape _ _ _ _ _ _ _ _ _ _ _ _ _ Hopen Hstat).
  rewrite Hok. cbv iota. rewrite !bind_ret. cbv iota.
  destruct (is_root (stat_or_zero r)); [destruct (recursive cfg && pr cfg)|].
  - cbn [fst snd trace]. split; [reflexivity|].
    eexists. rewrite <- app_assoc. split; [reflexivity|].
    apply Forall_app; split; [exact Hpre|]. repeat constructor; simpl; tauto.
  - match goal with |- context [bind _ _ ?s5] =>
      destruct (report_tail P fname (stat_or_zero r) uid gid false false true s5 HP)
        as [t [Ht [Pt Hr]]]
    end.
    split; [apply Hr; now left|].
    eexists. rewrite Ht. cbn [trace]. rewrite <- !app_assoc.
    split; [reflexivity|].
    rewrite !app_assoc. apply Forall_app; split; [|exact Pt].
    apply Forall_app; split; [|repeat constructor; simpl; tauto].
    rewrite <- !app_assoc. exact Hpre.
  - match goal with |- context [bind _ _ ?s5] =>
      destruct (report_tail P fname (stat_or_zero r) uid gid false false true s5 HP)
        as [t [Ht [Pt Hr]]]
    end.
    split; [apply Hr; now left|].
    eexists. rewrite Ht. cbn [trace]. rewrite <- !app_assoc.
    split; [reflexivity|].
    rewrite !app_assoc. apply Forall_app; split; [|exact Pt].
    rewrite <- !app_assoc. exact Hpre.
Qed.

(** X7.  The refusal at the root.  When the root test holds of the stat and
    both [-R] and [--preserve-root] are set, [ChangeOwner] prints its
    message, sets [DO_NOT_FOLLOW] and returns false, having made no call
    but the open and the stat. *)
Theorem ChangeOwner_refuses_the_root :
  forall fname origStat uid gid reqUid reqGid s fi w1 st w2,
    os_Open os fname (world s) = (fi, w1) ->
    syscall_Stat os fname w1 = (inl st, w2) ->
    is_root st = true ->
    recursive cfg && pr cfg = true ->
    ChangeOwner os cfg fname origStat uid gid reqUid reqGid s
    = (Ret false,
       mkState w2
         (trace s ++ [E_Open fname fi] ++ error_line cfg fname fi
            ++ [E_sysStat fname (inl st);
                E_Printf "cannot run chown on root directory (--preserve-root specified\n" []])
         true).
Proof.
  intros fname origStat uid gid reqUid reqGid [w tr d] fi w1 st w2 Hopen Hstat Hroot Hpr.
  cbn [world trace] in *.
  rewrite (ChangeOwner_shape _ _ _ _ _ _ _ _ _ _ _ _ _ Hopen Hstat).
  cbn [stat_or_zero error_line]. rewrite Hroot, Hpr.
  rewrite <- !app_assoc. cbn [app]. reflexivity.
Qed.

(** *** The calls [ChangeOwner] makes *)

Lemma report_is_entry (e : event) : is_report e -> is_entry_event e.
Proof. destruct e; simpl; tauto. Qed.

Lemma entry_close_and_return fd status :
  emits is_entry_event (close_and_return os fd status).
Proof. unfold close_and_return. ext. Qed.

Lemma entry_RestrictedChown cwd_fd file origStat uid gid reqUid reqGid :
  emits is_entry_event (RestrictedChown os cwd_fd file origStat uid gid reqUid reqGid).
Proof.
  pose proof entry_close_and_return.
  unfold RestrictedChown. ext.
Qed.

Lemma entry_change fname origStat fi uid gid reqUid reqGid ok :
  emits is_entry_event (change os cfg fname origStat fi uid gid reqUid reqGid ok).
Proof.
  pose proof entry_RestrictedChown.
  unfold change, not_permitted. ext.
Qed.

(** X8.  [ChangeOwner] opens its entry and never closes it: after the
    [os.Open] it only stats, changes owners, works on the handle of
    [RestrictedChown], looks names up and prints; no [Close] of a file, no
    enumeration of a directory, no [Lstat], no [Readlink]. *)
Theorem ChangeOwner_never_closes_its_file :
  forall fname origStat uid gid reqUid reqGid s,
  exists r t,
    trace (snd (ChangeOwner os cfg fname origStat uid gid reqUid reqGid s))
    = trace s ++ E_Open fname r :: t
    /\ Forall is_entry_event t
    /\ forall fd c, ~ In (E_FileClose fd c) t.
Proof.
  intros fname origStat uid gid reqUid reqGid s.
  assert (H : exists r t,
             trace (snd (ChangeOwner os cfg fname origStat uid gid reqUid reqGid s))
             = trace s ++ E_Open fname r :: t
             /\ Forall is_entry_event t).
  { pose proof entry_change.
    pose proof (emits_report os cfg is_entry_event report_is_entry).
    unfold ChangeOwner. unfold bind at 1, call.
    destruct (os_Open os fname (world s)) as [r w1].
    match goal with |- context [snd (?m ?s1)] =>
      assert (E : emits is_entry_event m)
    end.
    { unfold root_gate, fmt_Print. ext. }
    match goal with |- context [snd (?m ?s1)] =>
      destruct (E s1) as [t [Ht Pt]]
    end.
    exists r, t. rewrite Ht. cbn [trace]. rewrite <- app_assoc. auto. }
  destruct H as [r [t [Ht Pt]]]. exists r, t.
  split; [exact Ht|]. split; [exact Pt|].
  intros fd c Hin. rewrite Forall_forall in Pt. exact (Pt _ Hin).
Qed.

End Owner.

(** ** [walk], for every answer of the system *)

Section Walk.

Context {W : Type}.
Variable os : OS W.

Lemma bind_Panic {A B} (m : M W A) (k : A -> M W B) (s s' : State W) (p : panic_value) :
  m s = (Panic p, s') -> bind m k s = (Panic p, s').
Proof. unfold bind. now intros ->. Qed.

Lemma bind_OutOfFuel {A B} (m : M W A) (k : A -> M W B) (s s' : State W) :
  m s = (OutOfFuel, s') -> bind m k s = (OutOfFuel, s').
Proof. unfold bind. now intros ->. Qed.

Lemma bind_cong {A B} (m m' : M W A) (k k' : A -> M W B) (s : State W) :
  m s = m' s -> (forall a s', k a s' = k' a s') -> bind m k s = bind m' k' s.
Proof. intros Hm Hk. unfold bind. rewrite Hm. destruct (m' s) as [[a|p|] s']; auto. Qed.

(** X9.  [walk] returns true only on a path it could enumerate: a run that
    returns true holds a successful [Readdirnames].  On a regular file, or
    on a directory that cannot be read, a recursive run does not return
    true, whatever became of the change of the entry itself. *)
Theorem walk_true_only_after_enumeration :
  forall cfg fuel path info uid gid reqUid reqGid s,
    let run := walk os cfg fuel path info uid gid reqUid reqGid s in
    fst run = Ret true ->
    exists t fd raw,
      trace (snd run) = trace s ++ t /\ In (E_Readdirnames fd (inl raw)) t.
Proof.
  intros cfg fuel path info uid gid reqUid reqGid s run. subst run.
  destruct fuel as [|fuel]; [discriminate|].
  cbn [walk].
  destruct (extends_trace (ChangeOwner os cfg path info uid gid reqUid reqGid) s
              (extends_ChangeOwner os cfg _ _ _ _ _ _)) as [t1 Ht1].
  destruct (ChangeOwner os cfg path info uid gid reqUid reqGid s) as [[ok|p|] s1] eqn:E1;
    [ rewrite (bind_Ret _ _ _ _ _ E1)
    | rewrite (bind_Panic _ _ _ _ _ E1); discriminate
    | rewrite (bind_OutOfFuel _ _ _ _ E1); discriminate ].
  cbn [snd] in Ht1.
  destruct (readDirNames os path s1) as [[[names|e]|p|] s2] eqn:Hdir;
    [ rewrite (bind_Ret _ _ _ _ _ Hdir)
    | rewrite (bind_Ret _ _ _ _ _ Hdir); discriminate
    | rewrite (bind_Panic _ _ _ _ _ Hdir); discriminate
    | rewrite (bind_OutOfFuel _ _ _ _ Hdir); discriminate ].
  destruct (readDirNames_inl _ _ _ _ _ Hdir) as [fd [raw [c [Ht2 _]]]].
  match goal with |- fst (?m ?s0) = _ -> _ =>
    destruct (extends_trace m s0) as [t3 Ht3]
  end.
  { apply emits_bind.
    - apply emits_for_each. intros. apply extends_walk_child.
      intros. apply extends_walk.
    - intros [ok' sym']. apply emits_ret. }
  intros _. eexists _, fd, raw. rewrite Ht3, Ht2, Ht1. rewrite <- !app_assoc.
  split; [reflexivity|].
  apply in_or_app. right. cbn [app In]. auto.
Qed.

Lemma IsSymlink_not_IsRegular (m : Z) : IsSymlink m = true -> IsRegular m = false.
Proof.
  unfold IsSymlink, IsRegular. rewrite Z.eqb_eq, Z.eqb_neq. intros Hs Hr.
  assert (B : Z.testbit (Z.land m ModeSymlink) 27 = true)
    by (rewrite Hs; reflexivity).
  assert (C : Z.testbit (Z.land m ModeType) 27 = false)
    by (rewrite Hr; apply Z.bits_0).
  rewrite Z.land_spec in B, C.
  change (Z.testbit ModeSymlink 27) with true in B.
  change (Z.testbit ModeType 27) with true in C.
  rewrite andb_true_r in B, C. congruence.
Qed.

(** X10.  Without dereference a child that [Lstat] shows to be a symbolic
    link is not descended into, whatever [-H], [-L] or [-P] say: the turn of
    the loop gives the link itself to [ChangeOwner] and sets [sym]. *)
Theorem symlink_child_is_not_followed :
  forall cfg rec path uid gid reqUid reqGid name ok sym s fileInfo w1,
    deref cfg = false ->
    os_Lstat os (filepath_Join os path name) (world s) = (inl fileInfo, w1) ->
    IsSymlink (fi_Mode fileInfo) = true ->
    IsDir (fi_Mode fileInfo) = false ->
    let filename := filepath_Join os path name in
    walk_child os cfg rec path uid gid reqUid reqGid name (ok, sym) s
    = bind (ChangeOwner os cfg filename (Some fileInfo) uid gid reqUid reqGid)
           (fun ok' => ret (ok', true))
           (mkState w1 (trace s ++ [E_Lstat filename (inl fileInfo)]) (DO_NOT_FOLLOW s)).
Proof.
  intros cfg rec path uid gid reqUid reqGid name ok sym s fileInfo w1
         Hderef Hl Hlink Hdir filename. subst filename.
  unfold walk_child. rewrite Hderef. cbn [negb].
  unfold bind at 1, call. rewrite Hl. rewrite Hlink.
  unfold dispatch. rewrite Hdir, (IsSymlink_not_IsRegular _ Hlink).
  rewrite !andb_false_r. reflexivity.
Qed.

(** *** [-H] and [-L] under dereference *)

Section Trav.

Variable cfg : Flags.
Hypothesis Hderef : deref cfg = true.
Variables (h l : bool).

Lemma walk_child_trav rec rec' path uid gid reqUid reqGid name ok s :
  (forall p i s, rec' p i s = rec p i s) ->
  walk_child os (with_trav cfg h l) rec' path uid gid reqUid reqGid name (ok, false) s
  = walk_child os cfg rec path uid gid reqUid reqGid name (ok, false) s
  /\ forall st' s', walk_child os cfg rec path uid gid reqUid reqGid name (ok, false) s
                    = (Ret st', s') -> snd st' = false.
Proof.
  intros Hrec. unfold walk_child. cbn [deref with_trav]. rewrite Hderef. cbn [negb].
  unfold bind at 1 3 5, call.
  destruct (os_Stat os (filepath_Join os path name) (world s)) as [[fi|e] w1].
  - unfold dispatch. cbn [andb travAll with_trav].
    destruct (IsDir (fi_Mode fi)).
    + unfold bind. rewrite Hrec. split; [reflexivity|].
      destruct (rec _ _ _) as [[b|p|] sx]; intros st' s' H; inversion H; reflexivity.
    + split; [reflexivity|]. unfold bind.
      destruct (ChangeOwner os cfg _ _ _ _ _ _ _) as [[b|p|] sx];
        intros st' s' H; inversion H; reflexivity.
  - split; [reflexivity|]. intros st' s' H; inversion H; reflexivity.
Qed.

Lemma for_each_trav rec rec' path uid gid reqUid reqGid names :
  (forall p i s, rec' p i s = rec p i s) ->
  forall ok s,
    for_each (walk_child os (with_trav cfg h l) rec' path uid gid reqUid reqGid)
             names (ok, false) s
    = for_each (walk_child os cfg rec path uid gid reqUid reqGid) names (ok, false) s.
Proof.
  intros Hrec. induction names as [|name names IH]; intros ok s; [reflexivity|].
  cbn [for_each]. unfold bind.
  destruct (walk_child_trav rec rec' path uid gid reqUid reqGid name ok s Hrec)
    as [-> Hsym].
  destruct (walk_child os cfg rec path uid gid reqUid reqGid name (ok, false) s)
    as [[[ok' sym']|p|] s'] eqn:E; try reflexivity.
  specialize (Hsym _ _ eq_refl). cbn [snd] in Hsym. subst sym'. apply IH.
Qed.

(** X11.  Under dereference the flags [-H] and [-L] do not change a
    recursive run: [walk] reads [travAll] only behind [sym], which is set
    only without dereference, and never reads [travDir]. *)
Theorem trav_flags_are_ignored_under_dereference :
  forall fuel path info uid gid reqUid reqGid s,
    walk os (with_trav cfg h l) fuel path info uid gid reqUid reqGid s
    = walk os cfg fuel path info uid gid reqUid reqGid s.
Proof.
  induction fuel as [|fuel IH]; intros path info uid gid reqUid reqGid s; [reflexivity|].
  cbn [walk].
  apply bind_cong; [reflexivity|]. intros ok s1.
  apply bind_cong; [reflexivity|]. intros [names|e] s2; [|reflexivity].
  apply bind_cong; [|reflexivity].
  apply for_each_trav. intros p i s'. apply IH.
Qed.

End Trav.

End Walk.

(** ** [main] *)

Lemma Split_colon_no_colon (s : string) : has_colon s = false -> Split_colon s = [s].
Proof.
  induction s as [|c r IH]; [reflexivity|].
  cbn [has_colon Split_colon]. intros H. apply orb_false_iff in H. destruct H as [Hc Hr].
  rewrite Hc, (IH Hr). reflexivity.
Qed.

Lemma Split_colon_not_nil (s : string) : Split_colon s <> [].
Proof.
  destruct s as [|c r]; [discriminate|]. cbn [Split_colon].
  destruct (Ascii.eqb c ":"); [discriminate|].
  destruct (Split_colon r); discriminate.
Qed.

(** [Split_colon] loses nothing: joined with colons, the fields are the
    text. *)
Lemma Split_colon_concat (s : string) : String.concat ":" (Split_colon s) = s.
Proof.
  induction s as [|c r IH]; [reflexivity|].
  pose proof (Split_colon_not_nil r) as Hn.
  cbn [Split_colon]. destruct (Ascii.eqb_spec c ":") as [->|Hc];
    destruct (Split_colon r) as [|f fs] eqn:E; try contradiction.
  - cbn [String.concat] in *. rewrite IH. reflexivity.
  - destruct fs as [|f' fs']; cbn [String.concat] in *; rewrite <- IH; reflexivity.
Qed.

(** [Atoi] reads back what [FormatUint] writes. *)
Lemma Atoi_FormatUint (n : Z) : 0 <= n < 2 ^ 63 -> Atoi (FormatUint n) = (n, None).
Proof.
  intros Hn. unfold FormatUint.
  pose proof (Unsigned.of_to (Z.to_N n)) as Hof.
  pose proof (NilEmpty.usu (N.to_uint (Z.to_N n))) as Hus.
  assert (Hv : Z.of_N (N.of_uint (N.to_uint (Z.to_N n))) = n)
    by (rewrite Hof; apply Z2N.id; lia).
  assert (Hend : (if n <? - 2 ^ 63 then (- 2 ^ 63, Some ErrRange)
                  else if 2 ^ 63 - 1 <? n then (2 ^ 63 - 1, Some ErrRange)
                  else (n, None)) = (n, @None NumError)).
  { destruct (Z.ltb_spec n (- 2 ^ 63)); [lia|].
    destruct (Z.ltb_spec (2 ^ 63 - 1) n); [lia|]. reflexivity. }
  destruct (N.to_uint (Z.to_N n)) as [|d|d|d|d|d|d|d|d|d|d] eqn:E;
    [ exfalso; cbn in Hof; rewrite <- Hof in E; discriminate | .. ];
    unfold Atoi; cbn [NilEmpty.string_of_uint Ascii.eqb Bool.eqb orb];
    cbn [NilEmpty.string_of_uint] in Hus; rewrite Hus, Hv; exact Hend.
Qed.

Section MainFacts.

Context {W : Type}.
Variable os : OS W.
Variable users : Users W.
Variable cfg : Flags.
Variable opts : Options.
Variables HELP VERSION : string.

Lemma bind_ask_mk {A B} (f : W -> A * W) (k : A -> M W B)
    (w : W) (tr : list event) (d : bool) (a : A) (w' : W) :
  f w = (a, w') ->
  bind (ask f) k (mkState w tr d) = k a (mkState w' tr d).
Proof. intros H. unfold bind, ask. cbn [world trace DO_NOT_FOLLOW]. now rewrite H. Qed.

Lemma bind_index {B} (l : list string) (i : nat) (x : string) (k : string -> M W B)
    (s : State W) :
  nth_error l i = Some x -> bind (index l i) k s = k x s.
Proof. intros H. unfold index. rewrite H. reflexivity. Qed.

Lemma bind_index_None {B} (l : list string) (i : nat) (k : string -> M W B)
    (s : State W) :
  nth_error l i = None ->
  bind (index l i) k s = (Panic (PanicString "runtime error: index out of range"), s).
Proof. intros H. unfold index. rewrite H. reflexivity. Qed.

Lemma nonempty_false (s : string) : nonempty s = false <-> s = "".
Proof.
  unfold nonempty. rewrite negb_false_iff. apply String.eqb_eq.
Qed.

Lemma nonempty_true (s : string) : nonempty s = true <-> s <> "".
Proof.
  unfold nonempty. rewrite negb_true_iff. apply String.eqb_neq.
Qed.

(** X12.  The owner and the [--from] text are indexed at 1 after the split
    at the colons.  Without [--reference], an owner operand without a colon
    ([chown root file]), or a [--from] text without one, ends [main] in the
    panic of an index out of range, before any call on a file. *)
Theorem main_needs_colons :
  forall fuel args spec file s,
    version opts = false ->
    rfile opts = "" ->
    nth_error args 0 = Some spec ->
    nth_error args 1 = Some file ->
    (from opts = "" /\ has_colon spec = false)
    \/ (from opts <> "" /\ has_colon (from opts) = false) ->
    main os users cfg opts HELP VERSION fuel args s
    = (Panic (PanicString "runtime error: index out of range"), s).
Proof.
  intros fuel args spec file s Hv Hr H0 H1 H.
  assert (Hlen : (List.length args <? 2)%nat = false).
  { apply Nat.ltb_ge. destruct args as [|x [|y l]]; try discriminate. simpl. lia. }
  unfold main. rewrite Hv, Hr, Hlen. cbn [nonempty String.eqb negb andb].
  rewrite (bind_index _ _ _ _ _ H1).
  unfold main_operands. rewrite Hr. cbn [nonempty String.eqb negb andb].
  rewrite bind_bind, (bind_index _ _ _ _ _ H0), bind_ret. cbv iota.
  unfold main_from.
  destruct H as [[Hf Hc]|[Hf Hc]].
  - rewrite Hf. cbn [nonempty String.eqb negb]. rewrite bind_ret. cbv iota.
    unfold main_ids. rewrite Hr. cbn [String.eqb].
    rewrite (Split_colon_no_colon _ Hc).
    rewrite !bind_bind. rewrite (bind_index [spec] 0 spec _ _ eq_refl).
    rewrite !bind_bind. now rewrite bind_index_None.
  - apply nonempty_true in Hf. rewrite Hf.
    rewrite (Split_colon_no_colon _ Hc).
    rewrite !bind_bind. now rewrite bind_index_None.
Qed.

(** X13.  [--from=OWNER:GROUP] takes both required ids from the text after
    the first colon: when that text is a number known as a user id and as a
    group id, the owner required and the group required are both that
    number.  The text before the colon is not read. *)
Theorem from_takes_both_ids_after_the_colon :
  forall s first text rest n name gname w1 w2,
    Split_colon (from opts) = first :: text :: rest ->
    Atoi text = (n, None) ->
    user_LookupId os (uint32 n) (world s) = (inl name, w1) ->
    user_LookupGroupId os (uint32 n) w1 = (inl gname, w2) ->
    main_from os users opts s
    = (Ret (inr (n, n)),
       mkState w2 (trace s ++ [E_LookupId (uint32 n) (inl name);
                               E_LookupGroupId (uint32 n) (inl gname)])
               (DO_NOT_FOLLOW s)).
Proof.
  intros [w tr d] first text rest n name gname w1 w2 Hsplit Ha Hu Hg.
  cbn [world trace DO_NOT_FOLLOW] in *.
  assert (Hne : nonempty (from opts) = true).
  { apply nonempty_true. intros E. rewrite E in Hsplit. discriminate. }
  unfold main_from. rewrite Hne, Hsplit.
  rewrite (bind_index (first :: text :: rest) 1 text _ _ eq_refl).
  unfold or_exit, id_chain. rewrite Ha.
  unfold uidToName, gidToName.
  rewrite !bind_bind. rewrite (bind_call_mk _ _ _ _ _ _ _ _ Hu).
  rewrite ?bind_ret; cbv iota. rewrite ?bind_ret; cbv iota.
  rewrite !bind_bind. rewrite (bind_call_mk _ _ _ _ _ _ _ _ Hg).
  rewrite ?bind_ret; cbv iota. rewrite ?bind_ret; cbv iota.
  unfold ret. rewrite <- app_assoc. reflexivity.
Qed.

(** X14.  A numeric owner without an entry in the user database is dropped
    without a word: [optUid] stays -1, no message is written, and [main]
    goes on to the group. *)
Theorem unknown_numeric_owner_is_dropped :
  forall a u g u0 g0 n e w1 s,
    rfile opts = "" ->
    nth_error a 0 = Some u ->
    nth_error a 1 = Some g ->
    Atoi u = (n, None) ->
    user_LookupId os (uint32 n) (world s) = (inr e, w1) ->
    main_ids os users opts a u0 g0 s
    = or_exit (id_chain g (gidToName os) (nameToGid users)
                 "invalid groupame/gid %s\n" (-1))
        (fun optGid => ret (inr (-1, optGid)))
        (mkState w1 (trace s ++ [E_LookupId (uint32 n) (inr e)]) (DO_NOT_FOLLOW s)).
Proof.
  intros a u g u0 g0 n e w1 [w tr d] Hr H0 H1 Ha Hu.
  cbn [world trace DO_NOT_FOLLOW] in *.
  unfold main_ids. rewrite Hr. cbn [String.eqb].
  rewrite !bind_bind, (bind_index _ _ _ _ _ H0).
  rewrite !bind_bind, (bind_index _ _ _ _ _ H1).
  rewrite bind_ret. cbv iota.
  unfold or_exit at 1. unfold id_chain at 1. rewrite Ha.
  unfold uidToName.
  rewrite !bind_bind. rewrite (bind_call_mk _ _ _ _ _ _ _ _ Hu).
  rewrite ?bind_ret; cbv iota. rewrite ?bind_ret; cbv iota.
  reflexivity.
Qed.

(** X15.  [--reference=RFILE] without [--from]: the new owner and group
    are the ids of the stat of RFILE, provided both have names, and this
    whether or not the stat succeeded.  When it failed, a line is printed
    and [main] goes on with the zero value of the stat: the file is given
    to user 0 and group 0. *)
Theorem reference_gives_the_ids_of_the_stat_or_zero :
  forall fuel args file s r w1 name gname w2 w3,
    version opts = false ->
    rfile opts <> "" ->
    from opts = "" ->
    debug opts = false ->
    nth_error args 0 = Some file ->
    syscall_Stat os (rfile opts) (world s) = (r, w1) ->
    let st := stat_or_zero r in
    0 <= Uid st < 2 ^ 32 ->
    0 <= Gid st < 2 ^ 32 ->
    user_LookupId os (Uid st) w1 = (inl name, w2) ->
    user_LookupGroupId os (Gid st) w2 = (inl gname, w3) ->
    recursive cfg && (if noderef opts then false else deref cfg)
      && negb (travDir cfg) && negb (travAll cfg) = false ->
    main os users cfg opts HELP VERSION fuel args s
    = bind (ChownFiles os (run_flags cfg opts (Uid st) (Gid st)) fuel file
              (Uid st) (Gid st) (-1) (-1))
           (fun b => if negb b then ret (Exit ([], 1)) else ret Return)
           (mkState w3
              (trace s ++ [E_sysStat (rfile opts) r]
                 ++ match r with
                    | inr _ => [E_Printf "cannot stat rfile '%s'" [AStr (rfile opts)]]
                    | inl _ => []
                    end
                 ++ [E_LookupId (Uid st) (inl name);
                     E_LookupGroupId (Gid st) (inl gname)])
              (DO_NOT_FOLLOW s)).
Proof.
  intros fuel args file [w tr d] r w1 name gname w2 w3
         Hv Hr Hf Hd H0 Hstat st Hu Hg Hlu Hlg Hflags.
  cbn [world trace DO_NOT_FOLLOW] in *.
  assert (Hne : nonempty (rfile opts) = true) by now apply nonempty_true.
  assert (Heq : String.eqb (rfile opts) "" = false) by now apply String.eqb_neq.
  assert (Au : Atoi (FormatUint (Uid st)) = (Uid st, None))
    by (apply Atoi_FormatUint; lia).
  assert (Ag : Atoi (FormatUint (Gid st)) = (Gid st, None))
    by (apply Atoi_FormatUint; lia).
  assert (Uu : uint32 (Uid st) = Uid st) by (apply Z.mod_small; lia).
  assert (Ug : uint32 (Gid st) = Gid st) by (apply Z.mod_small; lia).
  unfold main. rewrite Hv, Hne. cbn [negb andb].
  rewrite Bool.andb_false_r.
  rewrite (bind_index _ _ _ _ _ H0).
  unfold main_operands. rewrite Hne, Hf. cbn [String.eqb andb].
  rewrite !bind_bind, (bind_call_mk _ _ _ _ _ _ _ _ Hstat).
  fold st.
  assert (E : forall B (k : unit -> M W B) w' tr',
             bind (match r with
                   | inl _ => ret tt
                   | inr _ => fmt_Printf "cannot stat rfile '%s'" [AStr (rfile opts)]
                   end) k (mkState w' tr' d)
             = k tt (mkState w' (tr' ++ match r with
                                        | inr _ => [E_Printf "cannot stat rfile '%s'"
                                                      [AStr (rfile opts)]]
                                        | inl _ => []
                                        end) d)).
  { intros B k w' tr'. destruct r; [now rewrite bind_ret, app_nil_r | reflexivity]. }
  rewrite !bind_bind, E. rewrite ?bind_ret; cbv iota.
  unfold main_from. rewrite Hf. cbn [nonempty String.eqb negb].
  rewrite ?bind_ret; cbv iota.
  unfold main_ids. rewrite Heq. rewrite ?bind_bind, ?bind_ret; cbv iota.
  unfold or_exit, id_chain. rewrite Au, Ag, Uu, Ug.
  unfold uidToName, gidToName.
  rewrite !bind_bind. rewrite (bind_call_mk _ _ _ _ _ _ _ _ Hlu).
  rewrite ?bind_ret; cbv iota. rewrite ?bind_ret; cbv iota.
  rewrite !bind_bind. rewrite (bind_call_mk _ _ _ _ _ _ _ _ Hlg).
  rewrite ?bind_ret; cbv iota. rewrite ?bind_ret; cbv iota.
  rewrite ?bind_ret; cbv iota.
  unfold main_run. rewrite Hflags, Hd. rewrite ?bind_ret; cbv iota.
  rewrite <- !app_assoc. reflexivity.
Qed.

(** X16.  Missing operands.  Without [--reference], fewer than two
    operands end [main] with the usage text and exit code 1 before any call;
    with [--reference] and no operand at all, [main] panics on [args[0]]. *)
Theorem main_without_operands :
  forall fuel args s,
    version opts = false ->
    (rfile opts = "" -> (List.length args < 2)%nat ->
     main os users cfg opts HELP VERSION fuel args s
     = (Ret (Exit ([("You forgot an argument! (Or two. Or more.)\nIn case you forgot how to use the program, here's how:\n\n", []);
                    ("%s\n", [AStr HELP])], 1)), s))
    /\ (rfile opts <> "" -> args = [] ->
        main os users cfg opts HELP VERSION fuel args s
        = (Panic (PanicString "runtime error: index out of range"), s)).
Proof.
  intros fuel args s Hv. split.
  - intros Hr Hlen. unfold main. rewrite Hv, Hr.
    apply Nat.ltb_lt in Hlen. rewrite Hlen. reflexivity.
  - intros Hr ->. apply nonempty_true in Hr.
    unfold main. rewrite Hv, Hr. reflexivity.
Qed.

(** *** What [main] does before [ChownFiles] *)

Lemma emits_ask {A} (P : event -> Prop) (f : W -> A * W) : emits P (ask f).
Proof.
  intros s. unfold ask. destruct (f (world s)) as [a w'].
  exists []. cbn [snd trace]. rewrite app_nil_r. auto.
Qed.

Lemma emits_index (P : event -> Prop) (l : list string) (i : nat) :
  emits P (@index W l i).
Proof. unfold index. destruct (nth_error l i); ext. Qed.

Lemma parse_id_chain text toName fromName message current :
  (forall z, emits is_parse_event (toName z)) ->
  (forall t, emits is_parse_event (fromName t)) ->
  emits is_parse_event (@id_chain W text toName fromName message current).
Proof.
  intros H1 H2. unfold id_chain.
  destruct (Atoi text) as [ok [e|]].
  - apply emits_bind; [apply H2|]. intros [ok' err]. ext.
  - apply emits_bind; [apply H1|]. intros [nm err]. ext.
Qed.

Lemma parse_uidToName z : emits is_parse_event (uidToName os z).
Proof. unfold uidToName. ext. Qed.

Lemma parse_gidToName z : emits is_parse_event (gidToName os z).
Proof. unfold gidToName. ext. Qed.

Lemma parse_nameToUid t : emits is_parse_event (nameToUid users t).
Proof.
  unfold nameToUid. apply emits_bind; [apply emits_ask|]. intros [u|e]; ext.
Qed.

Lemma parse_nameToGid t : emits is_parse_event (nameToGid users t).
Proof.
  unfold nameToGid. apply emits_bind; [apply emits_ask|]. intros [u|e]; ext.
Qed.

Lemma parse_main_operands args : emits is_parse_event (main_operands os opts args).
Proof.
  pose proof (emits_index is_parse_event).
  unfold main_operands. ext.
Qed.

Lemma parse_main_from : emits is_parse_event (main_from os users opts).
Proof.
  pose proof (emits_index is_parse_event).
  unfold main_from, or_exit.
  destruct (nonempty (from opts)); [|ext].
  apply emits_bind; [apply emits_index|]. intros b1.
  apply emits_bind;
    [apply parse_id_chain; [apply parse_uidToName | apply parse_nameToUid]|].
  intros [e|reqUid]; [ext|].
  apply emits_bind;
    [apply parse_id_chain; [apply parse_gidToName | apply parse_nameToGid]|].
  intros [e|reqGid]; ext.
Qed.

Lemma parse_main_ids a u g : emits is_parse_event (main_ids os users opts a u g).
Proof.
  pose proof (emits_index is_parse_event).
  unfold main_ids, or_exit.
  apply emits_bind; [ext|]. intros [u' g'].
  apply emits_bind;
    [apply parse_id_chain; [apply parse_uidToName | apply parse_nameToUid]|].
  intros [e|optUid]; [ext|].
  apply emits_bind;
    [apply parse_id_chain; [apply parse_gidToName | apply parse_nameToGid]|].
  intros [e|optGid]; ext.
Qed.

Lemma finishes_ret {A} (Q : A -> Prop) (a : A) : Q a -> finishes Q (@ret W A a).
Proof. intros H s a' s' E. inversion E. now subst. Qed.

Lemma finishes_bind {A B} (Q : B -> Prop) (m : M W A) (k : A -> M W B) :
  (forall a, finishes Q (k a)) -> finishes Q (bind m k).
Proof.
  intros Hk s b s' E. unfold bind in E.
  destruct (m s) as [[a|p|] s1]; try discriminate. exact (Hk a s1 b s' E).
Qed.

(** X17.  [-R] under dereference without [-H] and without [-L]: [main]
    never gets to [ChownFiles].  Whatever the operands, it makes no call but
    the stat of the reference file and lookups of names, and it does not
    return: it ends in an exit (or a panic). *)
Theorem recursion_under_dereference_needs_H_or_L :
  recursive cfg = true ->
  noderef opts = false ->
  deref cfg = true ->
  travDir cfg = false ->
  travAll cfg = false ->
  forall fuel args,
    emits is_parse_event (main os users cfg opts HELP VERSION fuel args)
    /\ finishes (fun e => e <> Return) (main os users cfg opts HELP VERSION fuel args).
Proof.
  intros HR Hn Hd HH HL fuel args.
  assert (Hrun : forall inFile a b c d,
             main_run os cfg opts fuel inFile a b c d
             = ret (Exit ([("-R --dereference requires either -H or -L\n", [])], 1))).
  { intros. unfold main_run. rewrite HR, Hn, Hd, HH, HL. reflexivity. }
  split.
  - pose proof (emits_index is_parse_event).
    unfold main.
    destruct (version opts); [ext|].
    destruct ((List.length args <? 2)%nat && negb (nonempty (rfile opts))); [ext|].
    apply emits_bind; [apply emits_index|]. intros inFile.
    apply emits_bind; [apply parse_main_operands|]. intros [[a u] g].
    apply emits_bind; [apply parse_main_from|]. intros [e|[reqUid reqGid]]; [ext|].
    apply emits_bind; [apply parse_main_ids|]. intros [e|[optUid optGid]]; [ext|].
    rewrite Hrun. ext.
  - unfold main.
    destruct (version opts); [apply finishes_ret; discriminate|].
    destruct ((List.length args <? 2)%nat && negb (nonempty (rfile opts)));
      [apply finishes_ret; discriminate|].
    apply finishes_bind. intros inFile.
    apply finishes_bind. intros [[a u] g].
    apply finishes_bind. intros [e|[reqUid reqGid]];
      [apply finishes_ret; discriminate|].
    apply finishes_bind. intros [e|[optUid optGid]];
      [apply finishes_ret; discriminate|].
    rewrite Hrun. apply finishes_ret. discriminate.
Qed.

End MainFacts.

(** ** The report and the run without dereference *)

Section NoDeref.

Context {W : Type}.
Variable os : OS W.
Variable cfg : Flags.

Lemma DescribeChange_not_applied file olduser oldgroup user group (s : State W) :
  DescribeChange file CH_NOT_APPLIED olduser oldgroup user group s
  = (Panic (PanicString "let's go out with a bang!"),
     mkState (world s)
       (trace s ++ [E_Printf "neither symbolic link '%s' nor referent has been changed\n"
                      [AStr file]])
       (DO_NOT_FOLLOW s)).
Proof. destruct s as [w tr d]. reflexivity. Qed.

(** X18.  [DescribeChange] returns exactly for the statuses [CH_SUCCEEDED],
    [CH_FAILED] and [CH_NO_CHANGE_REQUESTED], and has then printed exactly
    one line.  For [CH_NOT_APPLIED] it prints its line and then panics in
    the default case of the second switch; for any other value it panics
    without a line. *)
Theorem DescribeChange_returns_iff :
  forall file changed olduser oldgroup user group (s : State W),
    let run := DescribeChange file changed olduser oldgroup user group s in
    ((exists s', run = (Ret tt, s'))
     <-> changed = CH_SUCCEEDED \/ changed = CH_FAILED
         \/ changed = CH_NO_CHANGE_REQUESTED)
    /\ (forall s', run = (Ret tt, s') ->
        exists format args,
          s' = mkState (world s) (trace s ++ [E_Printf format args]) (DO_NOT_FOLLOW s))
    /\ (changed = CH_NOT_APPLIED ->
        run = (Panic (PanicString "let's go out with a bang!"),
               mkState (world s)
                 (trace s ++ [E_Printf
                    "neither symbolic link '%s' nor referent has been changed\n"
                    [AStr file]])
                 (DO_NOT_FOLLOW s)))
    /\ (changed <> CH_NOT_APPLIED -> changed <> CH_SUCCEEDED -> changed <> CH_FAILED ->
        changed <> CH_NO_CHANGE_REQUESTED ->
        run = (Panic (PanicString "let's go out with a bang!"), s)).
Proof.
  intros file changed olduser oldgroup user group [w tr d] run. subst run.
  unfold DescribeChange.
  destruct (Z.eqb_spec changed CH_NOT_APPLIED) as [->|N1].
  { rewrite bind_Printf_mk. cbn.
    split; [split; [intros [s' H]; discriminate
                   | intros [H|[H|H]]; discriminate]|].
    split; [intros s' H; discriminate|].
    split; [reflexivity|]. intros H; now elim H. }
  rewrite bind_ret.
  destruct (Z.eqb_spec changed CH_SUCCEEDED) as [->|N2].
  { split; [split; [auto|intros _]|split; [|split; [discriminate|intros _ H; now elim H]]].
    - destruct (nonempty user), (nonempty group); eexists; reflexivity.
    - destruct (nonempty user), (nonempty group); intros s' H; inversion H;
        do 2 eexists; reflexivity. }
  destruct (Z.eqb_spec changed CH_FAILED) as [->|N3].
  { split; [split; [auto|intros _]|split; [|split; [discriminate|intros _ _ H; now elim H]]].
    - destruct (nonempty user), (nonempty group); cbn; eexists; reflexivity.
    - destruct (nonempty user), (nonempty group); cbn; intros s' H; inversion H;
        do 2 eexists; reflexivity. }
  destruct (Z.eqb_spec changed CH_NO_CHANGE_REQUESTED) as [->|N4].
  { split; [split; [auto|intros _]|split; [|split; [discriminate|intros _ _ _ H; now elim H]]].
    - destruct (nonempty user), (nonempty group); eexists; reflexivity.
    - destruct (nonempty user), (nonempty group); intros s' H; inversion H;
        do 2 eexists; reflexivity. }
  split; [split; [intros [s' H]; discriminate | intros [H|[H|H]]; contradiction]|].
  split; [intros s' H; discriminate|].
  split; [intros H; contradiction | reflexivity].
Qed.

(** X19.  Without dereference, with [-v] and without [-f], an entry whose
    [Lchown] fails ends the program: [ChangeOwner] keeps [ok] true, records
    that the link was not changed, the report classifies the entry as
    [CH_NOT_APPLIED], looks the four names up, and [DescribeChange] panics
    after its first line. *)
Theorem verbose_report_of_failed_Lchown_panics :
  forall fname origStat uid gid reqUid reqGid s fd w1 st w2 e w3,
    deref cfg = false ->
    verbose cfg = true ->
    mute cfg = false ->
    os_Open os fname (world s) = (inl fd, w1) ->
    syscall_Stat os fname w1 = (inl st, w2) ->
    is_root st = false ->
    os_Lchown os fname uid gid w2 = (Some e, w3) ->
    let run := ChangeOwner os cfg fname origStat uid gid reqUid reqGid s in
    fst run = Panic (PanicString "let's go out with a bang!")
    /\ exists n1 n2 n3 n4,
         trace (snd run)
         = trace s ++ [E_Open fname (inl fd); E_sysStat fname (inl st);
                       E_Lchown fname uid gid (Some e);
                       E_LookupId (Uid st) n1; E_LookupGroupId (Gid st) n2;
                       E_LookupId (uint32 (optUid cfg)) n3;
                       E_LookupGroupId (uint32 (optGid cfg)) n4;
                       E_Printf "neither symbolic link '%s' nor referent has been changed\n"
                         [AStr fname]].
Proof.
  intros fname origStat uid gid reqUid reqGid [w tr d] fd w1 st w2 e w3
         Hd Hv Hm Hopen Hstat Hroot Hl run. subst run.
  cbn [world trace] in *.
  destruct (user_LookupId os (Uid st) w3) as [n1 w4] eqn:L1.
  destruct (user_LookupGroupId os (Gid st) w4) as [n2 w5] eqn:L2.
  destruct (user_LookupId os (uint32 (optUid cfg)) w5) as [n3 w6] eqn:L3.
  destruct (user_LookupGroupId os (uint32 (optGid cfg)) w6) as [n4 w7] eqn:L4.
  assert (E : forall (n : string + Errno) B (k : string * option error -> M W B) s0,
             bind (match n with
                   | inr _ => @ret W _ ("", Some CantFind)
                   | inl name => ret (name, None)
                   end) k s0
             = k (match n with inl name => (name, None) | inr _ => ("", Some CantFind) end) s0).
  { intros n B k s0. destruct n; reflexivity. }
  assert (R : ChangeOwner os cfg fname origStat uid gid reqUid reqGid (mkState w tr d)
              = (Panic (PanicString "let's go out with a bang!"),
                 mkState w7
                   (tr ++ [E_Open fname (inl fd); E_sysStat fname (inl st);
                           E_Lchown fname uid gid (Some e);
                           E_LookupId (Uid st) n1; E_LookupGroupId (Gid st) n2;
                           E_LookupId (uint32 (optUid cfg)) n3;
                           E_LookupGroupId (uint32 (optGid cfg)) n4;
                           E_Printf "neither symbolic link '%s' nor referent has been changed\n"
                             [AStr fname]]) d)).
  { rewrite (ChangeOwner_shape os cfg _ _ _ _ _ _ _ _ _ _ _ _ _ Hopen Hstat).
    cbn [succeeded stat_or_zero andb error_line]. rewrite Hroot. cbv iota.
    unfold change. rewrite Hd. cbn [negb].
    rewrite !bind_bind, (bind_call_mk _ _ _ _ _ _ _ _ Hl), bind_ret.
    cbv beta iota. unfold report. rewrite Hv, Hm. cbn [negb andb orb].
    rewrite orb_true_r. cbv iota.
    unfold uidToName, gidToName.
    rewrite !bind_bind, (bind_call_mk _ _ _ _ _ _ _ _ L1), E.
    destruct (match n1 with inl name => (name, None) | inr _ => ("", Some CantFind) end)
      as [oldUsr o1].
    rewrite !bind_bind, (bind_call_mk _ _ _ _ _ _ _ _ L2), E.
    destruct (match n2 with inl name => (name, None) | inr _ => ("", Some CantFind) end)
      as [oldGrp o2].
    rewrite !bind_bind, (bind_call_mk _ _ _ _ _ _ _ _ L3), E.
    destruct (match n3 with inl name => (name, None) | inr _ => ("", Some CantFind) end)
      as [newUsr o3].
    rewrite !bind_bind, (bind_call_mk _ _ _ _ _ _ _ _ L4), E.
    destruct (match n4 with inl name => (name, None) | inr _ => ("", Some CantFind) end)
      as [newGrp o4].
    change (classify true false _) with CH_NOT_APPLIED.
    rewrite (bind_Panic _ _ _ _ _ (DescribeChange_not_applied _ _ _ _ _ _)).
    cbn [world trace DO_NOT_FOLLOW]. rewrite <- !app_assoc. reflexivity. }
  rewrite R. split; [reflexivity|]. exists n1, n2, n3, n4. reflexivity.
Qed.

Hypothesis Hderef : deref cfg = false.

Lemma change_without_filter fname origStat fi uid gid reqUid reqGid reqUid' reqGid' ok :
  change os cfg fname origStat fi uid gid reqUid reqGid ok
  = change os cfg fname origStat fi uid gid reqUid' reqGid' ok.
Proof. unfold change. rewrite Hderef. reflexivity. Qed.

Lemma ChangeOwner_without_filter fname origStat uid gid reqUid reqGid reqUid' reqGid' s :
  ChangeOwner os cfg fname origStat uid gid reqUid reqGid s
  = ChangeOwner os cfg fname origStat uid gid reqUid' reqGid' s.
Proof.
  unfold ChangeOwner.
  apply bind_cong; [reflexivity|]. intros fi s1.
  apply bind_cong; [reflexivity|]. intros ok s2.
  apply bind_cong; [reflexivity|]. intros r s3.
  apply bind_cong; [reflexivity|]. intros ok' s4.
  apply bind_cong; [reflexivity|]. intros [|] s5; [reflexivity|].
  apply bind_cong; [|reflexivity].
  destruct ok'; [|reflexivity].
  now rewrite (change_without_filter fname origStat fi uid gid reqUid reqGid reqUid' reqGid').
Qed.

Lemma walk_without_filter uid gid reqUid reqGid reqUid' reqGid' :
  forall fuel path info s,
    walk os cfg fuel path info uid gid reqUid reqGid s
    = walk os cfg fuel path info uid gid reqUid' reqGid' s.
Proof.
  induction fuel as [|fuel IH]; intros path info s; [reflexivity|].
  cbn [walk].
  apply bind_cong; [apply ChangeOwner_without_filter|]. intros ok s1.
  apply bind_cong; [reflexivity|]. intros [names|e] s2; [|reflexivity].
  apply bind_cong; [|reflexivity].
  generalize (ok, false). revert s2.
  induction names as [|name names IHn]; intros s2 st; cbn [for_each]; [reflexivity|].
  apply bind_cong; [|intros; apply IHn].
  destruct st as [ok0 sym0]. unfold walk_child. rewrite Hderef. cbn [negb].
  apply bind_cong; [reflexivity|]. intros [fileInfo|e] s3; [|reflexivity].
  apply bind_cong; [|reflexivity].
  unfold dispatch.
  destruct (_ && _ && _); [apply bind_cong; [reflexivity|]; intros; apply IH|].
  destruct (_ && _); [apply ChangeOwner_without_filter|].
  destruct (IsDir _); [apply IH | apply ChangeOwner_without_filter].
Qed.

(** X20.  Without dereference the filter of [--from] has no effect: the
    run is the same whatever owner and group are required, since the change
    is made by [Lchown] before [RestrictedChown] is ever consulted. *)
Theorem no_dereference_ignores_the_filter :
  forall fuel fname uid gid reqUid reqGid reqUid' reqGid' s,
    ChownFiles os cfg fuel fname uid gid reqUid reqGid s
    = ChownFiles os cfg fuel fname uid gid reqUid' reqGid' s.
Proof.
  intros fuel fname uid gid reqUid reqGid reqUid' reqGid' s.
  unfold ChownFiles. rewrite Hderef. cbn [negb].
  apply bind_cong; [reflexivity|]. intros r s1.
  apply bind_cong; [reflexivity|]. intros u s2.
  destruct (recursive cfg).
  - apply bind_cong; [apply walk_without_filter | reflexivity].
  - apply bind_cong; [apply ChangeOwner_without_filter | reflexivity].
Qed.

Lemma report_no_deref (e : event) : is_report e -> is_no_deref_event e.
Proof. destruct e; simpl; tauto. Qed.

Lemma no_deref_ChangeOwner fname origStat uid gid reqUid reqGid :
  emits is_no_deref_event (ChangeOwner os cfg fname origStat uid gid reqUid reqGid).
Proof.
  pose proof (emits_report os cfg is_no_deref_event report_no_deref).
  unfold ChangeOwner, root_gate, fmt_Print, change. rewrite Hderef. cbn [negb].
  ext.
Qed.

Lemma no_deref_walk fuel : forall path info uid gid reqUid reqGid,
  emits is_no_deref_event (walk os cfg fuel path info uid gid reqUid reqGid).
Proof.
  pose proof no_deref_ChangeOwner as HC.
  induction fuel as [|fuel IH]; intros; cbn [walk].
  - apply emits_out_of_fuel.
  - apply emits_bind; [apply HC | intros ok].
    apply emits_bind; [unfold readDirNames; ext | intros r].
    destruct r as [names|e]; [|apply emits_ret].
    apply emits_bind.
    + apply emits_for_each. intros name [ok0 sym0].
      unfold walk_child, dispatch. rewrite Hderef. cbn [negb]. ext.
    + intros [ok' sym']. apply emits_ret.
Qed.

(** X21.  Without dereference the program changes owners by [Lchown] only:
    a run of [ChownFiles] makes no [Chown], no [os.Stat], and no call of the
    handle-based path ([Openat], [Fstat], [Fchown], [Close]). *)
Theorem no_dereference_changes_by_Lchown_only :
  forall fuel fname uid gid reqUid reqGid,
    emits is_no_deref_event (ChownFiles os cfg fuel fname uid gid reqUid reqGid).
Proof.
  intros fuel fname uid gid reqUid reqGid.
  pose proof no_deref_ChangeOwner. pose proof (no_deref_walk fuel).
  unfold ChownFiles. rewrite Hderef. cbn [negb]. ext.
Qed.

End NoDeref.

(** * The further results at concrete inputs *)

Lemma RestrictedChown_statuses_witness :
  let os := Toy.os (Ex.one_file None None) in
  let s := Toy.init in
  let run := RestrictedChown os 3 "f" Ex.f_info 1000 (-1) 0 (-1) s in
  let t := trace (snd run) in
  run = (Ret 0, snd run)
  /\ trace (snd run) = trace s ++ t
  /\ (0 = RC_OK \/ 0 = RC_DO_ORDINARY_CHOWN \/ 0 = RC_ERROR
      \/ 0 = RC_INODE_CHANGED \/ 0 = 0)
  /\ 0 <> RC_EXCLUDED
  /\ (0 = 0 ->
      (exists fd fstat,
          In (E_Fstat fd (inl fstat)) t /\ filter_test 0 (-1) fstat = false)
      /\ forall fi ok,
           deref Toy.plain = true -> Fd fi = 3 -> 3 <= MAX_INT ->
           change os Toy.plain "f" Ex.f_info fi 1000 (-1) 0 (-1) ok s
           = (Panic (PanicString "Now how did this happen?"), snd run)).
Proof.
  intros os s run t.
  assert (H1 : run = (Ret 0, snd run)) by (vm_compute; reflexivity).
  assert (H2 : trace (snd run) = trace s ++ t) by reflexivity.
  split; [exact H1|]. split; [exact H2|].
  exact (RestrictedChown_statuses os Toy.plain 3 "f" Ex.f_info 1000 (-1) 0 (-1) s 0
           (snd run) t H1 H2).
Defined.

Lemma Fchown_only_after_the_tests_witness :
  let os := Toy.os (Ex.one_file None None) in
  let s := Toy.init in
  let run := RestrictedChown os 3 "f" Ex.f_info 1000 (-1) 500 (-1) s in
  let t := trace (snd run) in
  run = (Ret RC_OK, snd run)
  /\ trace (snd run) = trace s ++ t
  /\ In (E_Fchown 7 1000 (-1) None) t
  /\ 1000 = 1000 /\ -1 = -1
  /\ (500 =? -1) && (-1 =? -1) = false
  /\ (exists flags e, In (E_Openat 3 "f" flags (7, e)) t)
  /\ (exists fstat, In (E_Fstat 7 (inl fstat)) t
                    /\ filter_test 500 (-1) fstat = true)
  /\ (exists fileInfo, In (E_Stat "f" (inl fileInfo)) t
                       /\ SameFile Ex.f_info (Some fileInfo) = true).
Proof.
  intros os s run t.
  assert (H1 : run = (Ret RC_OK, snd run)) by (vm_compute; reflexivity).
  assert (H2 : trace (snd run) = trace s ++ t) by reflexivity.
  assert (H3 : In (E_Fchown 7 1000 (-1) None) t)
    by (vm_compute; repeat first [left; reflexivity | right]).
  split; [exact H1|]. split; [exact H2|]. split; [exact H3|].
  exact (Fchown_only_after_the_tests os 3 "f" Ex.f_info 1000 (-1) 500 (-1) s (Ret RC_OK)
           (snd run) t 7 1000 (-1) None H1 H2 H3).
Defined.

Lemma RC_OK_iff_changed_and_closed_witness :
  let os := Toy.os (Ex.one_file None None) in
  let s := Toy.init in
  let run := RestrictedChown os 3 "f" Ex.f_info 1000 (-1) 500 (-1) s in
  let t := trace (snd run) in
  run = (Ret RC_OK, snd run)
  /\ trace (snd run) = trace s ++ t
  /\ (Ret RC_OK = Ret RC_OK
      <-> exists fd, In (E_Fchown fd 1000 (-1) None) t /\ In (E_sysClose fd None) t)
  /\ (forall st, Ret RC_OK = Ret st -> st <> RC_OK -> st <> RC_ERROR ->
      Forall (fun e => ~ changes_owner e) t).
Proof.
  intros os s run t.
  assert (H1 : run = (Ret RC_OK, snd run)) by (vm_compute; reflexivity).
  assert (H2 : trace (snd run) = trace s ++ t) by reflexivity.
  split; [exact H1|]. split; [exact H2|].
  exact (RC_OK_iff_changed_and_closed os 3 "f" Ex.f_info 1000 (-1) 500 (-1) s (Ret RC_OK)
           (snd run) t H1 H2).
Defined.

Lemma RestrictedChown_closes_its_descriptor_witness :
  let os := Toy.os (Ex.one_file None (Some EIO)) in
  let s := Toy.init in
  let run := RestrictedChown os 3 "f" Ex.f_info 1000 (-1) 500 (-1) s in
  let t := trace (snd run) in
  run = (Ret RC_ERROR, snd run)
  /\ trace (snd run) = trace s ++ t
  /\ In (E_Fstat 7 (inl Ex.f_500_7)) t
  /\ exists c, In (E_sysClose 7 c) t.
Proof.
  intros os s run t.
  assert (H1 : run = (Ret RC_ERROR, snd run)) by (vm_compute; reflexivity).
  assert (H2 : trace (snd run) = trace s ++ t) by reflexivity.
  assert (H3 : In (E_Fstat 7 (inl Ex.f_500_7)) t)
    by (vm_compute; repeat first [left; reflexivity | right]).
  split; [exact H1|]. split; [exact H2|]. split; [exact H3|].
  exact (RestrictedChown_closes_its_descriptor os 3 "f" Ex.f_info 1000 (-1) 500 (-1) s
           RC_ERROR (snd run) t 7 (inl Ex.f_500_7) H1 H2 H3).
Defined.

Lemma special_files_bypass_the_filter_witness :
  let os := Toy.os Inputs.pipe in
  let cfg := Toy.plain in
  let s := Toy.init in
  let s2 := mkState 2%nat (trace s ++ [E_sysStat "p" (inl Inputs.p_stat);
                                      E_Stat "p" (inl Inputs.p_info)])
                    (DO_NOT_FOLLOW s) in
  syscall_Stat os "p" (world s) = (inl Inputs.p_stat, 1%nat)
  /\ os_Stat os "p" 1%nat = (inl Inputs.p_info, 2%nat)
  /\ IsRegular (fi_Mode Inputs.p_info) = false
  /\ IsDir (fi_Mode Inputs.p_info) = false
  /\ RestrictedChown os 3 "p" (Some Inputs.p_info) 1000 (-1) 0 0 s
     = (Ret RC_DO_ORDINARY_CHOWN, s2)
  /\ forall fi ok err w3,
       deref cfg = true -> Fd fi = 3 -> 3 <= MAX_INT ->
       os_Chown os "p" 1000 (-1) 2%nat = (err, w3) ->
       exists t,
         trace (snd (change os cfg "p" (Some Inputs.p_info) fi 1000 (-1) 0 0 ok s))
         = trace s2 ++ E_Chown "p" 1000 (-1) err :: t.
Proof.
  intros os cfg s s2.
  assert (H1 : syscall_Stat os "p" (world s) = (inl Inputs.p_stat, 1%nat)) by reflexivity.
  assert (H2 : os_Stat os "p" 1%nat = (inl Inputs.p_info, 2%nat)) by reflexivity.
  assert (H3 : IsRegular (fi_Mode Inputs.p_info) = false) by reflexivity.
  assert (H4 : IsDir (fi_Mode Inputs.p_info) = false) by reflexivity.
  split; [exact H1|]. split; [exact H2|]. split; [exact H3|]. split; [exact H4|].
  exact (special_files_bypass_the_filter os cfg 3 "p" (Some Inputs.p_info) 1000 (-1) 0 0 s
           (inl Inputs.p_stat) 1%nat Inputs.p_info 2%nat H1 H2 H3 H4).
Defined.

Lemma ChangeOwner_needs_open_and_stat_witness :
  let os := Toy.os Ex.d_tree in
  let cfg := Toy.plain in
  let s := Toy.init in
  let st := mkStat_t 1 11 (Z.lor Toy.S_IFREG 128) 500 500 in
  let run := ChangeOwner os cfg "d/a" None 1000 (-1) (-1) (-1) s in
  os_Open os "d/a" (world s) = (inr EACCES, 1%nat)
  /\ syscall_Stat os "d/a" 1%nat = (inl st, 2%nat)
  /\ succeeded (@inr Z Errno EACCES) && succeeded (@inl Stat_t Errno st) = false
  /\ fst run = Ret false
  /\ exists t, trace (snd run) = trace s ++ t
               /\ Forall (fun e => ~ changes_owner e /\ ~ is_handle e) t.
Proof.
  intros os cfg s st run.
  assert (H1 : os_Open os "d/a" (world s) = (inr EACCES, 1%nat)) by reflexivity.
  assert (H2 : syscall_Stat os "d/a" 1%nat = (inl st, 2%nat)) by reflexivity.
  assert (H3 : succeeded (@inr Z Errno EACCES) && succeeded (@inl Stat_t Errno st) = false)
    by reflexivity.
  split; [exact H1|]. split; [exact H2|]. split; [exact H3|].
  exact (ChangeOwner_needs_open_and_stat os cfg "d/a" None 1000 (-1) (-1) (-1) s
           (inr EACCES) 1%nat (inl st) 2%nat H1 H2 H3).
Defined.

Lemma ChangeOwner_refuses_the_root_witness :
  let os := Toy.os Ex.root_tree_31 in
  let cfg := Ex.preserve_root in
  let s := Toy.init in
  os_Open os "/" (world s) = (inl 3, 1%nat)
  /\ syscall_Stat os "/" 1%nat = (inl Ex.root_stat_31, 2%nat)
  /\ is_root Ex.root_stat_31 = true
  /\ recursive cfg && pr cfg = true
  /\ ChangeOwner os cfg "/" None 1000 (-1) (-1) (-1) s
     = (Ret false,
        mkState 2%nat
          (trace s ++ [E_Open "/" (inl 3)] ++ error_line cfg "/" (@inl Z Errno 3)
             ++ [E_sysStat "/" (inl Ex.root_stat_31);
                 E_Printf "cannot run chown on root directory (--preserve-root specified\n" []])
          true).
Proof.
  intros os cfg s.
  assert (H1 : os_Open os "/" (world s) = (inl 3, 1%nat)) by reflexivity.
  assert (H2 : syscall_Stat os "/" 1%nat = (inl Ex.root_stat_31, 2%nat)) by reflexivity.
  assert (H3 : is_root Ex.root_stat_31 = true) by reflexivity.
  assert (H4 : recursive cfg && pr cfg = true) by reflexivity.
  split; [exact H1|]. split; [exact H2|]. split; [exact H3|]. split; [exact H4|].
  exact (ChangeOwner_refuses_the_root os cfg "/" None 1000 (-1) (-1) (-1) s
           (inl 3) 1%nat Ex.root_stat_31 2%nat H1 H2 H3 H4).
Defined.

Lemma walk_true_only_after_enumeration_witness :
  let os := Toy.os Ex.d_tree in
  let run := walk os Ex.recursive_L 4 "d" Ex.d_info 1000 (-1) (-1) (-1) Toy.init in
  fst run = Ret true
  /\ exists t fd raw,
       trace (snd run) = trace Toy.init ++ t /\ In (E_Readdirnames fd (inl raw)) t.
Proof.
  intros os run.
  assert (H : fst run = Ret true) by (vm_compute; reflexivity).
  split; [exact H|].
  exact (walk_true_only_after_enumeration os Ex.recursive_L 4 "d" Ex.d_info 1000 (-1)
           (-1) (-1) Toy.init H).
Defined.

Lemma symlink_child_is_not_followed_witness :
  let os := Toy.os Ex.link_tree in
  let cfg := Ex.no_deref_L in
  let s := Toy.init in
  deref cfg = false
  /\ os_Lstat os (filepath_Join os "d" "a") (world s) = (inl Ex.link_info, 1%nat)
  /\ IsSymlink (fi_Mode Ex.link_info) = true
  /\ IsDir (fi_Mode Ex.link_info) = false
  /\ walk_child os cfg Ex.link_rec "d" 1000 (-1) (-1) (-1) "a" (true, false) s
     = bind (ChangeOwner os cfg (filepath_Join os "d" "a") (Some Ex.link_info)
               1000 (-1) (-1) (-1))
            (fun ok' => ret (ok', true))
            (mkState 1%nat (trace s ++ [E_Lstat (filepath_Join os "d" "a")
                                          (inl Ex.link_info)])
                     (DO_NOT_FOLLOW s)).
Proof.
  intros os cfg s.
  assert (H1 : deref cfg = false) by reflexivity.
  assert (H2 : os_Lstat os (filepath_Join os "d" "a") (world s)
               = (inl Ex.link_info, 1%nat)) by reflexivity.
  assert (H3 : IsSymlink (fi_Mode Ex.link_info) = true) by reflexivity.
  assert (H4 : IsDir (fi_Mode Ex.link_info) = false) by reflexivity.
  split; [exact H1|]. split; [exact H2|]. split; [exact H3|]. split; [exact H4|].
  exact (symlink_child_is_not_followed os cfg Ex.link_rec "d" 1000 (-1) (-1) (-1) "a"
           true false s Ex.link_info 1%nat H1 H2 H3 H4).
Defined.

Lemma trav_flags_are_ignored_witness :
  let os := Toy.os Ex.d_tree in
  let cfg := Ex.recursive_L in
  deref cfg = true
  /\ walk os (with_trav cfg false false) 4 "d" Ex.d_info 1000 (-1) (-1) (-1) Toy.init
     = walk os cfg 4 "d" Ex.d_info 1000 (-1) (-1) (-1) Toy.init.
Proof.
  intros os cfg.
  assert (H : deref cfg = true) by reflexivity.
  split; [exact H|].
  exact (trav_flags_are_ignored_under_dereference os cfg H false false 4 "d" Ex.d_info
           1000 (-1) (-1) (-1) Toy.init).
Defined.

Lemma main_needs_colons_witness :
  let os := Toy.os Inputs.named_file in
  let opts := Inputs.no_options in
  let args := ["root"; "f"] in
  version opts = false
  /\ rfile opts = ""
  /\ nth_error args 0 = Some "root"
  /\ nth_error args 1 = Some "f"
  /\ ((from opts = "" /\ has_colon "root" = false)
      \/ (from opts <> "" /\ has_colon (from opts) = false))
  /\ main os Inputs.passwd Toy.plain opts Inputs.HELP Inputs.VERSION 4 args Toy.init
     = (Panic (PanicString "runtime error: index out of range"), Toy.init).
Proof.
  intros os opts args.
  assert (H1 : version opts = false) by reflexivity.
  assert (H2 : rfile opts = "") by reflexivity.
  assert (H3 : nth_error args 0 = Some "root") by reflexivity.
  assert (H4 : nth_error args 1 = Some "f") by reflexivity.
  assert (H5 : (from opts = "" /\ has_colon "root" = false)
               \/ (from opts <> "" /\ has_colon (from opts) = false))
    by (left; split; reflexivity).
  split; [exact H1|]. split; [exact H2|]. split; [exact H3|]. split; [exact H4|].
  split; [exact H5|].
  exact (main_needs_colons os Inputs.passwd Toy.plain opts Inputs.HELP Inputs.VERSION
           4 args "root" "f" Toy.init H1 H2 H3 H4 H5).
Defined.

Lemma from_takes_both_ids_witness :
  let os := Toy.os Inputs.named_file in
  let opts := Inputs.from_eric_1000 in
  let s := Toy.init in
  Split_colon (from opts) = "eric" :: "1000" :: []
  /\ Atoi "1000" = (1000, None)
  /\ user_LookupId os (uint32 1000) (world s) = (inl "eric", 1%nat)
  /\ user_LookupGroupId os (uint32 1000) 1%nat = (inl "eric", 2%nat)
  /\ main_from os Inputs.passwd opts s
     = (Ret (inr (1000, 1000)),
        mkState 2%nat (trace s ++ [E_LookupId (uint32 1000) (inl "eric");
                                   E_LookupGroupId (uint32 1000) (inl "eric")])
                (DO_NOT_FOLLOW s)).
Proof.
  intros os opts s.
  assert (H1 : Split_colon (from opts) = "eric" :: "1000" :: []) by reflexivity.
  assert (H2 : Atoi "1000" = (1000, None)) by reflexivity.
  assert (H3 : user_LookupId os (uint32 1000) (world s) = (inl "eric", 1%nat))
    by reflexivity.
  assert (H4 : user_LookupGroupId os (uint32 1000) 1%nat = (inl "eric", 2%nat))
    by reflexivity.
  split; [exact H1|]. split; [exact H2|]. split; [exact H3|]. split; [exact H4|].
  exact (from_takes_both_ids_after_the_colon os Inputs.passwd opts s "eric" "1000" []
           1000 "eric" "eric" 1%nat 2%nat H1 H2 H3 H4).
Defined.

Lemma unknown_numeric_owner_witness :
  let os := Toy.os Inputs.named_file in
  let opts := Inputs.no_options in
  let a := ["4242"; "eric"] in
  let s := Toy.init in
  rfile opts = ""
  /\ nth_error a 0 = Some "4242"
  /\ nth_error a 1 = Some "eric"
  /\ Atoi "4242" = (4242, None)
  /\ user_LookupId os (uint32 4242) (world s) = (inr ENOENT, 1%nat)
  /\ main_ids os Inputs.passwd opts a "" "" s
     = or_exit (id_chain "eric" (gidToName os) (nameToGid Inputs.passwd)
                  "invalid groupame/gid %s\n" (-1))
         (fun optGid => ret (inr (-1, optGid)))
         (mkState 1%nat (trace s ++ [E_LookupId (uint32 4242) (inr ENOENT)])
                  (DO_NOT_FOLLOW s)).
Proof.
  intros os opts a s.
  assert (H1 : rfile opts = "") by reflexivity.
  assert (H2 : nth_error a 0 = Some "4242") by reflexivity.
  assert (H3 : nth_error a 1 = Some "eric") by reflexivity.
  assert (H4 : Atoi "4242" = (4242, None)) by reflexivity.
  assert (H5 : user_LookupId os (uint32 4242) (world s) = (inr ENOENT, 1%nat))
    by reflexivity.
  split; [exact H1|]. split; [exact H2|]. split; [exact H3|]. split; [exact H4|].
  split; [exact H5|].
  exact (unknown_numeric_owner_is_dropped os Inputs.passwd opts a "4242" "eric" "" ""
           4242 ENOENT 1%nat s H1 H2 H3 H4 H5).
Defined.

Lemma reference_witness :
  let os := Toy.os Inputs.named_file in
  let cfg := Toy.plain in
  let opts := Inputs.reference_ref in
  let args := ["f"] in
  let s := Toy.init in
  let r : Stat_t + Errno := inr ENOENT in
  version opts = false
  /\ rfile opts <> ""
  /\ from opts = ""
  /\ debug opts = false
  /\ nth_error args 0 = Some "f"
  /\ syscall_Stat os (rfile opts) (world s) = (r, 1%nat)
  /\ 0 <= Uid (stat_or_zero r) < 2 ^ 32
  /\ 0 <= Gid (stat_or_zero r) < 2 ^ 32
  /\ user_LookupId os (Uid (stat_or_zero r)) 1%nat = (inl "root", 2%nat)
  /\ user_LookupGroupId os (Gid (stat_or_zero r)) 2%nat = (inl "root", 3%nat)
  /\ recursive cfg && (if noderef opts then false else deref cfg)
       && negb (travDir cfg) && negb (travAll cfg) = false
  /\ main os Inputs.passwd cfg opts Inputs.HELP Inputs.VERSION 4 args s
     = bind (ChownFiles os (run_flags cfg opts 0 0) 4 "f" 0 0 (-1) (-1))
            (fun b => if negb b then ret (Exit ([], 1)) else ret Return)
            (mkState 3%nat
               (trace s ++ [E_sysStat "ref" (inr ENOENT)]
                  ++ [E_Printf "cannot stat rfile '%s'" [AStr "ref"]]
                  ++ [E_LookupId 0 (inl "root"); E_LookupGroupId 0 (inl "root")])
               (DO_NOT_FOLLOW s)).
Proof.
  intros os cfg opts args s r.
  assert (H1 : version opts = false) by reflexivity.
  assert (H2 : rfile opts <> "") by discriminate.
  assert (H3 : from opts = "") by reflexivity.
  assert (H4 : debug opts = false) by reflexivity.
  assert (H5 : nth_error args 0 = Some "f") by reflexivity.
  assert (H6 : syscall_Stat os (rfile opts) (world s) = (r, 1%nat)) by reflexivity.
  assert (H7 : 0 <= Uid (stat_or_zero r) < 2 ^ 32) by (simpl; lia).
  assert (H8 : 0 <= Gid (stat_or_zero r) < 2 ^ 32) by (simpl; lia).
  assert (H9 : user_LookupId os (Uid (stat_or_zero r)) 1%nat = (inl "root", 2%nat))
    by reflexivity.
  assert (H10 : user_LookupGroupId os (Gid (stat_or_zero r)) 2%nat = (inl "root", 3%nat))
    by reflexivity.
  assert (H11 : recursive cfg && (if noderef opts then false else deref cfg)
                  && negb (travDir cfg) && negb (travAll cfg) = false) by reflexivity.
  split; [exact H1|]. split; [exact H2|]. split; [exact H3|]. split; [exact H4|].
  split; [exact H5|]. split; [exact H6|]. split; [exact H7|]. split; [exact H8|].
  split; [exact H9|]. split; [exact H10|]. split; [exact H11|].
  exact (reference_gives_the_ids_of_the_stat_or_zero os Inputs.passwd cfg opts
           Inputs.HELP Inputs.VERSION 4 args "f" s r 1%nat "root" "root" 2%nat 3%nat
           H1 H2 H3 H4 H5 H6 H7 H8 H9 H10 H11).
Defined.

Lemma main_without_operands_witness :
  let os := Toy.os Inputs.named_file in
  let opts := Inputs.no_options in
  let args := ["f"] in
  version opts = false
  /\ (rfile opts = "" -> (List.length args < 2)%nat ->
      main os Inputs.passwd Toy.plain opts Inputs.HELP Inputs.VERSION 4 args Toy.init
      = (Ret (Exit ([("You forgot an argument! (Or two. Or more.)\nIn case you forgot how to use the program, here's how:\n\n", []);
                     ("%s\n", [AStr Inputs.HELP])], 1)), Toy.init))
  /\ (rfile opts <> "" -> args = [] ->
      main os Inputs.passwd Toy.plain opts Inputs.HELP Inputs.VERSION 4 args Toy.init
      = (Panic (PanicString "runtime error: index out of range"), Toy.init)).
Proof.
  intros os opts args.
  assert (H : version opts = false) by reflexivity.
  split; [exact H|].
  exact (main_without_operands os Inputs.passwd Toy.plain opts Inputs.HELP Inputs.VERSION
           4 args Toy.init H).
Defined.

Lemma recursion_needs_H_or_L_witness :
  let os := Toy.os Inputs.named_file in
  let cfg := Inputs.recursive_only in
  let opts := Inputs.no_options in
  recursive cfg = true
  /\ noderef opts = false
  /\ deref cfg = true
  /\ travDir cfg = false
  /\ travAll cfg = false
  /\ forall fuel args,
       emits is_parse_event
         (main os Inputs.passwd cfg opts Inputs.HELP Inputs.VERSION fuel args)
       /\ finishes (fun e => e <> Return)
            (main os Inputs.passwd cfg opts Inputs.HELP Inputs.VERSION fuel args).
Proof.
  intros os cfg opts.
  assert (H1 : recursive cfg = true) by reflexivity.
  assert (H2 : noderef opts = false) by reflexivity.
  assert (H3 : deref cfg = true) by reflexivity.
  assert (H4 : travDir cfg = false) by reflexivity.
  assert (H5 : travAll cfg = false) by reflexivity.
  split; [exact H1|]. split; [exact H2|]. split; [exact H3|]. split; [exact H4|].
  split; [exact H5|].
  exact (recursion_under_dereference_needs_H_or_L os Inputs.passwd cfg opts
           Inputs.HELP Inputs.VERSION H1 H2 H3 H4 H5).
Defined.

Lemma verbose_report_of_failed_Lchown_witness :
  let os := Toy.os Ex.foreign in
  let cfg := Ex.no_deref_verbose in
  let s := Toy.init in
  let run := ChangeOwner os cfg "f" Ex.f_info 1000 (-1) (-1) (-1) s in
  deref cfg = false
  /\ verbose cfg = true
  /\ mute cfg = false
  /\ os_Open os "f" (world s) = (inl 7, 1%nat)
  /\ syscall_Stat os "f" 1%nat = (inl Ex.f_500_7, 2%nat)
  /\ is_root Ex.f_500_7 = false
  /\ os_Lchown os "f" 1000 (-1) 2%nat = (Some EPERM, 3%nat)
  /\ fst run = Panic (PanicString "let's go out with a bang!")
  /\ exists n1 n2 n3 n4,
       trace (snd run)
       = trace s ++ [E_Open "f" (inl 7); E_sysStat "f" (inl Ex.f_500_7);
                     E_Lchown "f" 1000 (-1) (Some EPERM);
                     E_LookupId (Uid Ex.f_500_7) n1; E_LookupGroupId (Gid Ex.f_500_7) n2;
                     E_LookupId (uint32 (optUid cfg)) n3;
                     E_LookupGroupId (uint32 (optGid cfg)) n4;
                     E_Printf "neither symbolic link '%s' nor referent has been changed\n"
                       [AStr "f"]].
Proof.
  intros os cfg s run.
  assert (H1 : deref cfg = false) by reflexivity.
  assert (H2 : verbose cfg = true) by reflexivity.
  assert (H3 : mute cfg = false) by reflexivity.
  assert (H4 : os_Open os "f" (world s) = (inl 7, 1%nat)) by reflexivity.
  assert (H5 : syscall_Stat os "f" 1%nat = (inl Ex.f_500_7, 2%nat)) by reflexivity.
  assert (H6 : is_root Ex.f_500_7 = false) by reflexivity.
  assert (H7 : os_Lchown os "f" 1000 (-1) 2%nat = (Some EPERM, 3%nat)) by reflexivity.
  split; [exact H1|]. split; [exact H2|]. split; [exact H3|]. split; [exact H4|].
  split; [exact H5|]. split; [exact H6|]. split; [exact H7|].
  exact (verbose_report_of_failed_Lchown_panics os cfg "f" Ex.f_info 1000 (-1) (-1) (-1) s
           7 1%nat Ex.f_500_7 2%nat EPERM 3%nat H1 H2 H3 H4 H5 H6 H7).
Defined.

Lemma no_dereference_ignores_the_filter_witness :
  let os := Toy.os Ex.link_tree in
  let cfg := Ex.no_deref_L in
  deref cfg = false
  /\ ChownFiles os cfg 4 "d" 1000 (-1) (-1) (-1) Toy.init
     = ChownFiles os cfg 4 "d" 1000 (-1) 0 0 Toy.init.
Proof.
  intros os cfg.
  assert (H : deref cfg = false) by reflexivity.
  split; [exact H|].
  exact (no_dereference_ignores_the_filter os cfg H 4 "d" 1000 (-1) (-1) (-1) 0 0 Toy.init).
Defined.

Lemma no_dereference_changes_by_Lchown_only_witness :
  let os := Toy.os Ex.link_tree in
  let cfg := Ex.no_deref_L in
  deref cfg = false
  /\ emits is_no_deref_event (ChownFiles os cfg 4 "d" 1000 (-1) (-1) (-1)).
Proof.
  intros os cfg.
  assert (H : deref cfg = false) by reflexivity.
  split; [exact H|].
  exact (no_dereference_changes_by_Lchown_only os cfg H 4 "d" 1000 (-1) (-1) (-1)).
Defined.
